(** * The T3 inference acceleration core

    A shallow embedding of the token-generation step ([generate_t3_token]),
    of the generation driver ([inference_optimized]), of the direct loop
    ([DirectT3Inference.generate_fast]) and of the embedding-cache builders
    of the T3 class, together with the properties the specification states
    about them.

    Conventions.
    - Python integers are [Z]; Python floats that are only compared and
      combined (cfg_weight, temperature, min_p, top_p, penalties) are exact
      rationals [Q].
    - A logits vector is an abstract type [Lg] with the tensor operations
      the code uses ([TensorOps]): the code never inspects a logit itself.
    - A tensor of shape (B, S, .) is a list of B rows of S entries.
    - Code that can raise returns a [result]; the exception classes are
      the Python ones.
    - torch, transformers and the transformer model are collaborators: they
      are section variables, and are instantiated only in examples. *)

From Stdlib Require Import ZArith QArith List Bool Lia.
Import ListNotations.
Local Open Scope Z_scope.

(** ** Python exceptions and the error monad *)

Inductive PyErr : Type :=
| AssertionError
| IndexError
| RuntimeError
| ValueError
| ZeroDivisionError.

Inductive result (A : Type) : Type :=
| Ok (a : A)
| Raise (e : PyErr).
Arguments Ok {A} a.
Arguments Raise {A} e.

Definition bind {A B : Type} (r : result A) (k : A -> result B) : result B :=
  match r with
  | Ok a => k a
  | Raise e => Raise e
  end.

Notation "x <- c ;; k" := (bind c (fun x => k))
  (at level 61, c at next level, right associativity).

Definition is_ok {A : Type} (r : result A) : bool :=
  match r with Ok _ => true | Raise _ => false end.

(** ** Python sequences *)

(** Normalisation of a (possibly negative) index into a sequence of
    length [len]; [None] is an IndexError. *)
Definition py_index (len i : Z) : option nat :=
  if (0 <=? i) && (i <? len) then Some (Z.to_nat i)
  else if (- len <=? i) && (i <? 0) then Some (Z.to_nat (len + i))
  else None.

Definition zlen {A : Type} (l : list A) : Z := Z.of_nat (length l).

(** [l[i]] *)
Definition py_get {A : Type} (l : list A) (i : Z) : result A :=
  match py_index (zlen l) i with
  | Some n => match nth_error l n with Some a => Ok a | None => Raise IndexError end
  | None => Raise IndexError
  end.

Fixpoint set_nth {A : Type} (l : list A) (n : nat) (v : A) : list A :=
  match l, n with
  | [], _ => []
  | _ :: t, O => v :: t
  | h :: t, S n' => h :: set_nth t n' v
  end.

(** [l[i] = v] *)
Definition py_set {A : Type} (l : list A) (i : Z) (v : A) : result (list A) :=
  match py_index (zlen l) i with
  | Some n => Ok (set_nth l n v)
  | None => Raise IndexError
  end.

(** [l[:n]] *)
Definition py_slice_to {A : Type} (l : list A) (n : Z) : list A :=
  if 0 <=? n then firstn (Z.to_nat n) l
  else firstn (Z.to_nat (zlen l + n)) l.

(** [l[-1:]] *)
Definition py_last1 {A : Type} (l : list A) : list A :=
  skipn (length l - 1) l.

(** [t[b, s]] on a tensor of shape (B, S, .) *)
Definition py_get2 {A : Type} (t : list (list A)) (b s : Z) : result A :=
  row <- py_get t b ;; py_get row s.

(** [range(n)] *)
Definition py_range (n : Z) : list Z :=
  map Z.of_nat (seq 0 (Z.to_nat n)).

(** ** Floats that are only compared *)

Definition Qlt_bool (a b : Q) : bool := negb (Qle_bool b a).

(** ** Tensor operations on logits *)

Class TensorOps (Lg : Type) : Type := {
  t_add : Lg -> Lg -> Lg;        (* a + b *)
  t_sub : Lg -> Lg -> Lg;        (* a - b *)
  t_scale : Q -> Lg -> Lg;       (* w * a *)
  t_div : Lg -> Q -> Lg;         (* a / t *)
}.

(** A logits processor of transformers: [(input_ids, scores) -> scores].
    The direct loop calls its warpers with [None] for [input_ids]. *)
Definition Processor (Lg : Type) : Type := option (list Z) -> Lg -> Lg.

Definition apply_opt {Lg : Type} (p : option (Processor Lg))
    (ids : option (list Z)) (logits : Lg) : Lg :=
  match p with
  | Some f => f ids logits
  | None => logits
  end.

(** The temperature stage, and a stage behind a gate. *)
Definition temperature_stage {Lg : Type} {ops : TensorOps Lg}
    (temperature : Q) (logits : Lg) : Lg :=
  if Qeq_bool temperature 1 then logits else t_div logits temperature.

Definition gated {Lg : Type} (gate : bool) (stage : Lg -> Lg) (logits : Lg) : Lg :=
  if gate then stage logits else logits.

(** ** The step function and the direct loop's logits processing *)

Section Step.
Context {Lg : Type} {ops : TensorOps Lg}.
Variables Emb KV Rng : Type.
Variable emb_add : Emb -> Emb -> Emb.
Variable softmax : Lg -> Lg.
(** [torch.multinomial(probs, num_samples=1)] on the generator state. *)
Variable multinomial : Rng -> Lg -> Z * Rng.
(** [patched_model(inputs_embeds=..., past_key_values=kv_cache)]:
    the logits, and the cache contents it leaves. *)
Variable patched_model : list (list Emb) -> KV -> list (list Lg) * KV.

(** inference_optimized.py, lines 69-76. *)
Definition cfg_logits (output_logits : list (list Lg)) (cfg_weight : Q)
    : result Lg :=
  logits_cond <- py_get2 output_logits 0 0 ;;
  if Qlt_bool 0 cfg_weight then
    logits_uncond <- py_get2 output_logits 1 0 ;;
    Ok (t_add logits_cond (t_scale cfg_weight (t_sub logits_cond logits_uncond)))
  else Ok logits_cond.

(** inference_optimized.py, lines 78-92. *)
Definition process_logits
    (repetition_penalty_processor : option (Processor Lg))
    (temperature : Q)
    (min_p_warper top_p_warper : option (Processor Lg))
    (generated_ids : list Z) (logits : Lg) : Lg :=
  let logits := apply_opt repetition_penalty_processor (Some generated_ids) logits in
  let logits := if negb (Qeq_bool temperature 1) then t_div logits temperature
                else logits in
  let logits := apply_opt min_p_warper (Some generated_ids) logits in
  let logits := apply_opt top_p_warper (Some generated_ids) logits in
  logits.

Record StepOut : Type := mkStepOut {
  so_next_token : Z;
  so_output_logits : list (list Lg);
  so_generated_ids : list Z;
  so_kv : KV;
  so_rng : Rng;
}.

(** [generate_t3_token], inference_optimized.py lines 51-116.  The token
    buffer has shape (1, L): [generated_ids] is its row and [batch_idx]
    indexes the one row.  [stride_length] and [max_position] are accepted
    and unused, as in the source. *)
Definition generate_t3_token
    (_speech_embedding_cache : list Emb)
    (output_logits : list (list Lg))
    (i_tensor batch_idx : Z)
    (_speech_pos_embedding_cache : list Emb)
    (generated_ids : list Z)
    (cfg_weight temperature : Q)
    (repetition_penalty_processor min_p_warper top_p_warper : option (Processor Lg))
    (kv_cache : KV) (stride_length : Z) (max_position : option Z)
    (rng : Rng) : result StepOut :=
  logits <- cfg_logits output_logits cfg_weight ;;
  let logits := process_logits repetition_penalty_processor temperature
                  min_p_warper top_p_warper generated_ids logits in
  let probs := softmax logits in
  let '(next_token, rng) := multinomial rng probs in
  _ <- match py_index 1 batch_idx with
       | Some _ => Ok tt | None => Raise IndexError end ;;
  generated_ids <- py_set generated_ids i_tensor next_token ;;
  next_emb <- py_get _speech_embedding_cache next_token ;;
  pos_emb <- py_get _speech_pos_embedding_cache i_tensor ;;
  let next_emb_cond := emb_add next_emb pos_emb in
  let inputs_embeds :=
    if Qlt_bool 0 cfg_weight then [[next_emb_cond]; [next_emb_cond]]
    else [[next_emb_cond]] in
  let '(output_logits, kv_cache) := patched_model inputs_embeds kv_cache in
  Ok (mkStepOut next_token output_logits generated_ids kv_cache rng).

(** [DirectT3Inference.generate_fast], direct_inference.py lines
    196-203: the guidance mix of one iteration.  [logits] is the output
    of the speech head, of shape (B, 1, V). *)
Definition generate_fast_cfg (cfg_weight : Q) (logits : list (list Lg))
    : result Lg :=
  if Qlt_bool 0 cfg_weight && (zlen logits =? 2) then
    logits_cond <- py_get2 logits 0 0 ;;
    logits_uncond <- py_get2 logits 1 0 ;;
    Ok (t_add logits_cond (t_scale cfg_weight (t_sub logits_cond logits_uncond)))
  else py_get2 logits 0 0.

(** Lines 205-222: the processing and the draw of one iteration.  The
    three processors are the attributes of the [DirectT3Inference]
    object; [min_p] and [top_p] only gate the warpers. *)
Definition generate_fast_logits
    (repetition_penalty_processor min_p_warper top_p_warper : Processor Lg)
    (cfg_weight temperature min_p top_p : Q)
    (generated_tokens : list Z)
    (logits : list (list Lg)) : result Lg :=
  logits <- generate_fast_cfg cfg_weight logits ;;
  let logits := if negb (Qeq_bool temperature 1) then t_div logits temperature
                else logits in
  let logits := if 1 <? zlen generated_tokens
                then repetition_penalty_processor (Some generated_tokens) logits
                else logits in
  let logits := if Qlt_bool 0 min_p then min_p_warper None logits else logits in
  let logits := if Qlt_bool top_p 1 then top_p_warper None logits else logits in
  Ok logits.

Definition generate_fast_token
    (repetition_penalty_processor min_p_warper top_p_warper : Processor Lg)
    (cfg_weight temperature min_p top_p : Q)
    (generated_tokens : list Z)
    (logits : list (list Lg)) (rng : Rng) : result (Z * Rng) :=
  logits <- generate_fast_logits repetition_penalty_processor min_p_warper
              top_p_warper cfg_weight temperature min_p top_p
              generated_tokens logits ;;
  Ok (multinomial rng (softmax logits)).

End Step.

(** ** Hyper-parameters, dtypes and cached tensors *)

(** The fields of [self.hp] the core reads. *)
Record HP : Type := mkHP {
  start_speech_token : Z;
  stop_speech_token : Z;
  max_speech_tokens : Z;
  speech_tokens_dict_size : Z;
}.

(** [TOKEN_LIMIT] of t3_cuda_graphs, the value apply_faster_inference.py
    writes into t3.py (line 45) and implement_faster_inference.py binds
    (line 142). *)
Definition TOKEN_LIMIT : Z := 1500.

Inductive Dtype : Type := Float32 | Float16 | BFloat16.

Definition dtype_eqb (a b : Dtype) : bool :=
  match a, b with
  | Float32, Float32 | Float16, Float16 | BFloat16, BFloat16 => true
  | _, _ => false
  end.

(** A tensor of embeddings of shape (rows, dim), with its dtype. *)
Record ETensor (Emb : Type) : Type := mkETensor {
  et_rows : list Emb;
  et_dtype : Dtype;
}.
Arguments mkETensor {Emb} et_rows et_dtype.
Arguments et_rows {Emb} e.
Arguments et_dtype {Emb} e.

(** [t.size(0)] *)
Definition et_size0 {Emb : Type} (t : ETensor Emb) : Z := zlen (et_rows t).

(** ** The state of the T3 object *)

(** The static key-value cache object: its allocated shape and its
    contents. *)
Record KVHandle (KV : Type) : Type := mkKVHandle {
  kv_batch_size : Z;
  kv_max_cache_len : Z;
  kv_dtype : Dtype;
  kv_data : KV;
}.
Arguments mkKVHandle {KV} kv_batch_size kv_max_cache_len kv_dtype kv_data.
Arguments kv_batch_size {KV} k.
Arguments kv_max_cache_len {KV} k.
Arguments kv_dtype {KV} k.
Arguments kv_data {KV} k.

(** The calls the driver makes on the CUDA-graph wrapper, oldest first. *)
Inductive WEvent : Type :=
| WGuard
| WCall (max_position : option Z).

Record T3 (Emb KV : Type) : Type := mkT3 {
  top_p_warper_top_p : Q;
  top_p_warper_skip_when_1 : bool;
  min_p_warper_min_p : Q;
  repetition_penalty_processor_penalty : Q;
  speech_pos_embedding_cache : option (ETensor Emb);
  speech_embedding_cache : option (ETensor Emb);
  kv_cache : option (KVHandle KV);
  cudagraph_wrapper : option (list WEvent);
}.
Arguments mkT3 {Emb KV}.
Arguments top_p_warper_top_p {Emb KV} t.
Arguments top_p_warper_skip_when_1 {Emb KV} t.
Arguments min_p_warper_min_p {Emb KV} t.
Arguments repetition_penalty_processor_penalty {Emb KV} t.
Arguments speech_pos_embedding_cache {Emb KV} t.
Arguments speech_embedding_cache {Emb KV} t.
Arguments kv_cache {Emb KV} t.
Arguments cudagraph_wrapper {Emb KV} t.

(** ** The embedding-cache builders and [update_processors]
    (the methods apply_faster_inference.py adds to T3, lines 76-104) *)

Section Builders.
Variables Emb KV : Type.
(** Element conversion of [tensor.to(dtype=...)]. *)
Variable cast : Dtype -> Emb -> Emb.
(** [self.speech_pos_emb.get_fixed_embedding(pos)] and the dtype of the
    tensors it returns. *)
Variable get_fixed_embedding : Z -> Emb.
Variable pos_emb_dtype : Dtype.
(** [self.speech_emb.weight] *)
Variable speech_emb_weight : ETensor Emb.

(** The test both builders start with: the attribute is missing, or the
    tensor has fewer rows than requested. *)
Definition needs_rebuild (cache : option (ETensor Emb)) (n : Z) : Prop :=
  match cache with
  | None => True
  | Some c => et_size0 c < n
  end.

Definition to_dtype (dtype : Dtype) (t : ETensor Emb) : ETensor Emb :=
  mkETensor (map (cast dtype) (et_rows t)) dtype.

(** [torch.stack(tensors, dim=0)]: refuses an empty list. *)
Definition torch_stack (tensors : list Emb) (dtype : Dtype)
    : result (ETensor Emb) :=
  match tensors with
  | [] => Raise RuntimeError
  | _ => Ok (mkETensor tensors dtype)
  end.

Definition set_pos_cache (self : T3 Emb KV) (c : ETensor Emb) : T3 Emb KV :=
  mkT3 (top_p_warper_top_p self) (top_p_warper_skip_when_1 self)
       (min_p_warper_min_p self) (repetition_penalty_processor_penalty self)
       (Some c) (speech_embedding_cache self) (kv_cache self)
       (cudagraph_wrapper self).

Definition set_speech_cache (self : T3 Emb KV) (c : ETensor Emb) : T3 Emb KV :=
  mkT3 (top_p_warper_top_p self) (top_p_warper_skip_when_1 self)
       (min_p_warper_min_p self) (repetition_penalty_processor_penalty self)
       (speech_pos_embedding_cache self) (Some c) (kv_cache self)
       (cudagraph_wrapper self).

(** [get_speech_pos_embedding_cache], lines 86-96.  The rebuilt tensor is
    moved with [.to(device=self.device)] only. *)
Definition get_speech_pos_embedding_cache (self : T3 Emb KV)
    (max_gen_tokens : Z) (dtype : Dtype) : result (T3 Emb KV * ETensor Emb) :=
  let rebuild :=
    match speech_pos_embedding_cache self with
    | None => true
    | Some c => et_size0 c <? max_gen_tokens
    end in
  if rebuild then
    c <- torch_stack (map get_fixed_embedding (py_range max_gen_tokens))
           pos_emb_dtype ;;
    Ok (set_pos_cache self c, c)
  else
    match speech_pos_embedding_cache self with
    | Some c =>
        if negb (dtype_eqb (et_dtype c) dtype) then
          let c := to_dtype dtype c in Ok (set_pos_cache self c, c)
        else Ok (self, c)
    | None => Raise RuntimeError
    end.

(** [init_speech_embedding_cache], lines 98-104. *)
Definition init_speech_embedding_cache (self : T3 Emb KV)
    (vocab_size : Z) (dtype : Dtype) : result (T3 Emb KV * ETensor Emb) :=
  let rebuild :=
    match speech_embedding_cache self with
    | None => true
    | Some c => et_size0 c <? vocab_size
    end in
  if rebuild then
    let c := to_dtype dtype speech_emb_weight in
    Ok (set_speech_cache self c, c)
  else
    match speech_embedding_cache self with
    | Some c =>
        if negb (dtype_eqb (et_dtype c) dtype) then
          let c := to_dtype dtype c in Ok (set_speech_cache self c, c)
        else Ok (self, c)
    | None => Raise RuntimeError
    end.

(** [update_processors], lines 76-84.  The constructor of
    [RepetitionPenaltyLogitsProcessor] refuses a penalty that is not
    strictly positive. *)
Definition update_processors (self : T3 Emb KV)
    (top_p min_p repetition_penalty : Q) (skip_when_1 : bool)
    : result (T3 Emb KV) :=
  let '(tp, sk) :=
    if negb (Qeq_bool (top_p_warper_top_p self) top_p)
    then (top_p, skip_when_1)
    else (top_p_warper_top_p self, top_p_warper_skip_when_1 self) in
  let mp :=
    if negb (Qeq_bool (min_p_warper_min_p self) min_p)
    then min_p else min_p_warper_min_p self in
  rp <-
    (if negb (Qeq_bool (repetition_penalty_processor_penalty self) repetition_penalty)
     then if Qlt_bool 0 repetition_penalty then Ok repetition_penalty
          else Raise ValueError
     else Ok (repetition_penalty_processor_penalty self)) ;;
  Ok (mkT3 tp sk mp rp (speech_pos_embedding_cache self)
        (speech_embedding_cache self) (kv_cache self) (cudagraph_wrapper self)).

End Builders.

(** ** The generation driver *)

(** The values of [generate_token_backend].  A name that is no key of
    [_generate_token_variants] selects the eager step; only such a name
    can contain "stride". *)
Inductive Backend : Type :=
| Eager
| Cudagraphs
| Inductor
| CudagraphsManual
| OtherBackend (mentions_stride : bool).

Definition backend_mentions_stride (b : Backend) : bool :=
  match b with OtherBackend s => s | _ => false end.

Definition backend_is_manual (b : Backend) : bool :=
  match b with CudagraphsManual => true | _ => false end.

(** The keyword arguments of [inference_optimized] the driver reads.
    [a_embeds] is what [prepare_input_embeds] returns for the request's
    conditioning and text; the two variants of the initial forward pass
    compute the same function and timing is not modelled. *)
Record Args (Emb : Type) : Type := mkArgs {
  a_embeds : list (list Emb);
  a_length_guesstimate : Z;
  a_max_new_tokens : option Z;
  a_temperature : Q;
  a_min_p : Q;
  a_top_p : Q;
  a_repetition_penalty : Q;
  a_cfg_weight : Q;
  a_max_cache_len : Z;
  a_generate_token_backend : Backend;
  a_stride_length : Z;
  a_skip_when_1 : bool;
}.
Arguments mkArgs {Emb}.
Arguments a_embeds {Emb} a.
Arguments a_length_guesstimate {Emb} a.
Arguments a_max_new_tokens {Emb} a.
Arguments a_temperature {Emb} a.
Arguments a_min_p {Emb} a.
Arguments a_top_p {Emb} a.
Arguments a_repetition_penalty {Emb} a.
Arguments a_cfg_weight {Emb} a.
Arguments a_max_cache_len {Emb} a.
Arguments a_generate_token_backend {Emb} a.
Arguments a_stride_length {Emb} a.
Arguments a_skip_when_1 {Emb} a.

(** [(t == v).nonzero()[0]]: the first position holding [v]. *)
Fixpoint first_index (v : Z) (l : list Z) : option Z :=
  match l with
  | [] => None
  | x :: t =>
      if x =? v then Some 0
      else match first_index v t with
           | Some k => Some (k + 1)
           | None => None
           end
  end.

Definition bos_len : Z := 1.

Section Driver.
Context {Lg : Type} {ops : TensorOps Lg}.
Variables Emb KV Rng : Type.
Variable emb_add : Emb -> Emb -> Emb.
Variable emb_zero : Emb.
Variable softmax : Lg -> Lg.
Variable multinomial : Rng -> Lg -> Z * Rng.
Variable patched_model : list (list Emb) -> KV -> list (list Lg) * KV.
Variable cast : Dtype -> Emb -> Emb.
Variable get_fixed_embedding : Z -> Emb.
Variable pos_emb_dtype : Dtype.
Variable speech_emb_weight : ETensor Emb.
(** [self.patched_model.dtype] and [self.hp] *)
Variable model_dtype : Dtype.
Variable hp : HP.
(** [StaticCache(config, batch_size, max_cache_len, device, dtype)] and
    [StaticCache.reset()], on the cache contents. *)
Variable static_cache : Z -> Z -> Dtype -> KV.
Variable static_cache_reset : KV -> KV.
(** What the three processor objects compute, by their parameters. *)
Variable repetition_penalty_call : Q -> Processor Lg.
Variable min_p_call : Q -> Processor Lg.
Variable top_p_call : Q -> bool -> Processor Lg.
(** [get_next_bucket] of t3_cuda_graphs. *)
Variable get_next_bucket : Z -> Z -> Z -> Z.

Definition PAD_TOKEN_ID : Z := stop_speech_token hp + 1.

(** Lines 227-240: the static cache is allocated when the object has
    none, and reset otherwise. *)
Definition setup_kv_cache (self : T3 Emb KV)
    (effective_batch_size max_cache_len : Z) : T3 Emb KV * KVHandle KV :=
  let h :=
    match kv_cache self with
    | None =>
        mkKVHandle effective_batch_size max_cache_len model_dtype
          (static_cache effective_batch_size max_cache_len model_dtype)
    | Some h =>
        mkKVHandle (kv_batch_size h) (kv_max_cache_len h) (kv_dtype h)
          (static_cache_reset (kv_data h))
    end in
  (mkT3 (top_p_warper_top_p self) (top_p_warper_skip_when_1 self)
        (min_p_warper_min_p self) (repetition_penalty_processor_penalty self)
        (speech_pos_embedding_cache self) (speech_embedding_cache self)
        (Some h) (cudagraph_wrapper self), h).

(** Lines 215-222: default, clamp and ceiling of the token budget. *)
Definition clamp_max_new_tokens (max_new_tokens : option Z)
    (max_cache_len seq_len : Z) : result Z :=
  let max_new_tokens :=
    match max_new_tokens with
    | None => max_speech_tokens hp
    | Some n => n
    end in
  let max_new_tokens :=
    if max_cache_len <? seq_len + max_new_tokens
    then max_cache_len - seq_len else max_new_tokens in
  if max_new_tokens <? TOKEN_LIMIT then Ok max_new_tokens
  else Raise AssertionError.

(** Lines 224-225. *)
Definition initial_generated_ids : list Z :=
  set_nth (repeat PAD_TOKEN_ID (Z.to_nat (bos_len + TOKEN_LIMIT))) 0
    (start_speech_token hp).

(** [torch.arange(1, n + 1)]: refuses an upper bound below the lower. *)
Definition torch_arange_1 (n : Z) : result (list Z) :=
  if n + 1 <? 1 then Raise RuntimeError
  else Ok (map (fun k => k + 1) (py_range n)).

(** [_initial_forward_pass], lines 26-41. *)
Definition _initial_forward_pass (inputs_embeds : list (list Emb))
    (kv : KV) (seq_len : Z) : list (list Lg) * KV :=
  let inputs_embeds := map (fun row => py_slice_to row seq_len) inputs_embeds in
  let '(output_logits, kv) := patched_model inputs_embeds kv in
  (map (@py_last1 Lg) output_logits, kv).

(** The state the decode loop carries from one iteration to the next. *)
Record LoopState : Type := mkLoopState {
  ls_generated_ids : list Z;
  ls_output_logits : list (list Lg);
  ls_kv : KV;
  ls_rng : Rng;
  ls_wrapper : list WEvent;
}.

(** What the loop reads and does not change. *)
Record LoopEnv : Type := mkLoopEnv {
  le_speech_cache : list Emb;
  le_pos_cache : list Emb;
  le_cfg_weight : Q;
  le_temperature : Q;
  le_repetition_penalty_processor : Processor Lg;
  le_min_p_warper : Processor Lg;
  le_top_p_warper : Processor Lg;
  le_backend : Backend;
  le_stride_length : Z;
  le_seq_len : Z;
  le_indices : list Z;
  le_length_guesstimate : Z;
}.

Inductive Flow : Type :=
| Continue (st : LoopState)
| Break (st : LoopState).

(** Lines 288-296: the periodic test for the stop token. *)
Definition eos_check (env : LoopEnv) (i : Z) (generated_ids : list Z)
    : result bool :=
  if i * le_stride_length env >? le_length_guesstimate env then
    if 20 / le_stride_length env =? 0 then Raise ZeroDivisionError
    else if i mod (20 / le_stride_length env) =? 0
         then Ok (existsb (Z.eqb (stop_speech_token hp)) generated_ids)
         else Ok false
  else Ok false.

(** Lines 302-305: the bucket the manual CUDA-graph backend is given. *)
Definition max_position_of (env : LoopEnv) (i : Z) : option Z :=
  if backend_is_manual (le_backend env)
  then Some (get_next_bucket (i + le_seq_len env) 250 TOKEN_LIMIT)
  else None.

(** One iteration of the loop, lines 285-328.  Every backend runs
    [generate_t3_token]; the manual CUDA-graph backend runs it through
    the wrapper object, which sees one call. *)
Definition loop_body (env : LoopEnv) (i : Z) (st : LoopState) : result Flow :=
  i_tensor <- py_get (le_indices env) (i * le_stride_length env) ;;
  brk <- eos_check env i (ls_generated_ids st) ;;
  if brk then Ok (Break st)
  else
    let manual := backend_is_manual (le_backend env) in
    let max_position := max_position_of env i in
    out <- generate_t3_token Emb KV Rng emb_add softmax multinomial patched_model
             (le_speech_cache env) (ls_output_logits st) i_tensor 0
             (le_pos_cache env) (ls_generated_ids st)
             (le_cfg_weight env) (le_temperature env)
             (Some (le_repetition_penalty_processor env))
             (Some (le_min_p_warper env)) (Some (le_top_p_warper env))
             (ls_kv st) (le_stride_length env) max_position (ls_rng st) ;;
    Ok (Continue
          (mkLoopState (so_generated_ids _ _ out) (so_output_logits _ _ out)
             (so_kv _ _ out) (so_rng _ _ out)
             (if manual then ls_wrapper st ++ [WCall max_position]
              else ls_wrapper st))).

(** [for i in range(n)], from iteration [i] on. *)
Fixpoint decode_loop (env : LoopEnv) (n : nat) (i : Z) (st : LoopState)
    : result LoopState :=
  match n with
  | O => Ok st
  | S n' =>
      f <- loop_body env i st ;;
      match f with
      | Break st' => Ok st'
      | Continue st' => decode_loop env n' (i + 1) st'
      end
  end.

(** Lines 336-343. *)
Definition finalize (generated_ids : list Z) (max_new_tokens : Z) : list Z :=
  let actual_length :=
    match first_index (stop_speech_token hp) generated_ids with
    | Some k => k + 1
    | None => bos_len + max_new_tokens
    end in
  py_slice_to generated_ids actual_length.

(** What [inference_optimized] has computed when the loop starts. *)
Record Prepared : Type := mkPrepared {
  pr_self : T3 Emb KV;
  pr_kv : KVHandle KV;
  pr_max_new_tokens : Z;
  pr_effective_batch_size : Z;
  pr_env : LoopEnv;
  pr_iterations : Z;
  pr_state : LoopState;
}.

(** Lines 185-195: the embedding of the start token, doubled, is
    appended to each row of the prompt when guidance is on;
    [torch.cat] along dim 1 needs a prompt of two rows. *)
Definition cat_bos (cfg_weight : Q) (embeds : list (list Emb)) (bos_embed : Emb)
    : result (list (list Emb)) :=
  let bos_embed := [[bos_embed]; [bos_embed]] in
  if Qlt_bool 0 cfg_weight then
    if zlen embeds =? 2
    then Ok (map (fun p => fst p ++ snd p) (combine embeds bos_embed))
    else Raise RuntimeError
  else Ok embeds.

(** Lines 242-246. *)
Definition pad_inputs (inputs_embeds : list (list Emb)) (seq_len : Z)
    : list (list Emb) :=
  let max_seq_len := 1024 in
  if seq_len <? max_seq_len
  then map (fun row => row ++ repeat emb_zero (Z.to_nat (max_seq_len - seq_len)))
         inputs_embeds
  else inputs_embeds.

(** Lines 255-267: the wrapper is created on the first request, and
    [guard()] is called on it. *)
Definition guard_wrapper (self : T3 Emb KV) : list WEvent :=
  match cudagraph_wrapper self with
  | None => []
  | Some w => w
  end ++ [WGuard].

(** Line 282. *)
Definition effective_stride (a : Args Emb) : Z :=
  if backend_mentions_stride (a_generate_token_backend a)
  then a_stride_length a else 1.

Definition effective_batch_size (a : Args Emb) : Z :=
  if Qlt_bool 0 (a_cfg_weight a) then 2 else 1.

(** The loop's constants, from the arguments and the processors and
    caches of the object. *)
Definition loop_env (self : T3 Emb KV) (a : Args Emb)
    (speech_cache pos_cache : ETensor Emb) (seq_len : Z) (indices : list Z)
    : LoopEnv :=
  mkLoopEnv (et_rows speech_cache) (et_rows pos_cache)
    (a_cfg_weight a) (a_temperature a)
    (repetition_penalty_call (repetition_penalty_processor_penalty self))
    (min_p_call (min_p_warper_min_p self))
    (top_p_call (top_p_warper_top_p self) (top_p_warper_skip_when_1 self))
    (a_generate_token_backend a) (effective_stride a) seq_len indices
    (a_length_guesstimate a).

(** [inference_optimized] up to the loop, lines 160-282. *)
Definition prepare (self : T3 Emb KV) (a : Args Emb) (rng : Rng)
    : result Prepared :=
  r <- get_speech_pos_embedding_cache Emb KV cast get_fixed_embedding
         pos_emb_dtype self (TOKEN_LIMIT + 1) model_dtype ;;
  let '(self, pos_cache) := r in
  r <- init_speech_embedding_cache Emb KV cast speech_emb_weight self
         (speech_tokens_dict_size hp) model_dtype ;;
  let '(self, speech_cache) := r in
  bos_embed <- py_get (et_rows speech_cache) (start_speech_token hp) ;;
  pos0 <- py_get (et_rows pos_cache) 0 ;;
  inputs_embeds <- cat_bos (a_cfg_weight a) (a_embeds a) (emb_add bos_embed pos0) ;;
  self <- update_processors Emb KV self (a_top_p a) (a_min_p a)
            (a_repetition_penalty a) (a_skip_when_1 a) ;;
  let inputs_embeds := map (map (cast model_dtype)) inputs_embeds in
  let seq_len := zlen (hd [] inputs_embeds) in
  max_new_tokens <- clamp_max_new_tokens (a_max_new_tokens a)
                      (a_max_cache_len a) seq_len ;;
  let generated_ids := initial_generated_ids in
  let self_kv := setup_kv_cache self (effective_batch_size a) (a_max_cache_len a) in
  let inputs_embeds := pad_inputs inputs_embeds seq_len in
  let fwd := _initial_forward_pass inputs_embeds (kv_data (snd self_kv)) seq_len in
  let wrapper := guard_wrapper (fst self_kv) in
  indices <- torch_arange_1 max_new_tokens ;;
  iterations <- (if effective_stride a =? 0 then Raise ZeroDivisionError
                 else Ok (max_new_tokens / effective_stride a)) ;;
  Ok (mkPrepared (fst self_kv) (snd self_kv) max_new_tokens
        (effective_batch_size a)
        (loop_env (fst self_kv) a speech_cache pos_cache seq_len indices)
        iterations
        (mkLoopState generated_ids (fst fwd) (snd fwd) rng wrapper)).

(** The token buffer when the loop has ended. *)
Definition run_loop (self : T3 Emb KV) (a : Args Emb) (rng : Rng)
    : result (Prepared * LoopState) :=
  p <- prepare self a rng ;;
  st <- decode_loop (pr_env p) (Z.to_nat (pr_iterations p)) 0 (pr_state p) ;;
  Ok (p, st).

(** [inference_optimized]: the returned tokens, the object and the
    generator as the call leaves them. *)
Definition inference_optimized (self : T3 Emb KV) (a : Args Emb) (rng : Rng)
    : result (list Z * T3 Emb KV * Rng) :=
  r <- run_loop self a rng ;;
  let '(p, st) := r in
  let self := pr_self p in
  let self :=
    mkT3 (top_p_warper_top_p self) (top_p_warper_skip_when_1 self)
         (min_p_warper_min_p self) (repetition_penalty_processor_penalty self)
         (speech_pos_embedding_cache self) (speech_embedding_cache self)
         (Some (mkKVHandle (kv_batch_size (pr_kv p)) (kv_max_cache_len (pr_kv p))
                  (kv_dtype (pr_kv p)) (ls_kv st)))
         (Some (ls_wrapper st)) in
  Ok (finalize (ls_generated_ids st) (pr_max_new_tokens p), self, ls_rng st).

(** The loop heads the decode loop passes through: the iteration
    counter and the state it starts the iteration with. *)
Inductive loop_reaches (env : LoopEnv) (iterations : Z) (st0 : LoopState)
    : Z -> LoopState -> Prop :=
| reaches_start : loop_reaches env iterations st0 0 st0
| reaches_step : forall i st st',
    loop_reaches env iterations st0 i st ->
    i < iterations ->
    loop_body env i st = Ok (Continue st') ->
    loop_reaches env iterations st0 (i + 1) st'.

(** The highest buffer index written when iteration [i] starts. *)
Definition high_water (stride_length i : Z) : Z :=
  if i =? 0 then bos_len - 1 else (i - 1) * stride_length + 1.

(** The generation-state invariant at the head of iteration [i]: the
    buffer keeps its allocated length, starts with the start token, and
    holds the pad value beyond the highest index written. *)
Definition buffer_inv (stride_length i : Z) (generated_ids : list Z) : Prop :=
  zlen generated_ids = bos_len + TOKEN_LIMIT /\
  nth_error generated_ids 0 = Some (start_speech_token hp) /\
  forall j, high_water stride_length i < j < bos_len + TOKEN_LIMIT ->
    nth_error generated_ids (Z.to_nat j) = Some PAD_TOKEN_ID.

(** What the driver needs of its collaborators: the sampler draws a token
    of the speech vocabulary, which the embedding table covers; the start
    token is in the vocabulary. *)
Definition sampler_in_vocab : Prop :=
  forall rng probs,
    0 <= fst (multinomial rng probs) < speech_tokens_dict_size hp.

Definition vocab_ok : Prop :=
  speech_tokens_dict_size hp <= et_size0 speech_emb_weight /\
  0 <= start_speech_token hp < speech_tokens_dict_size hp.

(** A request the driver can run: a prompt of two rows under guidance and
    of at least one row without, a non-empty first row, a strictly
    positive repetition penalty and a stride between 1 and 20. *)
Definition request_ok (a : Args Emb) : Prop :=
  (if Qlt_bool 0 (a_cfg_weight a) then zlen (a_embeds a) = 2
   else 1 <= zlen (a_embeds a) /\ 1 <= zlen (hd [] (a_embeds a))) /\
  (0 < a_repetition_penalty a)%Q /\
  1 <= effective_stride a <= 20.

(** The length of the prompt the cache is seeded with. *)
Definition prompt_length (a : Args Emb) : Z :=
  zlen (hd [] (a_embeds a)) + (if Qlt_bool 0 (a_cfg_weight a) then 1 else 0).

(** The budget the caller asks for. *)
Definition requested_tokens (a : Args Emb) : Z :=
  match a_max_new_tokens a with
  | None => max_speech_tokens hp
  | Some n => n
  end.


End Driver.

(** Every call of the wrapper is directly preceded by a guard. *)
Fixpoint guard_before_each_call (guarded : bool) (events : list WEvent) : bool :=
  match events with
  | [] => true
  | WGuard :: t => guard_before_each_call true t
  | WCall _ :: t => guarded && guard_before_each_call false t
  end.

Definition is_call (e : WEvent) : bool :=
  match e with WCall _ => true | WGuard => false end.

(** ** Text tokens and their markers *)

(** The two text markers of [self.hp]. *)
Record TextMarkers : Type := mkTextMarkers {
  start_text_token : Z;
  stop_text_token : Z;
}.

(** A tensor of token ids of shape (B, S): its rows and S.  In a
    well-formed tensor every row has S entries. *)
Record Tokens2D : Type := mkTokens2D {
  tk_rows : list (list Z);
  tk_cols : Z;
}.

Definition tokens_wf (t : Tokens2D) : Prop :=
  0 <= tk_cols t /\ Forall (fun row => zlen row = tk_cols t) (tk_rows t).

(** [t[:, j]] *)
Definition column (t : Tokens2D) (j : Z) : result (list Z) :=
  match py_index (tk_cols t) j with
  | Some n => Ok (map (fun row => nth n row 0) (tk_rows t))
  | None => Raise IndexError
  end.

(** [(column != v).any()] *)
Definition any_differs (v : Z) (col : list Z) : bool :=
  existsb (fun x => negb (x =? v)) col.

(** A row that begins, or ends, with a marker. *)
Definition starts_with (v : Z) (row : list Z) : Prop := exists body, row = v :: body.
Definition ends_with (v : Z) (row : list Z) : Prop := exists body, row = body ++ [v].

(** [_ensure_BOT_EOT], inference_optimized.py lines 14-23: a column of
    the marker is put before, or after, every row as soon as one row
    lacks it. *)
Definition _ensure_BOT_EOT (text_tokens : Tokens2D) (hp : TextMarkers)
    : result Tokens2D :=
  first <- column text_tokens 0 ;;
  let text_tokens :=
    if any_differs (start_text_token hp) first
    then mkTokens2D (map (fun row => start_text_token hp :: row) (tk_rows text_tokens))
           (1 + tk_cols text_tokens)
    else text_tokens in
  last <- column text_tokens (-1) ;;
  let text_tokens :=
    if any_differs (stop_text_token hp) last
    then mkTokens2D (map (fun row => row ++ [stop_text_token hp]) (tk_rows text_tokens))
           (tk_cols text_tokens + 1)
    else text_tokens in
  Ok text_tokens.

(** ** Static input shapes (implement_static_shapes.py) *)

(** [mask[:, k:] = False] on one row, for [0 <= k]. *)
Definition clear_from (k : Z) (row : list bool) : list bool :=
  firstn (Z.to_nat k) row ++ map (fun _ => false) (skipn (Z.to_nat k) row).

(** [StaticShapeT3Backend.prepare_static_inputs], lines 21-37: the ids
    padded with 0 up to [max_length], and the mask of the real
    positions. *)
Definition prepare_static_inputs (max_length : Z) (input_ids : Tokens2D)
    : result (Tokens2D * list (list bool)) :=
  let batch_size := length (tk_rows input_ids) in
  let seq_len := tk_cols input_ids in
  if seq_len >? max_length then Raise ValueError
  else
    let padding_length := max_length - seq_len in
    let input_ids :=
      if padding_length >? 0
      then mkTokens2D
             (map (fun row => row ++ repeat 0 (Z.to_nat padding_length))
                (tk_rows input_ids))
             (seq_len + padding_length)
      else input_ids in
    let attention_mask :=
      repeat (clear_from seq_len (repeat true (Z.to_nat max_length))) batch_size in
    Ok (input_ids, attention_mask).


(** ** The direct loop (direct_inference.py) *)

(** The static tensors [prepare_static_tensors] allocates, by the
    identity of the tensor objects, and a captured graph, by the tensors
    it was captured on. *)
Record StaticTensors : Type := mkStaticTensors {
  static_embeds : nat;
  static_hidden : nat;
  static_logits : nat;
  static_tokens : nat;
}.

Inductive CapturedGraph : Type :=
| ForwardGraph (embeds hidden : nat)
| GenerateGraph (hidden logits : nat).

Section Direct.
Context {Lg : Type} {ops : TensorOps Lg}.
Variables Emb Hid Rng : Type.
Variable emb_add : Emb -> Emb -> Emb.
Variable softmax : Lg -> Lg.
Variable multinomial : Rng -> Lg -> Z * Rng.
(** [self.t3.tfmr(inputs_embeds=..., use_cache=False, ...)]: the last
    hidden states, of shape (B, S, H); and [self.t3.speech_head]. *)
Variable tfmr : list (list Emb) -> list (list Hid).
Variable speech_head : list (list Hid) -> list (list Lg).
Variable get_fixed_embedding : Z -> Emb.
Variable speech_emb_weight : list Emb.
Variable hp : HP.
Variable repetition_penalty_call : Q -> Processor Lg.
Variable min_p_call : Q -> Processor Lg.
Variable top_p_call : Q -> bool -> Processor Lg.
(** Whether the T3 model has a [speech_pos_emb]. *)
Variable has_speech_pos_emb : bool.

(** The attributes of a [DirectT3Inference] object.  [d_allocated]
    counts the tensors allocated so far: the next one is a new object. *)
Record DirectSelf : Type := mkDirectSelf {
  d_top_p_warper : Processor Lg;
  d_min_p_warper : Processor Lg;
  d_repetition_penalty_processor : Processor Lg;
  d_speech_emb_weight : list Emb;
  d_speech_pos_cache : option (list Emb);
  d_forward_graph : option CapturedGraph;
  d_generate_graph : option CapturedGraph;
  d_static : option StaticTensors;
  d_allocated : nat;
}.

(** [__init__] and [_init_embedding_caches], lines 21-63. *)
Definition direct_init : DirectSelf :=
  mkDirectSelf (top_p_call 1%Q false) (min_p_call (1 # 20)%Q)
    (repetition_penalty_call (6 # 5)%Q)
    speech_emb_weight
    (if has_speech_pos_emb
     then Some (map get_fixed_embedding (py_range TOKEN_LIMIT))
     else None)
    None None None 0.

(** [prepare_static_tensors], lines 65-79: four new tensors. *)
Definition prepare_static_tensors (self : DirectSelf) : DirectSelf :=
  let n := d_allocated self in
  mkDirectSelf (d_top_p_warper self) (d_min_p_warper self)
    (d_repetition_penalty_processor self) (d_speech_emb_weight self)
    (d_speech_pos_cache self) (d_forward_graph self) (d_generate_graph self)
    (Some (mkStaticTensors n (n + 1) (n + 2) (n + 3))) (n + 4).

Definition set_graphs (self : DirectSelf)
    (forward generate : option CapturedGraph) : DirectSelf :=
  mkDirectSelf (d_top_p_warper self) (d_min_p_warper self)
    (d_repetition_penalty_processor self) (d_speech_emb_weight self)
    (d_speech_pos_cache self) forward generate (d_static self)
    (d_allocated self).

(** [capture_forward_graph], lines 81-109. *)
Definition capture_forward_graph (self : DirectSelf) : DirectSelf :=
  match d_forward_graph self with
  | Some _ => self
  | None =>
      let self := prepare_static_tensors self in
      match d_static self with
      | Some t =>
          set_graphs self (Some (ForwardGraph (static_embeds t) (static_hidden t)))
            (d_generate_graph self)
      | None => self
      end
  end.

(** [capture_generate_graph], lines 111-139. *)
Definition capture_generate_graph (self : DirectSelf) : DirectSelf :=
  match d_generate_graph self with
  | Some _ => self
  | None =>
      let self := prepare_static_tensors self in
      match d_static self with
      | Some t =>
          set_graphs self (d_forward_graph self)
            (Some (GenerateGraph (static_hidden t) (static_logits t)))
      | None => self
      end
  end.

(** Lines 156-160. *)
Definition ensure_graphs (self : DirectSelf) : DirectSelf :=
  let self :=
    match d_forward_graph self with
    | None => capture_forward_graph self
    | Some _ => self
    end in
  match d_generate_graph self with
  | None => capture_generate_graph self
  | Some _ => self
  end.

(** [hidden_states[-1][:, -1:, :]] *)
Definition last_hidden (hidden : list (list Hid)) : list (list Hid) :=
  map (@py_last1 Hid) hidden.

(** The loop of [generate_fast], lines 191-247, from iteration [i] on. *)
Fixpoint fast_loop (self : DirectSelf) (cfg_weight temperature min_p top_p : Q)
    (n : nat) (i : Z) (hidden_states : list (list Hid))
    (generated_tokens : list Z) (rng : Rng) : result (list Z * Rng) :=
  match n with
  | O => Ok (generated_tokens, rng)
  | S n' =>
      let logits := speech_head hidden_states in
      r <- generate_fast_token Rng softmax multinomial
             (d_repetition_penalty_processor self) (d_min_p_warper self)
             (d_top_p_warper self) cfg_weight temperature min_p top_p
             generated_tokens logits rng ;;
      let '(next_token, rng) := r in
      if next_token =? stop_speech_token hp then Ok (generated_tokens, rng)
      else
        let generated_tokens := generated_tokens ++ [next_token] in
        next_emb <- py_get (d_speech_emb_weight self) next_token ;;
        next_emb <-
          match d_speech_pos_cache self with
          | Some cache => pos <- py_get cache i ;; Ok (emb_add next_emb pos)
          | None => Ok next_emb
          end ;;
        let next_emb :=
          if Qlt_bool 0 cfg_weight then [[next_emb]; [next_emb]]
          else [[next_emb]] in
        let hidden_states := last_hidden (tfmr next_emb) in
        fast_loop self cfg_weight temperature min_p top_p n' (i + 1)
          hidden_states generated_tokens rng
  end.

(** [generate_fast], lines 141-258.  [embeds] is what
    [prepare_input_embeds] returns; [repetition_penalty] is accepted and
    not read; the tokens are returned without the start token. *)
Definition generate_fast (self : DirectSelf) (embeds : list (list Emb))
    (temperature min_p top_p repetition_penalty : Q) (max_new_tokens : Z)
    (cfg_weight : Q) (rng : Rng) : result (list Z * DirectSelf * Rng) :=
  let self := ensure_graphs self in
  let hidden_states := last_hidden (tfmr embeds) in
  let generated_tokens := [start_speech_token hp] in
  r <- fast_loop self cfg_weight temperature min_p top_p
         (Z.to_nat max_new_tokens) 0 hidden_states generated_tokens rng ;;
  let '(generated_tokens, rng) := r in
  Ok (tl generated_tokens, self, rng).

End Direct.

(** ** A caller of [inference_optimized] *)

(** The call of test_inference_speed.py, lines 45-56, on
    [tts.t3]: the arguments it names, and the defaults of
    [inference_optimized] for the others.  [benchmark_t3] only adds
    timing and printing, which are not modelled. *)
Definition speed_test_call {Emb : Type} (embeds : list (list Emb)) : Args Emb :=
  mkArgs embeds 400 (Some 500) (4 # 5)%Q (1 # 20)%Q 1%Q (6 # 5)%Q 0%Q 2048
    CudagraphsManual 1 true.


(** ** Concrete collaborators, for the examples *)

Module Toy.

(** Logits as vectors of exact rationals. *)
Fixpoint map2 (f : Q -> Q -> Q) (a b : list Q) : list Q :=
  match a, b with
  | x :: a', y :: b' => f x y :: map2 f a' b'
  | _, _ => []
  end.

#[global] Instance qvec_ops : TensorOps (list Q) := {|
  t_add := map2 Qplus;
  t_sub := map2 Qminus;
  t_scale := fun w a => map (Qmult w) a;
  t_div := fun a t => map (fun x => Qdiv x t) a;
|}.

(** The repetition penalty of transformers: the score of every token of
    [input_ids] is multiplied by the penalty when negative and divided
    by it otherwise. *)
Definition penalise (penalty x : Q) : Q :=
  if Qlt_bool x 0 then Qmult x penalty else Qdiv x penalty.

Fixpoint penalise_from (penalty : Q) (ids : list Z) (t : Z) (scores : list Q)
    : list Q :=
  match scores with
  | [] => []
  | x :: rest =>
      (if existsb (Z.eqb t) ids then penalise penalty x else x)
        :: penalise_from penalty ids (t + 1) rest
  end.

Definition repetition_penalty (penalty : Q) : Processor (list Q) :=
  fun ids scores =>
    match ids with
    | Some ids => penalise_from penalty ids 0 scores
    | None => scores
    end.

Definition min_p (_ : Q) : Processor (list Q) := fun _ scores => scores.
Definition top_p (_ : Q) (_ : bool) : Processor (list Q) := fun _ scores => scores.

(** Embeddings are integers, the cache contents count the positions
    written, the generator is a counter. *)
Definition emb_add : Z -> Z -> Z := Z.add.
Definition emb_zero : Z := 0.
Definition cast (_ : Dtype) (e : Z) : Z := e.
Definition get_fixed_embedding (pos : Z) : Z := 100 * pos.
Definition speech_emb_weight : ETensor Z :=
  mkETensor [10; 11; 12; 13; 14; 15; 16; 17] Float32.
Definition hp : HP := mkHP 4 5 4096 8.
Definition static_cache (_ _ : Z) (_ : Dtype) : Z := 0.
Definition static_cache_reset (_ : Z) : Z := 0.
Definition softmax (l : list Q) : list Q := l.
Definition multinomial (rng : Z) (_ : list Q) : Z * Z := (rng mod 6, rng + 1).
Definition vocab_logits : list Q := [1; 2; -3; 4; 5; 6; 7; -8]%Q.
Definition patched_model (inputs_embeds : list (list Z)) (kv : Z)
    : list (list (list Q)) * Z :=
  (map (fun row => map (fun _ => vocab_logits) row) inputs_embeds,
   kv + zlen (hd [] inputs_embeds)).
Definition get_next_bucket (seq_len bucket_size max_bucket : Z) : Z :=
  Z.min max_bucket (((seq_len + bucket_size - 1) / bucket_size) * bucket_size).

Definition fresh_t3 : T3 Z Z :=
  mkT3 1%Q false (1 # 20)%Q (6 # 5)%Q None None None None.

Definition args (cfg_weight : Q) (embeds : list (list Z))
    (max_new_tokens : option Z) (max_cache_len : Z) (backend : Backend)
    : Args Z :=
  mkArgs embeds 400 max_new_tokens (4 # 5)%Q (1 # 20)%Q 1%Q (6 # 5)%Q
    cfg_weight max_cache_len backend 1 true.

Definition prepare :=
  prepare (Lg := list Q) Z Z Z emb_add emb_zero patched_model cast
    get_fixed_embedding Float32 speech_emb_weight Float32 hp
    static_cache static_cache_reset repetition_penalty min_p top_p.

Definition inference_optimized :=
  inference_optimized (Lg := list Q) Z Z Z emb_add emb_zero softmax
    multinomial patched_model cast get_fixed_embedding Float32
    speech_emb_weight Float32 hp static_cache static_cache_reset
    repetition_penalty min_p top_p get_next_bucket.

(** Logits that only record the stages applied to them. *)
Inductive Stage : Type :=
| StageRepetitionPenalty
| StageTemperature
| StageMinP
| StageTopP.

#[global] Instance stage_ops : TensorOps (list Stage) := {|
  t_add := fun a _ => a;
  t_sub := fun a _ => a;
  t_scale := fun _ a => a;
  t_div := fun a _ => a ++ [StageTemperature];
|}.

Definition stage (s : Stage) : Processor (list Stage) :=
  fun _ l => l ++ [s].

(** One step on a two-row batch with guidance weight 1/2. *)
Definition step_args_logits : list (list (list Q)) :=
  [[[1; 2; 3; 4; 5; 6; 7; 8]%Q]; [[3; 2; 1; 0; 5; 4; 7; 2]%Q]].

Definition step_history : list Z := [4; 0; 6; 6].

Definition step_result : result (StepOut (Lg := list Q) Z Z) :=
  generate_t3_token Z Z Z emb_add softmax multinomial patched_model
    (et_rows speech_emb_weight) step_args_logits 2 0
    [0; 100; 200; 300] step_history (1 # 2)%Q (4 # 5)%Q
    (Some (repetition_penalty (6 # 5)%Q)) (Some (min_p (1 # 20)%Q))
    (Some (top_p 1%Q true)) 0 1 None 7.

Definition step_out : StepOut (Lg := list Q) Z Z :=
  Eval vm_compute in
    match step_result with
    | Ok out => out
    | Raise _ => mkStepOut Z Z 0 [] [] 0 0
    end.

Definition run_loop :=
  run_loop (Lg := list Q) Z Z Z emb_add emb_zero softmax
    multinomial patched_model cast get_fixed_embedding Float32
    speech_emb_weight Float32 hp static_cache static_cache_reset
    repetition_penalty min_p top_p get_next_bucket.

Definition loop_body :=
  loop_body (Lg := list Q) Z Z Z emb_add softmax multinomial patched_model hp
    get_next_bucket.

Definition loop_reaches :=
  loop_reaches (Lg := list Q) Z Z Z emb_add softmax multinomial patched_model hp
    get_next_bucket.

(** Requests: a prompt of three positions, without and with guidance. *)
Definition request_clamped : Args Z :=
  args 0%Q [[1; 2; 3]] (Some 10) 5 CudagraphsManual.

Definition request_long : Args Z :=
  args 0%Q [[1; 2; 3]] (Some 10) 20 CudagraphsManual.

Definition request_over : Args Z :=
  args 0%Q [[1; 2; 3]] (Some 5000) 2048 Eager.

Definition request_guided : Args Z :=
  args (1 # 2)%Q [[1; 2; 3]; [4; 5; 6]] (Some 4) 4096 CudagraphsManual.

Definition idle_env : LoopEnv (Lg := list Q) Z :=
  mkLoopEnv Z [] [] 0%Q 1%Q (fun _ s => s) (fun _ s => s) (fun _ s => s)
    Eager 1 0 [] 0.

Definition idle_state : LoopState (Lg := list Q) Z Z :=
  mkLoopState Z Z [] [] 0 0 [].

(** What [prepare] returns for [request_long], the state after the first
    iteration, and what the whole call returns. *)
Definition prepared_long : Prepared (Lg := list Q) Z Z Z :=
  Eval vm_compute in
    match prepare fresh_t3 request_long 0 with
    | Ok p => p
    | Raise _ =>
        mkPrepared Z Z Z fresh_t3 (mkKVHandle 0 0 Float32 0) 0 0 idle_env 0
          idle_state
    end.

Definition state_long_1 : LoopState (Lg := list Q) Z Z :=
  Eval vm_compute in
    match loop_body (pr_env Z Z Z prepared_long) 0 (pr_state Z Z Z prepared_long) with
    | Ok (Continue _ _ st) => st
    | _ => idle_state
    end.

Definition returned (a : Args Z) (self : T3 Z Z) (rng : Z) : list Z * T3 Z Z * Z :=
  match inference_optimized self a rng with
  | Ok r => r
  | Raise _ => ([], self, rng)
  end.

Definition returned_long : list Z * T3 Z Z * Z :=
  Eval vm_compute in returned request_long fresh_t3 0.

Definition returned_clamped : list Z * T3 Z Z * Z :=
  Eval vm_compute in returned request_clamped fresh_t3 0.


(** A request with a stride of three, on a backend that takes the
    caller's stride. *)
Definition request_strided : Args Z :=
  mkArgs [[1; 2; 3]] 400 (Some 10) (4 # 5)%Q (1 # 20)%Q 1%Q (6 # 5)%Q 0%Q 20
    (OtherBackend true) 3 true.

Definition returned_strided : list Z * T3 Z Z * Z :=
  Eval vm_compute in returned request_strided fresh_t3 0.

(** A guided request on the object an unguided one left. *)
Definition prepared_guided : Prepared (Lg := list Q) Z Z Z :=
  Eval vm_compute in
    match prepare (snd (fst returned_clamped)) request_guided
            (snd returned_clamped) with
    | Ok p => p
    | Raise _ =>
        mkPrepared Z Z Z fresh_t3 (mkKVHandle 0 0 Float32 0) 0 0 idle_env 0
          idle_state
    end.


(** The state the loop of [request_long] ends in. *)
Definition final_long : LoopState (Lg := list Q) Z Z :=
  Eval vm_compute in
    match run_loop fresh_t3 request_long 0 with
    | Ok (_, st) => st
    | Raise _ => idle_state
    end.

(** Text tokens: the first row has the start marker and lacks the stop
    marker, the second row the reverse; and a tensor without columns. *)
Definition text_markers : TextMarkers := mkTextMarkers 255 0.
Definition text_tokens : Tokens2D := mkTokens2D [[255; 7; 8]; [9; 7; 0]] 3.
Definition no_columns : Tokens2D := mkTokens2D [[]; []] 0.

(** The direct loop: hidden states are the embeddings, the speech head
    returns the fixed logits. *)
Definition tfmr (inputs_embeds : list (list Z)) : list (list Z) := inputs_embeds.
Definition speech_head (hidden : list (list Z)) : list (list (list Q)) :=
  map (fun row => map (fun _ => vocab_logits) row) hidden.

Definition direct_self : DirectSelf (Lg := list Q) Z :=
  direct_init Z get_fixed_embedding (et_rows speech_emb_weight)
    repetition_penalty min_p top_p true.

Definition generate_fast :=
  generate_fast (Lg := list Q) Z Z Z emb_add softmax multinomial tfmr
    speech_head hp.

Definition fast_returned : list Z * DirectSelf (Lg := list Q) Z * Z :=
  Eval vm_compute in
    match generate_fast direct_self [[1; 2; 3]] (4 # 5)%Q (1 # 20)%Q 1%Q (6 # 5)%Q
            10 0%Q 0 with
    | Ok r => r
    | Raise _ => ([], direct_self, 0)
    end.

End Toy.

(** A model in half precision under a positional embedding in single
    precision.  The cast to half precision rounds an embedding to an even
    integer, the positional embeddings are odd, the first logit the model
    returns is the parity of the embedding it is given, and the sampler
    reads that logit. *)
Module MixedDtype.

Definition cast (d : Dtype) (e : Z) : Z :=
  match d with
  | Float16 => 2 * (e / 2)
  | _ => e
  end.

Definition get_fixed_embedding (pos : Z) : Z := 100 * pos + 1.

Definition patched_model (inputs_embeds : list (list Z)) (kv : Z)
    : list (list (list Q)) * Z :=
  (map (fun row => map (fun e => [inject_Z (e mod 2); 1; 1; 1; 1; 1; 1; 1]%Q) row)
     inputs_embeds,
   kv + zlen (hd [] inputs_embeds)).

Definition multinomial (rng : Z) (probs : list Q) : Z * Z :=
  ((rng + match probs with
          | q :: _ => if Qeq_bool q 0 then 0 else 1
          | [] => 0
          end) mod 6,
   rng + 1).

Definition inference_optimized :=
  inference_optimized (Lg := list Q) Z Z Z Toy.emb_add Toy.emb_zero Toy.softmax
    multinomial patched_model cast get_fixed_embedding Float32
    Toy.speech_emb_weight Float16 Toy.hp Toy.static_cache
    Toy.static_cache_reset Toy.repetition_penalty Toy.min_p Toy.top_p
    Toy.get_next_bucket.

(** The first run of [Toy.request_long] on a fresh object, and the second
    on the object the first left, both from generator state 0. *)
Definition returned_first : list Z * T3 Z Z * Z :=
  Eval vm_compute in
    match inference_optimized Toy.fresh_t3 Toy.request_long 0 with
    | Ok r => r
    | Raise _ => ([], Toy.fresh_t3, 0)
    end.

Definition returned_second : list Z * T3 Z Z * Z :=
  Eval vm_compute in
    match inference_optimized (snd (fst returned_first)) Toy.request_long 0 with
    | Ok r => r
    | Raise _ => ([], Toy.fresh_t3, 0)
    end.

End MixedDtype.

(** * Properties *)

(** ** Comparisons and Python sequences *)

Lemma Qlt_bool_iff (a b : Q) : Qlt_bool a b = true <-> (a < b)%Q.
Proof.
  unfold Qlt_bool. rewrite negb_true_iff. split; intro Hab.
  - apply Qnot_le_lt. intro Hle. apply Qle_bool_iff in Hle. congruence.
  - destruct (Qle_bool b a) eqn:E; [|reflexivity].
    apply Qle_bool_iff in E. exfalso. apply (Qlt_not_le _ _ Hab E).
Qed.

Lemma Qlt_bool_false_of_eq (w : Q) : (w == 0)%Q -> Qlt_bool 0 w = false.
Proof.
  intro Hw. destruct (Qlt_bool 0 w) eqn:E; [|reflexivity].
  apply Qlt_bool_iff in E. rewrite Hw in E. exfalso. apply (Qlt_irrefl 0 E).
Qed.

Lemma py_index_some (len i : Z) (n : nat) :
  py_index len i = Some n ->
  (0 <= i < len /\ n = Z.to_nat i) \/ (- len <= i < 0 /\ n = Z.to_nat (len + i)).
Proof.
  unfold py_index.
  destruct ((0 <=? i) && (i <? len)) eqn:E1.
  - intro H; inversion H; subst. apply andb_true_iff in E1. left. lia.
  - destruct ((- len <=? i) && (i <? 0)) eqn:E2; [|discriminate].
    intro H; inversion H; subst. apply andb_true_iff in E2. right. lia.
Qed.

Lemma py_index_nonneg (len i : Z) :
  0 <= i < len -> py_index len i = Some (Z.to_nat i).
Proof.
  intro H. unfold py_index.
  replace ((0 <=? i) && (i <? len)) with true; [reflexivity|].
  symmetry. apply andb_true_iff. lia.
Qed.

Lemma py_get_nonneg {A : Type} (l : list A) (i : Z) (a : A) :
  0 <= i -> py_get l i = Ok a -> i < zlen l /\ nth_error l (Z.to_nat i) = Some a.
Proof.
  intros Hi. unfold py_get.
  destruct (py_index (zlen l) i) as [n|] eqn:E; [|discriminate].
  apply py_index_some in E. destruct E as [[H ->]|[H _]]; [|lia].
  destruct (nth_error l (Z.to_nat i)) eqn:En; [|discriminate].
  intro Hok; inversion Hok; subst. split; [lia | reflexivity].
Qed.

Lemma py_get_in_range {A : Type} (l : list A) (i : Z) :
  0 <= i < zlen l -> exists a, py_get l i = Ok a /\ nth_error l (Z.to_nat i) = Some a.
Proof.
  intro H. unfold py_get. rewrite py_index_nonneg by exact H.
  destruct (nth_error l (Z.to_nat i)) eqn:E.
  - eauto.
  - apply nth_error_None in E. unfold zlen in H. lia.
Qed.

Lemma py_get2_rows {A : Type} (row : list A) (rest rest' : list (list A)) (s : Z) :
  py_get2 (row :: rest) 0 s = py_get2 (row :: rest') 0 s.
Proof.
  unfold py_get2, py_get.
  rewrite !py_index_nonneg by (unfold zlen; simpl length; lia).
  reflexivity.
Qed.

Lemma py_get_head {A : Type} (x : A) (l : list A) : py_get (x :: l) 0 = Ok x.
Proof.
  unfold py_get. rewrite py_index_nonneg by (unfold zlen; simpl length; lia).
  reflexivity.
Qed.

Lemma py_get_second {A : Type} (x y : A) (l : list A) :
  py_get (x :: y :: l) 1 = Ok y.
Proof.
  unfold py_get. rewrite py_index_nonneg by (unfold zlen; simpl length; lia).
  reflexivity.
Qed.

Lemma set_nth_length {A : Type} (l : list A) (n : nat) (v : A) :
  length (set_nth l n v) = length l.
Proof.
  revert n; induction l as [|h t IH]; intros [|n]; simpl; auto.
Qed.

Lemma set_nth_same {A : Type} (l : list A) (n : nat) (v : A) :
  (n < length l)%nat -> nth_error (set_nth l n v) n = Some v.
Proof.
  revert n; induction l as [|h t IH]; intros [|n] H; simpl in *; try lia; auto.
  apply IH. lia.
Qed.

Lemma set_nth_other {A : Type} (l : list A) (n m : nat) (v : A) :
  n <> m -> nth_error (set_nth l n v) m = nth_error l m.
Proof.
  revert n m; induction l as [|h t IH]; intros [|n] [|m] H; simpl; auto.
  congruence.
Qed.

Lemma py_set_ok {A : Type} (l l' : list A) (i : Z) (v : A) :
  0 <= i -> py_set l i v = Ok l' -> i < zlen l /\ l' = set_nth l (Z.to_nat i) v.
Proof.
  intros Hi. unfold py_set.
  destruct (py_index (zlen l) i) as [n|] eqn:E; [|discriminate].
  apply py_index_some in E. destruct E as [[H ->]|[H _]]; [|lia].
  intro Hok; inversion Hok; subst. split; [lia | reflexivity].
Qed.

Lemma py_set_in_range {A : Type} (l : list A) (i : Z) (v : A) :
  0 <= i < zlen l -> py_set l i v = Ok (set_nth l (Z.to_nat i) v).
Proof.
  intro H. unfold py_set. rewrite py_index_nonneg by exact H. reflexivity.
Qed.

(** ** The step function *)

Section StepFacts.
Context {Lg : Type} {ops : TensorOps Lg}.
Variables Emb KV Rng : Type.
Variable emb_add : Emb -> Emb -> Emb.
Variable softmax : Lg -> Lg.
Variable multinomial : Rng -> Lg -> Z * Rng.
Variable patched_model : list (list Emb) -> KV -> list (list Lg) * KV.

Local Notation "'step'" :=
  (generate_t3_token Emb KV Rng emb_add softmax multinomial patched_model).
Local Notation "'next_token'" := (so_next_token KV Rng).
Local Notation "'fast_token'" := (generate_fast_token Rng softmax multinomial).

Lemma process_logits_stages rep T minp topp ids (logits : Lg) :
  process_logits rep T minp topp ids logits =
  apply_opt topp (Some ids)
    (apply_opt minp (Some ids)
       (temperature_stage T (apply_opt rep (Some ids) logits))).
Proof.
  unfold process_logits, temperature_stage.
  destruct (Qeq_bool T 1); reflexivity.
Qed.

(** What a successful step has done. *)
Lemma step_inv spc ol i b posc ids w T rep minp topp kv s mp rng out :
  step spc ol i b posc ids w T rep minp topp kv s mp rng = Ok out ->
  exists logits,
    cfg_logits ol w = Ok logits /\
    next_token out =
      fst (multinomial rng (softmax (process_logits rep T minp topp ids logits))) /\
    so_rng KV Rng out =
      snd (multinomial rng (softmax (process_logits rep T minp topp ids logits))) /\
    py_set ids i (next_token out) = Ok (so_generated_ids KV Rng out) /\
    exists e p,
      py_get spc (next_token out) = Ok e /\ py_get posc i = Ok p /\
      (so_output_logits KV Rng out, so_kv KV Rng out) =
        patched_model
          (if Qlt_bool 0 w then [[emb_add e p]; [emb_add e p]] else [[emb_add e p]])
          kv.
Proof.
  unfold generate_t3_token. intro H.
  destruct (cfg_logits ol w) as [logits|] eqn:Ecfg; [|discriminate].
  exists logits. split; [reflexivity|]. cbn [bind] in H.
  destruct (multinomial rng (softmax (process_logits rep T minp topp ids logits)))
    as [tok rng'] eqn:Em.
  destruct (py_index 1 b); [|discriminate]. cbn [bind] in H.
  destruct (py_set ids i tok) as [ids'|] eqn:Eset; [|discriminate]. cbn [bind] in H.
  destruct (py_get spc tok) as [e|] eqn:Ee; [|discriminate]. cbn [bind] in H.
  destruct (py_get posc i) as [p|] eqn:Ep; [|discriminate]. cbn [bind] in H.
  destruct (patched_model _ kv) as [ol' kv'] eqn:Epm.
  inversion H; subst; clear H. cbn.
  repeat split; auto.
  exists e, p. repeat split; auto.
Qed.

Lemma cfg_logits_guided (ol : list (list Lg)) (w : Q) (logits : Lg) :
  (0 < w)%Q -> cfg_logits ol w = Ok logits ->
  2 <= zlen ol /\
  exists c u, py_get2 ol 0 0 = Ok c /\ py_get2 ol 1 0 = Ok u /\
    logits = t_add c (t_scale w (t_sub c u)).
Proof.
  intros Hw. apply Qlt_bool_iff in Hw. unfold cfg_logits. rewrite Hw.
  destruct (py_get2 ol 0 0) as [c|] eqn:Ec; [|discriminate]. cbn [bind].
  destruct (py_get2 ol 1 0) as [u|] eqn:Eu; [|discriminate]. cbn [bind].
  intro H; inversion H; subst. split.
  - unfold py_get2 in Eu. destruct (py_get ol 1) as [row|] eqn:Er; [|discriminate].
    apply py_get_nonneg in Er; lia.
  - exists c, u. auto.
Qed.

Lemma cfg_logits_unguided (ol : list (list Lg)) (w : Q) :
  (w == 0)%Q -> cfg_logits ol w = py_get2 ol 0 0.
Proof.
  intro Hw. unfold cfg_logits. rewrite (Qlt_bool_false_of_eq w Hw).
  destruct (py_get2 ol 0 0); reflexivity.
Qed.


(** C1, as the code has it: in the step function the stages run in the
    order repetition penalty, temperature, min-p, top-p, on the whole
    token buffer, and the token is drawn from the result; in the direct
    loop the temperature stage runs first, then the repetition penalty
    (once a token has been generated), then min-p (when min_p > 0), then
    top-p (when top_p < 1), and the token is drawn from the result. *)
Theorem pipeline_order :
  (forall spc ol i b posc ids w T rep minp topp kv s mp rng out,
      step spc ol i b posc ids w T rep minp topp kv s mp rng = Ok out ->
      exists raw,
        cfg_logits ol w = Ok raw /\
        next_token out =
          fst (multinomial rng (softmax
            (apply_opt topp (Some ids)
               (apply_opt minp (Some ids)
                  (temperature_stage T (apply_opt rep (Some ids) raw)))))))
  /\
  (forall rep minp topp w T min_p top_p toks logits rng r,
      fast_token rep minp topp w T min_p top_p toks logits rng = Ok r ->
      exists raw,
        generate_fast_cfg w logits = Ok raw /\
        r = multinomial rng (softmax
              (gated (Qlt_bool top_p 1) (topp None)
                 (gated (Qlt_bool 0 min_p) (minp None)
                    (gated (1 <? zlen toks) (rep (Some toks))
                       (temperature_stage T raw)))))).
Proof.
  split.
  - intros spc ol i b posc ids w T rep minp topp kv s mp rng out H.
    destruct (step_inv _ _ _ _ _ _ _ _ _ _ _ _ _ _ _ _ H)
      as [raw [Hcfg [Htok _]]].
    exists raw. split; [exact Hcfg|].
    rewrite Htok, process_logits_stages. reflexivity.
  - intros rep minp topp w T min_p top_p toks logits rng r H.
    unfold generate_fast_token, generate_fast_logits in H.
    destruct (generate_fast_cfg w logits) as [raw|]; [|discriminate].
    exists raw. split; [reflexivity|].
    cbn [bind] in H. inversion H; subst; clear H.
    unfold gated, temperature_stage.
    destruct (Qeq_bool T 1); reflexivity.
Qed.

End StepFacts.


(** C1 at one step of each path: the toy step above, and one iteration of
    the direct loop with one generated token, min_p = 1/20, top_p = 9/10. *)
Lemma pipeline_order_witness :
  (exists raw,
      cfg_logits Toy.step_args_logits (1 # 2)%Q = Ok raw /\
      so_next_token Z Z Toy.step_out =
        fst (Toy.multinomial 7
               (Toy.softmax
                  (Toy.top_p 1%Q true (Some Toy.step_history)
                     (Toy.min_p (1 # 20)%Q (Some Toy.step_history)
                        (temperature_stage (4 # 5)%Q
                           (Toy.repetition_penalty (6 # 5)%Q
                              (Some Toy.step_history) raw)))))))
  /\
  (exists raw,
      generate_fast_cfg 0%Q [[Toy.vocab_logits]] = Ok raw /\
      (1, 8) =
        Toy.multinomial 7
          (Toy.softmax
             (Toy.top_p (9 # 10)%Q false None
                (Toy.min_p (1 # 20)%Q None
                   (Toy.repetition_penalty (6 # 5)%Q (Some [4; 0])
                      (temperature_stage (4 # 5)%Q raw)))))).
Proof.
  destruct (pipeline_order Z Z Z Toy.emb_add Toy.softmax Toy.multinomial
              Toy.patched_model) as [Hstep Hfast].
  split.
  - apply (Hstep (et_rows Toy.speech_emb_weight) Toy.step_args_logits 2 0
             [0; 100; 200; 300] Toy.step_history (1 # 2)%Q (4 # 5)%Q
             (Some (Toy.repetition_penalty (6 # 5)%Q)) (Some (Toy.min_p (1 # 20)%Q))
             (Some (Toy.top_p 1%Q true)) 0 1 None 7 Toy.step_out).
    vm_compute; reflexivity.
  - apply (Hfast (Toy.repetition_penalty (6 # 5)%Q) (Toy.min_p (1 # 20)%Q)
             (Toy.top_p (9 # 10)%Q false) 0%Q (4 # 5)%Q (1 # 20)%Q (9 # 10)%Q
             [4; 0] [[Toy.vocab_logits]] 7 (1, 8)).
    vm_compute; reflexivity.
Defined.

(** C1 as stated fails on the direct loop: with every stage enabled, the
    logits it hands to the sampler are not those of the order repetition
    penalty, temperature, min-p, top-p.  The stages here only record
    their application. *)
Lemma direct_loop_applies_temperature_first :
  generate_fast_logits (Toy.stage Toy.StageRepetitionPenalty)
    (Toy.stage Toy.StageMinP) (Toy.stage Toy.StageTopP)
    0%Q (4 # 5)%Q (1 # 20)%Q (9 # 10)%Q [4; 0] [[[]]]
  = Ok [Toy.StageTemperature; Toy.StageRepetitionPenalty;
        Toy.StageMinP; Toy.StageTopP]
  /\
  generate_fast_logits (Toy.stage Toy.StageRepetitionPenalty)
    (Toy.stage Toy.StageMinP) (Toy.stage Toy.StageTopP)
    0%Q (4 # 5)%Q (1 # 20)%Q (9 # 10)%Q [4; 0] [[[]]]
  <> Ok (Toy.stage Toy.StageTopP None
           (Toy.stage Toy.StageMinP None
              (t_div (Toy.stage Toy.StageRepetitionPenalty (Some [4; 0]) [])
                 (4 # 5)%Q))).
Proof.
  split.
  - vm_compute. reflexivity.
  - vm_compute. discriminate.
Qed.

(** ** Lists the driver builds *)

Lemma first_index_some (v : Z) (l : list Z) (k : Z) :
  first_index v l = Some k ->
  0 <= k < zlen l /\
  nth_error l (Z.to_nat k) = Some v /\
  forall j, 0 <= j < k -> nth_error l (Z.to_nat j) <> Some v.
Proof.
  unfold zlen. revert k. induction l as [|x t IH]; intros k; simpl first_index.
  - discriminate.
  - destruct (x =? v) eqn:E.
    + intro H; inversion H; subst. apply Z.eqb_eq in E; subst.
      split; [simpl length; lia|]. split; [reflexivity|]. intros; lia.
    + destruct (first_index v t) as [k'|]; [|discriminate].
      intro H; inversion H; subst. destruct (IH k' eq_refl) as [Hk [Hn Hlt]].
      split; [simpl length; lia|]. split.
      * replace (Z.to_nat (k' + 1)) with (S (Z.to_nat k')) by lia. exact Hn.
      * intros j Hj. destruct (Z.eq_dec j 0) as [->|Hj0].
        -- simpl. apply Z.eqb_neq in E. congruence.
        -- replace (Z.to_nat j) with (S (Z.to_nat (j - 1))) by lia.
           simpl. apply Hlt. lia.
Qed.

Lemma first_index_none (v : Z) (l : list Z) :
  first_index v l = None -> ~ In v l.
Proof.
  induction l as [|x t IH]; simpl; [tauto|].
  destruct (x =? v) eqn:E; [discriminate|].
  destruct (first_index v t); [discriminate|].
  intros _ [H|H]; [apply Z.eqb_neq in E; congruence | exact (IH eq_refl H)].
Qed.

Lemma existsb_first_index (v : Z) (l : list Z) :
  existsb (Z.eqb v) l = true -> exists k, first_index v l = Some k.
Proof.
  induction l as [|x t IH]; simpl; [discriminate|].
  rewrite (Z.eqb_sym v x). destruct (x =? v); [eauto|].
  simpl. intro H. destruct (IH H) as [k ->]. eauto.
Qed.

Lemma py_slice_to_prefix {A : Type} (l : list A) (n : Z) :
  0 <= n <= zlen l ->
  py_slice_to l n = firstn (Z.to_nat n) l /\ zlen (py_slice_to l n) = n.
Proof.
  unfold zlen. intro H. unfold py_slice_to.
  replace (0 <=? n) with true by (symmetry; apply Z.leb_le; lia).
  split; [reflexivity|]. rewrite length_firstn. lia.
Qed.

Lemma nth_error_repeat {A : Type} (a : A) (n m : nat) :
  (m < n)%nat -> nth_error (repeat a n) m = Some a.
Proof.
  revert m; induction n as [|n IH]; intros [|m] H; simpl; try lia; auto.
  apply IH; lia.
Qed.

Lemma py_range_length (n : Z) : zlen (py_range n) = Z.max 0 n.
Proof.
  unfold zlen, py_range. rewrite length_map, length_seq. lia.
Qed.

Lemma py_range_nth (n : Z) (j : nat) :
  (Z.of_nat j < n) -> nth_error (py_range n) j = Some (Z.of_nat j).
Proof.
  intro H. unfold py_range. rewrite nth_error_map.
  rewrite nth_error_seq.
  replace (j <? Z.to_nat n)%nat with true by (symmetry; apply Nat.ltb_lt; lia).
  reflexivity.
Qed.

Lemma torch_arange_1_ok (n : Z) (idx : list Z) :
  torch_arange_1 n = Ok idx ->
  0 <= n /\ zlen idx = n /\
  forall k, 0 <= k < n -> py_get idx k = Ok (k + 1).
Proof.
  unfold torch_arange_1. destruct (n + 1 <? 1) eqn:E; [discriminate|].
  apply Z.ltb_ge in E. intro H; inversion H; subst; clear H.
  assert (Hlen : zlen (map (fun k => k + 1) (py_range n)) = n).
  { unfold zlen. rewrite length_map. fold (zlen (py_range n)).
    rewrite py_range_length. lia. }
  split; [lia|]. split; [exact Hlen|].
  intros k Hk. unfold py_get. rewrite Hlen, py_index_nonneg by lia.
  rewrite nth_error_map, py_range_nth by lia. simpl.
  f_equal. lia.
Qed.

Lemma torch_arange_1_nonneg (n : Z) :
  0 <= n -> exists idx, torch_arange_1 n = Ok idx.
Proof.
  intro H. unfold torch_arange_1.
  replace (n + 1 <? 1) with false by (symmetry; apply Z.ltb_ge; lia). eauto.
Qed.

Lemma TOKEN_LIMIT_pos : 0 < TOKEN_LIMIT.
Proof. reflexivity. Qed.

Lemma initial_generated_ids_spec (hp : HP) :
  zlen (initial_generated_ids hp) = bos_len + TOKEN_LIMIT /\
  nth_error (initial_generated_ids hp) 0 = Some (start_speech_token hp) /\
  forall j, 0 < j < bos_len + TOKEN_LIMIT ->
    nth_error (initial_generated_ids hp) (Z.to_nat j) = Some (PAD_TOKEN_ID hp).
Proof.
  pose proof TOKEN_LIMIT_pos as HT. unfold bos_len in *.
  unfold initial_generated_ids, zlen, bos_len.
  generalize dependent TOKEN_LIMIT. intros L HL.
  assert (Hn : (0 < Z.to_nat (1 + L))%nat) by lia.
  split; [|split].
  - rewrite set_nth_length, repeat_length. lia.
  - apply set_nth_same. rewrite repeat_length. exact Hn.
  - intros j Hj. rewrite set_nth_other by lia.
    apply nth_error_repeat. lia.
Qed.

Lemma nth_error_firstn_lt {A : Type} (l : list A) (n i : nat) :
  (i < n)%nat -> nth_error (firstn n l) i = nth_error l i.
Proof.
  revert n i; induction l as [|x t IH]; intros [|n] [|i] H; simpl; try lia; auto.
  apply IH. lia.
Qed.


(** ** The embedding-cache builders *)

Section BuilderFacts.
Variables Emb KV : Type.
Variable cast : Dtype -> Emb -> Emb.
Variable get_fixed_embedding : Z -> Emb.
Variable pos_emb_dtype : Dtype.
Variable speech_emb_weight : ETensor Emb.

Local Notation "'pos_cache'" :=
  (get_speech_pos_embedding_cache Emb KV cast get_fixed_embedding pos_emb_dtype).
Local Notation "'speech_cache'" :=
  (init_speech_embedding_cache Emb KV cast speech_emb_weight).

Lemma dtype_eqb_eq (a b : Dtype) : dtype_eqb a b = true <-> a = b.
Proof. destruct a, b; simpl; split; congruence. Qed.

Lemma to_dtype_size (d : Dtype) (t : ETensor Emb) :
  et_size0 (to_dtype Emb cast d t) = et_size0 t /\
  et_dtype (to_dtype Emb cast d t) = d.
Proof. unfold et_size0, zlen, to_dtype. simpl. rewrite length_map. auto. Qed.

(** A cache that covers the request is returned as it is. *)
Lemma pos_cache_covered (self : T3 Emb KV) (c : ETensor Emb) (n : Z) (d : Dtype) :
  speech_pos_embedding_cache self = Some c ->
  n <= et_size0 c -> et_dtype c = d ->
  pos_cache self n d = Ok (self, c).
Proof.
  intros Hc Hn Hd. unfold get_speech_pos_embedding_cache. rewrite Hc.
  replace (et_size0 c <? n) with false by (symmetry; apply Z.ltb_ge; lia).
  replace (dtype_eqb (et_dtype c) d) with true
    by (symmetry; apply dtype_eqb_eq; exact Hd).
  reflexivity.
Qed.

Lemma speech_cache_covered (self : T3 Emb KV) (c : ETensor Emb) (n : Z) (d : Dtype) :
  speech_embedding_cache self = Some c ->
  n <= et_size0 c -> et_dtype c = d ->
  speech_cache self n d = Ok (self, c).
Proof.
  intros Hc Hn Hd. unfold init_speech_embedding_cache. rewrite Hc.
  replace (et_size0 c <? n) with false by (symmetry; apply Z.ltb_ge; lia).
  replace (dtype_eqb (et_dtype c) d) with true
    by (symmetry; apply dtype_eqb_eq; exact Hd).
  reflexivity.
Qed.

(** A cache that is missing or too small is rebuilt from position 0:
    one row per position, in the dtype of the positional embedding. *)
Lemma pos_cache_rebuilt (self : T3 Emb KV) (n : Z) (d : Dtype) :
  needs_rebuild Emb (speech_pos_embedding_cache self) n -> 0 < n ->
  let c := mkETensor (map get_fixed_embedding (py_range n)) pos_emb_dtype in
  pos_cache self n d = Ok (set_pos_cache Emb KV self c, c) /\ et_size0 c = n.
Proof.
  intros Hr Hn c. unfold get_speech_pos_embedding_cache.
  assert (Hb : match speech_pos_embedding_cache self with
               | None => true | Some c0 => et_size0 c0 <? n end = true).
  { unfold needs_rebuild in Hr. destruct (speech_pos_embedding_cache self).
    - apply Z.ltb_lt; exact Hr.
    - reflexivity. }
  rewrite Hb. split.
  - subst c. unfold torch_stack.
    destruct (map get_fixed_embedding (py_range n)) eqn:Em; [|reflexivity].
    apply (f_equal (@length Emb)) in Em. rewrite length_map in Em.
    fold (zlen (py_range n)) in Em. pose proof (py_range_length n) as Hl.
    unfold zlen in Hl. simpl in Em. lia.
  - unfold c, et_size0. simpl. unfold zlen. rewrite length_map.
    fold (zlen (py_range n)). rewrite py_range_length. lia.
Qed.

(** The speech table is rebuilt as a copy of the whole embedding weight
    in the requested dtype. *)
Lemma speech_cache_rebuilt (self : T3 Emb KV) (n : Z) (d : Dtype) :
  needs_rebuild Emb (speech_embedding_cache self) n ->
  let c := to_dtype Emb cast d speech_emb_weight in
  speech_cache self n d = Ok (set_speech_cache Emb KV self c, c).
Proof.
  intros Hr c. unfold init_speech_embedding_cache.
  assert (Hb : match speech_embedding_cache self with
               | None => true | Some c0 => et_size0 c0 <? n end = true).
  { unfold needs_rebuild in Hr. destruct (speech_embedding_cache self).
    - apply Z.ltb_lt; exact Hr.
    - reflexivity. }
  rewrite Hb. reflexivity.
Qed.

Lemma torch_stack_range (n : Z) (c : ETensor Emb) :
  torch_stack Emb (map get_fixed_embedding (py_range n)) pos_emb_dtype = Ok c ->
  c = mkETensor (map get_fixed_embedding (py_range n)) pos_emb_dtype /\
  et_size0 c = Z.max 0 n.
Proof.
  unfold torch_stack.
  destruct (map get_fixed_embedding (py_range n)) eqn:Em; [discriminate|].
  intro H; inversion H; subst; clear H. split; [reflexivity|].
  unfold et_size0; cbn [et_rows]. rewrite <- Em. unfold zlen.
  rewrite length_map. fold (zlen (py_range n)). apply py_range_length.
Qed.

(** What every successful call of the positional builder leaves. *)
Lemma pos_cache_post (self self' : T3 Emb KV) (c : ETensor Emb) (n : Z) (d : Dtype) :
  pos_cache self n d = Ok (self', c) ->
  speech_pos_embedding_cache self' = Some c /\ n <= et_size0 c /\
  speech_embedding_cache self' = speech_embedding_cache self /\
  kv_cache self' = kv_cache self /\
  cudagraph_wrapper self' = cudagraph_wrapper self /\
  top_p_warper_top_p self' = top_p_warper_top_p self /\
  top_p_warper_skip_when_1 self' = top_p_warper_skip_when_1 self /\
  min_p_warper_min_p self' = min_p_warper_min_p self /\
  repetition_penalty_processor_penalty self' = repetition_penalty_processor_penalty self.
Proof.
  unfold get_speech_pos_embedding_cache.
  assert (Hrebuild :
    (c1 <- torch_stack Emb (map get_fixed_embedding (py_range n)) pos_emb_dtype ;;
     Ok (set_pos_cache Emb KV self c1, c1)) = Ok (self', c) ->
    speech_pos_embedding_cache self' = Some c /\ n <= et_size0 c /\
    speech_embedding_cache self' = speech_embedding_cache self /\
    kv_cache self' = kv_cache self /\
    cudagraph_wrapper self' = cudagraph_wrapper self /\
    top_p_warper_top_p self' = top_p_warper_top_p self /\
    top_p_warper_skip_when_1 self' = top_p_warper_skip_when_1 self /\
    min_p_warper_min_p self' = min_p_warper_min_p self /\
    repetition_penalty_processor_penalty self' =
      repetition_penalty_processor_penalty self).
  { destruct (torch_stack _ _ _) as [c1|] eqn:Es; [|discriminate]. cbn [bind].
    intro H; inversion H; subst; clear H.
    apply torch_stack_range in Es. destruct Es as [_ Hsz].
    split; [reflexivity|]. split; [lia|]. repeat split. }
  destruct (speech_pos_embedding_cache self) as [c0|] eqn:Ec.
  - destruct (et_size0 c0 <? n) eqn:En; [exact Hrebuild|].
    apply Z.ltb_ge in En.
    destruct (dtype_eqb (et_dtype c0) d); cbn [negb];
      intro H; inversion H; subst; clear H.
    + repeat split; auto.
    + split; [reflexivity|]. split; [|repeat split].
      destruct (to_dtype_size d c0) as [-> _]. exact En.
  - exact Hrebuild.
Qed.

Lemma pos_cache_total (self : T3 Emb KV) (n : Z) (d : Dtype) :
  0 < n -> exists self' c, pos_cache self n d = Ok (self', c).
Proof.
  intro Hn. unfold get_speech_pos_embedding_cache.
  assert (Hs : exists c, torch_stack Emb (map get_fixed_embedding (py_range n))
                           pos_emb_dtype = Ok c).
  { unfold py_range. destruct (Z.to_nat n) eqn:E; [lia|]. simpl. eauto. }
  destruct Hs as [c1 Hs].
  destruct (speech_pos_embedding_cache self) as [c0|].
  - destruct (et_size0 c0 <? n).
    + rewrite Hs. cbn. eauto.
    + destruct (dtype_eqb (et_dtype c0) d); cbn; eauto.
  - rewrite Hs. cbn. eauto.
Qed.

(** What every call of the speech-table builder leaves. *)
Lemma speech_cache_post (self : T3 Emb KV) (n : Z) (d : Dtype) :
  exists self' c,
    speech_cache self n d = Ok (self', c) /\
    speech_embedding_cache self' = Some c /\
    (n <= et_size0 c \/ et_size0 c = et_size0 speech_emb_weight) /\
    speech_pos_embedding_cache self' = speech_pos_embedding_cache self /\
    kv_cache self' = kv_cache self /\
    cudagraph_wrapper self' = cudagraph_wrapper self /\
    top_p_warper_top_p self' = top_p_warper_top_p self /\
    top_p_warper_skip_when_1 self' = top_p_warper_skip_when_1 self /\
    min_p_warper_min_p self' = min_p_warper_min_p self /\
    repetition_penalty_processor_penalty self' = repetition_penalty_processor_penalty self.
Proof.
  unfold init_speech_embedding_cache.
  destruct (speech_embedding_cache self) as [c0|] eqn:Ec.
  - destruct (et_size0 c0 <? n) eqn:En.
    + do 2 eexists. split; [reflexivity|]. cbn. repeat split; auto.
      right. apply to_dtype_size.
    + apply Z.ltb_ge in En.
      destruct (dtype_eqb (et_dtype c0) d); cbn [negb];
        do 2 eexists; (split; [reflexivity|]); cbn; repeat split; auto.
      left. destruct (to_dtype_size d c0) as [-> _]. exact En.
  - do 2 eexists. split; [reflexivity|]. cbn. repeat split; auto.
    right. apply to_dtype_size.
Qed.

End BuilderFacts.

(** C7 at the first call on a model whose positional embeddings are
    float32 and whose transformer runs in float16: the positional cache is
    rebuilt with the requested number of rows but in float32, and the next
    call with the same arguments does not return it unchanged: it now
    converts it; the speech table, rebuilt by the sibling builder, has the
    requested dtype at once. *)
Theorem pos_cache_rebuild_ignores_dtype :
  let first :=
    get_speech_pos_embedding_cache Z Z Toy.cast Toy.get_fixed_embedding Float32
      Toy.fresh_t3 3 Float16 in
  let built := mkETensor [0; 100; 200] Float32 in
  first = Ok (set_pos_cache Z Z Toy.fresh_t3 built, built) /\
  et_dtype built <> Float16 /\
  get_speech_pos_embedding_cache Z Z Toy.cast Toy.get_fixed_embedding Float32
    (set_pos_cache Z Z Toy.fresh_t3 built) 3 Float16
  = Ok (set_pos_cache Z Z Toy.fresh_t3 (mkETensor [0; 100; 200] Float16),
        mkETensor [0; 100; 200] Float16) /\
  init_speech_embedding_cache Z Z Toy.cast Toy.speech_emb_weight
    Toy.fresh_t3 8 Float16
  = Ok (set_speech_cache Z Z Toy.fresh_t3
          (mkETensor (et_rows Toy.speech_emb_weight) Float16),
        mkETensor (et_rows Toy.speech_emb_weight) Float16).
Proof.
  cbv zeta. split; [vm_compute; reflexivity|].
  split; [discriminate|].
  split; vm_compute; reflexivity.
Qed.

(** ** The generation driver *)

Ltac bind_inv H :=
  match type of H with
  | bind ?c _ = Ok _ =>
      let E := fresh "E" in
      destruct c eqn:E; [cbn [bind] in H | discriminate H]
  end.

Tactic Notation "bind_inv_as" hyp(H) ident(x) ident(E) :=
  match type of H with
  | bind ?c _ = Ok _ =>
      destruct c as [x|] eqn:E; [cbn [bind] in H | discriminate H]
  end.

Section DriverFacts.
Context {Lg : Type} {ops : TensorOps Lg}.
Variables Emb KV Rng : Type.
Variable emb_add : Emb -> Emb -> Emb.
Variable emb_zero : Emb.
Variable softmax : Lg -> Lg.
Variable multinomial : Rng -> Lg -> Z * Rng.
Variable patched_model : list (list Emb) -> KV -> list (list Lg) * KV.
Variable cast : Dtype -> Emb -> Emb.
Variable get_fixed_embedding : Z -> Emb.
Variable pos_emb_dtype : Dtype.
Variable speech_emb_weight : ETensor Emb.
Variable model_dtype : Dtype.
Variable hp : HP.
Variable static_cache : Z -> Z -> Dtype -> KV.
Variable static_cache_reset : KV -> KV.
Variable repetition_penalty_call : Q -> Processor Lg.
Variable min_p_call : Q -> Processor Lg.
Variable top_p_call : Q -> bool -> Processor Lg.
Variable get_next_bucket : Z -> Z -> Z -> Z.

Local Notation "'PAD'" := (PAD_TOKEN_ID hp).
Local Notation "'step'" :=
  (generate_t3_token Emb KV Rng emb_add softmax multinomial patched_model).
Local Notation "'body'" :=
  (loop_body Emb KV Rng emb_add softmax multinomial patched_model hp
     get_next_bucket).
Local Notation "'loop'" :=
  (decode_loop Emb KV Rng emb_add softmax multinomial patched_model hp
     get_next_bucket).
Local Notation "'reaches'" :=
  (loop_reaches Emb KV Rng emb_add softmax multinomial patched_model hp
     get_next_bucket).
Local Notation "'prep'" :=
  (prepare Emb KV Rng emb_add emb_zero patched_model cast get_fixed_embedding
     pos_emb_dtype speech_emb_weight model_dtype hp static_cache
     static_cache_reset repetition_penalty_call min_p_call top_p_call).
Local Notation "'run'" :=
  (run_loop Emb KV Rng emb_add emb_zero softmax multinomial patched_model cast
     get_fixed_embedding pos_emb_dtype speech_emb_weight model_dtype hp
     static_cache static_cache_reset repetition_penalty_call min_p_call
     top_p_call get_next_bucket).
Local Notation "'infer'" :=
  (inference_optimized Emb KV Rng emb_add emb_zero softmax multinomial
     patched_model cast get_fixed_embedding pos_emb_dtype speech_emb_weight
     model_dtype hp static_cache static_cache_reset repetition_penalty_call
     min_p_call top_p_call get_next_bucket).
Local Notation "'kv_setup'" :=
  (setup_kv_cache Emb KV model_dtype static_cache static_cache_reset).
Local Notation "'env_of'" :=
  (loop_env Emb KV repetition_penalty_call min_p_call top_p_call).
Local Notation "'Env'" := (LoopEnv (Lg := Lg) Emb).
Local Notation "'State'" := (LoopState (Lg := Lg) KV Rng).
Local Notation "'max_pos'" := (max_position_of Emb get_next_bucket).

(** *** What [prepare] has computed *)

Lemma prepare_inv (self : T3 Emb KV) (a : Args Emb) (rng : Rng)
    (p : Prepared Emb KV Rng) :
  prep self a rng = Ok p ->
  exists self1 pos_c self2 speech_c bos pos0 inputs self3 mnt idx,
    get_speech_pos_embedding_cache Emb KV cast get_fixed_embedding pos_emb_dtype
      self (TOKEN_LIMIT + 1) model_dtype = Ok (self1, pos_c) /\
    init_speech_embedding_cache Emb KV cast speech_emb_weight self1
      (speech_tokens_dict_size hp) model_dtype = Ok (self2, speech_c) /\
    py_get (et_rows speech_c) (start_speech_token hp) = Ok bos /\
    py_get (et_rows pos_c) 0 = Ok pos0 /\
    cat_bos Emb (a_cfg_weight a) (a_embeds a) (emb_add bos pos0) = Ok inputs /\
    update_processors Emb KV self2 (a_top_p a) (a_min_p a)
      (a_repetition_penalty a) (a_skip_when_1 a) = Ok self3 /\
    let inputs' := map (map (cast model_dtype)) inputs in
    let seq_len := zlen (hd [] inputs') in
    clamp_max_new_tokens hp (a_max_new_tokens a) (a_max_cache_len a) seq_len
      = Ok mnt /\
    torch_arange_1 mnt = Ok idx /\
    effective_stride Emb a <> 0 /\
    let self_kv := kv_setup self3 (effective_batch_size Emb a) (a_max_cache_len a) in
    let fwd := _initial_forward_pass Emb KV patched_model
                 (pad_inputs Emb emb_zero inputs' seq_len)
                 (kv_data (snd self_kv)) seq_len in
    p = mkPrepared Emb KV Rng (fst self_kv) (snd self_kv) mnt
          (effective_batch_size Emb a)
          (env_of (fst self_kv) a speech_c pos_c seq_len idx)
          (mnt / effective_stride Emb a)
          (mkLoopState KV Rng (initial_generated_ids hp) (fst fwd) (snd fwd) rng
             (guard_wrapper Emb KV (fst self_kv))).
Proof.
  unfold prepare. intro H.
  bind_inv H. destruct a0 as [self1 pos_c].
  bind_inv H. destruct a0 as [self2 speech_c].
  bind_inv H. rename a0 into bos.
  bind_inv H. rename a0 into pos0.
  bind_inv H. rename a0 into inputs.
  bind_inv H. rename a0 into self3.
  bind_inv H. rename a0 into mnt.
  bind_inv H. rename a0 into idx.
  destruct (effective_stride Emb a =? 0) eqn:Es; [discriminate|].
  cbn [bind] in H. inversion H; subst; clear H.
  apply Z.eqb_neq in Es.
  exists self1, pos_c, self2, speech_c, bos, pos0, inputs, self3, mnt, idx.
  repeat split; auto.
Qed.

Lemma clamp_inv (m : option Z) (mcl sl mnt : Z) :
  clamp_max_new_tokens hp m mcl sl = Ok mnt ->
  mnt < TOKEN_LIMIT /\
  let m0 := match m with None => max_speech_tokens hp | Some n => n end in
  mnt = (if mcl <? sl + m0 then mcl - sl else m0).
Proof.
  unfold clamp_max_new_tokens.
  set (m0 := match m with None => max_speech_tokens hp | Some n => n end).
  set (c := if mcl <? sl + m0 then mcl - sl else m0).
  destruct (c <? TOKEN_LIMIT) eqn:E; [|discriminate].
  intro H; inversion H; subst. apply Z.ltb_lt in E. split; [exact E|reflexivity].
Qed.

(** *** One iteration *)

Lemma body_continue (env : Env) (i mnt : Z) (st st' : State) :
  torch_arange_1 mnt = Ok (le_indices Emb env) ->
  0 <= i * le_stride_length Emb env ->
  body env i st = Ok (Continue KV Rng st') ->
  i * le_stride_length Emb env < mnt /\
  eos_check Emb hp env i (ls_generated_ids KV Rng st) = Ok false /\
  exists out,
    step (le_speech_cache Emb env) (ls_output_logits KV Rng st)
      (i * le_stride_length Emb env + 1) 0 (le_pos_cache Emb env)
      (ls_generated_ids KV Rng st) (le_cfg_weight Emb env)
      (le_temperature Emb env)
      (Some (le_repetition_penalty_processor Emb env))
      (Some (le_min_p_warper Emb env)) (Some (le_top_p_warper Emb env))
      (ls_kv KV Rng st) (le_stride_length Emb env) (max_pos env i)
      (ls_rng KV Rng st) = Ok out /\
    st' = mkLoopState KV Rng (so_generated_ids KV Rng out)
            (so_output_logits KV Rng out) (so_kv KV Rng out) (so_rng KV Rng out)
            (if backend_is_manual (le_backend Emb env)
             then ls_wrapper KV Rng st ++ [WCall (max_pos env i)]
             else ls_wrapper KV Rng st).
Proof.
  intros Hidx Hi H. unfold loop_body in H.
  bind_inv H. rename a into i_tensor.
  destruct (torch_arange_1_ok _ _ Hidx) as [Hm [Hlen Hget]].
  assert (Hlt : i * le_stride_length Emb env < mnt).
  { apply py_get_nonneg in E; [|exact Hi]. rewrite Hlen in E. tauto. }
  rewrite Hget in E by lia. inversion E; subst i_tensor; clear E.
  bind_inv H. destruct a; [discriminate|].
  bind_inv H. inversion H; subst; clear H.
  split; [exact Hlt|]. split; [reflexivity|].
  exists a. split; reflexivity.
Qed.

Lemma body_break (env : Env) (i : Z) (st st' : State) :
  body env i st = Ok (Break KV Rng st') ->
  st' = st /\
  existsb (Z.eqb (stop_speech_token hp)) (ls_generated_ids KV Rng st) = true.
Proof.
  intro H. unfold loop_body in H.
  bind_inv H. bind_inv H.
  destruct a0.
  - inversion H; subst. split; [reflexivity|].
    unfold eos_check in E0.
    destruct (i * le_stride_length Emb env >? le_length_guesstimate Emb env);
      [|discriminate].
    destruct (20 / le_stride_length Emb env =? 0); [discriminate|].
    destruct (i mod (20 / le_stride_length Emb env) =? 0); [|discriminate].
    inversion E0; reflexivity.
  - bind_inv H. discriminate.
Qed.

(** A step writes the buffer at its index, and nowhere else. *)
Lemma step_buffer spc ol i posc ids w T rep minp topp kv s mp rng out :
  0 <= i ->
  step spc ol i 0 posc ids w T rep minp topp kv s mp rng = Ok out ->
  i < zlen ids /\
  so_generated_ids KV Rng out = set_nth ids (Z.to_nat i) (so_next_token KV Rng out).
Proof.
  intros Hi H.
  destruct (step_inv _ _ _ _ _ _ _ _ _ _ _ _ _ _ _ _ _ _ _ _ _ _ _ H)
    as [logits [_ [_ [_ [Hset _]]]]].
  apply py_set_ok in Hset; [|exact Hi]. exact Hset.
Qed.

(** *** The generation-state invariant *)

Lemma high_water_succ (s i : Z) : 0 <= i -> high_water s (i + 1) = i * s + 1.
Proof.
  intro Hi. unfold high_water.
  replace (i + 1 =? 0) with false by (symmetry; apply Z.eqb_neq; lia).
  f_equal. f_equal. lia.
Qed.

Lemma high_water_le (s i : Z) : 1 <= s -> 0 <= i -> high_water s i <= i * s.
Proof.
  intros Hs Hi. unfold high_water, bos_len.
  destruct (i =? 0) eqn:E; [apply Z.eqb_eq in E; subst; lia|].
  apply Z.eqb_neq in E. nia.
Qed.

Lemma buffer_inv_start (s : Z) : buffer_inv hp s 0 (initial_generated_ids hp).
Proof.
  destruct (initial_generated_ids_spec hp) as [Hlen [H0 Hpad]].
  unfold buffer_inv. split; [exact Hlen|]. split; [exact H0|].
  intros j Hj. apply Hpad. unfold high_water in Hj.
  change (0 =? 0) with true in Hj. cbv iota in Hj. unfold bos_len in *. lia.
Qed.

Lemma buffer_inv_write (s i : Z) (ids : list Z) (tok : Z) :
  1 <= s -> 0 <= i -> i * s + 1 < bos_len + TOKEN_LIMIT ->
  buffer_inv hp s i ids ->
  buffer_inv hp s (i + 1) (set_nth ids (Z.to_nat (i * s + 1)) tok).
Proof.
  intros Hs Hi Hlt [Hlen [H0 Hpad]]. unfold buffer_inv.
  pose proof (high_water_le s i Hs Hi) as Hhw.
  split; [|split].
  - unfold zlen in *. rewrite set_nth_length. exact Hlen.
  - rewrite set_nth_other by lia. exact H0.
  - intros j Hj. rewrite high_water_succ in Hj by exact Hi.
    rewrite set_nth_other by lia. apply Hpad. lia.
Qed.

(** A negative stride leaves no iteration to run. *)
Lemma iterations_stride (mnt s i : Z) :
  0 <= mnt -> s <> 0 -> 0 <= i < mnt / s -> 1 <= s /\ (i + 1) * s <= mnt.
Proof.
  intros Hm Hs Hi.
  assert (Hpos : 1 <= s).
  { destruct (Z_lt_le_dec s 0) as [Hneg|]; [|lia].
    pose proof (Z.mod_neg_bound mnt s Hneg) as Hb.
    pose proof (Z.div_mod mnt s Hs) as Hd. nia. }
  split; [exact Hpos|].
  pose proof (Z.mul_div_le mnt s ltac:(lia)) as Hle. nia.
Qed.

(** What is known of the loop's constants once [prepare] has returned. *)
Lemma prepare_loop_facts (self : T3 Emb KV) (a : Args Emb) (rng : Rng)
    (p : Prepared Emb KV Rng) :
  prep self a rng = Ok p ->
  let env := pr_env Emb KV Rng p in
  let mnt := pr_max_new_tokens Emb KV Rng p in
  torch_arange_1 mnt = Ok (le_indices Emb env) /\
  0 <= mnt < TOKEN_LIMIT /\
  le_stride_length Emb env <> 0 /\
  pr_iterations Emb KV Rng p = mnt / le_stride_length Emb env /\
  ls_generated_ids KV Rng (pr_state Emb KV Rng p) = initial_generated_ids hp /\
  TOKEN_LIMIT + 1 <= zlen (le_pos_cache Emb env).
Proof.
  intro H. apply prepare_inv in H.
  destruct H as (self1 & pos_c & self2 & speech_c & bos & pos0 & inputs & self3
                 & mnt & idx & Hpos & Hsp & Hbos & Hp0 & Hcat & Hup & H).
  cbv zeta in H. destruct H as (Hclamp & Hidx & Hs & ->). cbn.
  apply clamp_inv in Hclamp. destruct Hclamp as [Hlt _].
  destruct (torch_arange_1_ok _ _ Hidx) as [Hm _].
  apply pos_cache_post in Hpos. destruct Hpos as (_ & Hsz & _).
  repeat split; auto; try lia.
Qed.

(** The state the loop ends in is one of its loop heads. *)
Lemma loop_reaches_final (env : Env) (iterations : Z) (st0 : State)
    (n : nat) (i : Z) (st st' : State) :
  loop env n i st = Ok st' ->
  reaches env iterations st0 i st ->
  Z.of_nat n <= Z.max 0 (iterations - i) ->
  exists i', reaches env iterations st0 i' st'.
Proof.
  revert i st. induction n as [|n IH]; intros i st Hloop Hr Hle.
  - simpl in Hloop. inversion Hloop; subst. eauto.
  - simpl in Hloop. bind_inv Hloop. destruct a as [st1|st1].
    + apply (IH (i + 1) st1 Hloop); [|lia].
      apply reaches_step with (st := st); auto. lia.
    + inversion Hloop; subst. apply body_break in E. destruct E as [-> _].
      eauto.
Qed.

Section Loop.
Variable env : Env.
Variables mnt iterations : Z.
Variable st0 : State.
Hypothesis Hidx : torch_arange_1 mnt = Ok (le_indices Emb env).
Hypothesis Hmnt : 0 <= mnt < TOKEN_LIMIT.
Hypothesis Hstride : le_stride_length Emb env <> 0.
Hypothesis Hiter : iterations = mnt / le_stride_length Emb env.
Hypothesis Hbuf0 : ls_generated_ids KV Rng st0 = initial_generated_ids hp.

Local Notation "'s'" := (le_stride_length Emb env).

(** One iteration from a state that satisfies the invariant. *)
Lemma iteration_inv (i : Z) (st st' : State) :
  0 <= i < iterations ->
  buffer_inv hp s i (ls_generated_ids KV Rng st) ->
  body env i st = Ok (Continue KV Rng st') ->
  1 <= s /\ i * s + 1 <= mnt /\
  exists out,
    step (le_speech_cache Emb env) (ls_output_logits KV Rng st)
      (i * s + 1) 0 (le_pos_cache Emb env)
      (ls_generated_ids KV Rng st) (le_cfg_weight Emb env)
      (le_temperature Emb env)
      (Some (le_repetition_penalty_processor Emb env))
      (Some (le_min_p_warper Emb env)) (Some (le_top_p_warper Emb env))
      (ls_kv KV Rng st) s (max_pos env i) (ls_rng KV Rng st) = Ok out /\
    ls_generated_ids KV Rng st' =
      set_nth (ls_generated_ids KV Rng st) (Z.to_nat (i * s + 1))
        (so_next_token KV Rng out) /\
    ls_rng KV Rng st' = so_rng KV Rng out /\
    buffer_inv hp s (i + 1) (ls_generated_ids KV Rng st').
Proof.
  intros Hi Hinv Hbody. rewrite Hiter in Hi.
  destruct (iterations_stride mnt s i ltac:(lia) Hstride Hi) as [Hs Hle].
  destruct (body_continue env i mnt st st' Hidx ltac:(nia) Hbody)
    as (Hlt & _ & out & Hstep & ->).
  split; [exact Hs|]. split; [lia|].
  exists out. split; [exact Hstep|].
  assert (Hge : 0 <= i * s + 1) by nia.
  destruct (step_buffer _ _ _ _ _ _ _ _ _ _ _ _ _ _ out Hge Hstep)
    as [_ Hset].
  cbn. rewrite Hset. split; [reflexivity|]. split; [reflexivity|].
  apply buffer_inv_write; auto; try lia. unfold bos_len. lia.
Qed.

(** The invariant holds at every loop head. *)
Lemma reaches_inv (i : Z) (st : State) :
  reaches env iterations st0 i st ->
  0 <= i /\ buffer_inv hp s i (ls_generated_ids KV Rng st) /\
  high_water s i <= mnt.
Proof.
  induction 1 as [|i st st' Hr IH Hlt Hbody].
  - split; [lia|]. split; [rewrite Hbuf0; apply buffer_inv_start|].
    unfold high_water, bos_len. simpl. lia.
  - destruct IH as (Hi & Hinv & _).
    destruct (iteration_inv i st st' ltac:(lia) Hinv Hbody)
      as (Hs & Hle & out & _ & _ & _ & Hinv').
    split; [lia|]. split; [exact Hinv'|].
    rewrite high_water_succ by exact Hi. exact Hle.
Qed.

End Loop.

Lemma run_loop_reaches (self : T3 Emb KV) (a : Args Emb) (rng : Rng)
    (p : Prepared Emb KV Rng) (st : State) :
  run self a rng = Ok (p, st) ->
  prep self a rng = Ok p /\
  exists i,
    reaches (pr_env Emb KV Rng p) (pr_iterations Emb KV Rng p)
      (pr_state Emb KV Rng p) i st.
Proof.
  unfold run_loop. intro H. bind_inv H. bind_inv H. inversion H; subst; clear H.
  split; [reflexivity|].
  eapply loop_reaches_final; [exact E0 | apply reaches_start | lia].
Qed.

(** *** The token buffer during the loop *)

(** C9: at every loop head of the decode loop, the token buffer has its
    allocated length and every position beyond the highest index written
    holds the pad value (stop_speech_token + 1); an iteration writes one
    position, the current index, which is beyond all written ones and
    held the pad value until then: it puts there the token the step
    draws, and leaves the length and every other position as they
    were. *)
Theorem buffer_tail_is_pad (self : T3 Emb KV) (a : Args Emb) (rng : Rng)
    (p : Prepared Emb KV Rng) (i : Z) (st : State) :
  prep self a rng = Ok p ->
  reaches (pr_env Emb KV Rng p) (pr_iterations Emb KV Rng p)
    (pr_state Emb KV Rng p) i st ->
  let env := pr_env Emb KV Rng p in
  let s := le_stride_length Emb env in
  let buf := ls_generated_ids KV Rng st in
  zlen buf = bos_len + TOKEN_LIMIT /\
  (forall j, high_water s i < j < bos_len + TOKEN_LIMIT ->
     nth_error buf (Z.to_nat j) = Some (stop_speech_token hp + 1)) /\
  (forall st', i < pr_iterations Emb KV Rng p ->
     body env i st = Ok (Continue KV Rng st') ->
     let buf' := ls_generated_ids KV Rng st' in
     let index := i * s + 1 in
     py_get (le_indices Emb env) (i * s) = Ok index /\
     high_water s i < index < bos_len + TOKEN_LIMIT /\
     nth_error buf (Z.to_nat index) = Some (stop_speech_token hp + 1) /\
     zlen buf' = zlen buf /\
     (exists raw,
        cfg_logits (ls_output_logits KV Rng st) (le_cfg_weight Emb env) = Ok raw /\
        nth_error buf' (Z.to_nat index) =
        Some (fst (multinomial (ls_rng KV Rng st)
                (softmax
                   (le_top_p_warper Emb env (Some buf)
                      (le_min_p_warper Emb env (Some buf)
                         (temperature_stage (le_temperature Emb env)
                            (le_repetition_penalty_processor Emb env
                               (Some buf) raw)))))))) /\
     (forall j, j <> Z.to_nat index -> nth_error buf' j = nth_error buf j)).
Proof.
  intros Hp Hr env s buf.
  destruct (prepare_loop_facts _ _ _ _ Hp) as (Hidx & Hmnt & Hs & Hit & Hb0 & _).
  destruct (reaches_inv _ _ _ _ Hidx Hmnt Hs Hit Hb0 i st Hr)
    as (Hi & Hinv & Hhw).
  destruct Hinv as (Hlen & H0 & Hpad).
  split; [exact Hlen|]. split; [exact Hpad|].
  intros st' Hlt Hbody buf' index.
  destruct (iteration_inv _ _ _ Hidx Hmnt Hs Hit i st st' ltac:(lia)
              (conj Hlen (conj H0 Hpad)) Hbody)
    as (Hs1 & Hle & out & Hstep & Hset & _ & Hinv').
  pose proof (high_water_le _ i Hs1 Hi) as Hhl.
  subst env s buf buf' index.
  assert (Hnn : 0 <= i * le_stride_length Emb (pr_env Emb KV Rng p)) by nia.
  split.
  { destruct (torch_arange_1_ok _ _ Hidx) as (_ & _ & Hget).
    apply Hget. lia. }
  split; [unfold bos_len; lia|].
  split; [apply Hpad; unfold bos_len; lia|].
  rewrite Hset. split; [|split].
  - unfold zlen. rewrite set_nth_length. reflexivity.
  - destruct (step_inv _ _ _ _ _ _ _ _ _ _ _ _ _ _ _ _ _ _ _ _ _ _ _ Hstep)
      as (raw & Hcfg & Htok & _).
    exists raw. split; [exact Hcfg|].
    rewrite set_nth_same.
    + rewrite Htok, process_logits_stages. reflexivity.
    + unfold zlen, bos_len in Hlen. lia.
  - intros j Hj. apply set_nth_other. congruence.
Qed.


(** *** The returned slice *)

Lemma infer_inv (self self' : T3 Emb KV) (a : Args Emb) (rng rng' : Rng)
    (toks : list Z) :
  infer self a rng = Ok (toks, self', rng') ->
  exists p st,
    run self a rng = Ok (p, st) /\
    toks = finalize hp (ls_generated_ids KV Rng st) (pr_max_new_tokens Emb KV Rng p) /\
    rng' = ls_rng KV Rng st /\
    cudagraph_wrapper self' = Some (ls_wrapper KV Rng st) /\
    kv_cache self' =
      Some (mkKVHandle (kv_batch_size (pr_kv Emb KV Rng p))
              (kv_max_cache_len (pr_kv Emb KV Rng p))
              (kv_dtype (pr_kv Emb KV Rng p)) (ls_kv KV Rng st)).
Proof.
  unfold inference_optimized. intro H. bind_inv H. destruct a0 as [p st].
  inversion H; subst; clear H. exists p, st. repeat split; reflexivity.
Qed.

(** The buffer and the budget when the loop has ended. *)
Lemma run_loop_final (self : T3 Emb KV) (a : Args Emb) (rng : Rng)
    (p : Prepared Emb KV Rng) (st : State) :
  run self a rng = Ok (p, st) ->
  let buf := ls_generated_ids KV Rng st in
  let mnt := pr_max_new_tokens Emb KV Rng p in
  0 <= mnt < TOKEN_LIMIT /\
  zlen buf = bos_len + TOKEN_LIMIT /\
  forall j, mnt < j < bos_len + TOKEN_LIMIT ->
    nth_error buf (Z.to_nat j) = Some PAD.
Proof.
  intros H buf mnt. apply run_loop_reaches in H. destruct H as [Hp [i Hr]].
  destruct (prepare_loop_facts _ _ _ _ Hp) as (Hidx & Hmnt & Hs & Hit & Hb0 & _).
  destruct (reaches_inv _ _ _ _ Hidx Hmnt Hs Hit Hb0 i st Hr)
    as (Hi & (Hlen & H0 & Hpad) & Hhw).
  split; [exact Hmnt|]. split; [exact Hlen|].
  intros j Hj. apply Hpad. subst mnt. lia.
Qed.

(** The driver returns the token buffer cut after the first stop token:
    when the stop token first occurs at position K of the buffer, the
    K + 1 first positions, the last one holding the stop token and none
    before; when it does not occur, the prefix of length
    bos_len + max_new_tokens (the budget after the clamp). *)
Lemma buffer_cut_at_stop (self self' : T3 Emb KV) (a : Args Emb) (rng rng' : Rng)
    (toks : list Z) :
  infer self a rng = Ok (toks, self', rng') ->
  exists p st,
    run self a rng = Ok (p, st) /\
    let buf := ls_generated_ids KV Rng st in
    let stop := stop_speech_token hp in
    (forall K, first_index stop buf = Some K ->
       nth_error buf (Z.to_nat K) = Some stop /\
       (forall j, 0 <= j < K -> nth_error buf (Z.to_nat j) <> Some stop) /\
       toks = firstn (Z.to_nat (K + 1)) buf /\
       zlen toks = K + 1 /\
       nth_error toks (Z.to_nat K) = Some stop) /\
    (first_index stop buf = None ->
       ~ In stop buf /\
       toks = firstn (Z.to_nat (bos_len + pr_max_new_tokens Emb KV Rng p)) buf /\
       zlen toks = bos_len + pr_max_new_tokens Emb KV Rng p).
Proof.
  intro H. destruct (infer_inv _ _ _ _ _ _ H) as (p & st & Hrun & -> & _).
  exists p, st. split; [exact Hrun|].
  destruct (run_loop_final _ _ _ _ _ Hrun) as (Hmnt & Hlen & _).
  cbv zeta. unfold finalize. split.
  - intros K HK. rewrite HK.
    destruct (first_index_some _ _ _ HK) as (HKr & HKn & HKf).
    destruct (py_slice_to_prefix (ls_generated_ids KV Rng st) (K + 1)
                ltac:(lia)) as [Hs Hz].
    split; [exact HKn|]. split; [exact HKf|]. split; [exact Hs|].
    split; [exact Hz|].
    rewrite Hs, nth_error_firstn_lt by lia. exact HKn.
  - intros HN. rewrite HN. split; [apply first_index_none; exact HN|].
    apply py_slice_to_prefix. unfold bos_len in *. lia.
Qed.

(** *** The calls on the CUDA-graph wrapper *)

Lemma body_wrapper (env : Env) (i : Z) (st st' : State) :
  body env i st = Ok (Continue KV Rng st') ->
  ls_wrapper KV Rng st' =
    if backend_is_manual (le_backend Emb env)
    then ls_wrapper KV Rng st ++ [WCall (max_pos env i)]
    else ls_wrapper KV Rng st.
Proof.
  intro H. unfold loop_body in H.
  bind_inv H. bind_inv H. destruct a0; [discriminate|].
  bind_inv H. inversion H; subst; reflexivity.
Qed.

Lemma loop_wrapper (env : Env) (n : nat) (i : Z) (st st' : State) :
  loop env n i st = Ok st' ->
  exists calls,
    ls_wrapper KV Rng st' = ls_wrapper KV Rng st ++ calls /\
    forallb is_call calls = true /\
    (length calls <= n)%nat /\
    (backend_is_manual (le_backend Emb env) = false -> calls = []).
Proof.
  revert i st. induction n as [|n IH]; intros i st H; simpl in H.
  - inversion H; subst. exists []. rewrite app_nil_r. auto.
  - bind_inv H. destruct a as [st1|st1].
    + destruct (IH _ _ H) as (calls & Hw & Hc & Hl & Hm).
      apply body_wrapper in E. rewrite Hw, E.
      destruct (backend_is_manual (le_backend Emb env)).
      * exists (WCall (max_pos env i) :: calls).
        rewrite <- app_assoc. simpl. repeat split; auto; [lia|discriminate].
      * exists calls. repeat split; auto.
    + inversion H; subst. apply body_break in E. destruct E as [-> _].
      exists []. rewrite app_nil_r. simpl. repeat split; auto. lia.
Qed.

Lemma update_processors_frame (self self' : T3 Emb KV) (tp mp rp : Q) (sk : bool) :
  update_processors Emb KV self tp mp rp sk = Ok self' ->
  speech_pos_embedding_cache self' = speech_pos_embedding_cache self /\
  speech_embedding_cache self' = speech_embedding_cache self /\
  kv_cache self' = kv_cache self /\
  cudagraph_wrapper self' = cudagraph_wrapper self.
Proof.
  unfold update_processors. intro H.
  destruct (if negb (Qeq_bool (top_p_warper_top_p self) tp) then _ else _)
    as [tp' sk'].
  bind_inv H. inversion H; subst. cbn. auto.
Qed.

(** What [prepare] keeps of the object it was called on. *)
Lemma prepare_frame (self : T3 Emb KV) (a : Args Emb) (rng : Rng)
    (p : Prepared Emb KV Rng) :
  prep self a rng = Ok p ->
  ls_wrapper KV Rng (pr_state Emb KV Rng p) = guard_wrapper Emb KV self /\
  le_backend Emb (pr_env Emb KV Rng p) = a_generate_token_backend a /\
  pr_effective_batch_size Emb KV Rng p = effective_batch_size Emb a /\
  pr_kv Emb KV Rng p =
    snd (kv_setup self (effective_batch_size Emb a) (a_max_cache_len a)).
Proof.
  intro H. apply prepare_inv in H.
  destruct H as (self1 & pos_c & self2 & speech_c & bos & pos0 & inputs & self3
                 & mnt & idx & Hpos & Hsp & Hbos & Hp0 & Hcat & Hup & H).
  cbv zeta in H. destruct H as (Hclamp & Hidx & Hs & ->). cbn.
  apply pos_cache_post in Hpos. destruct Hpos as (_ & _ & _ & Hk1 & Hw1 & _).
  destruct (speech_cache_post Emb KV cast speech_emb_weight self1
              (speech_tokens_dict_size hp) model_dtype)
    as (s2 & c2 & Heq & _ & _ & _ & Hk2 & Hw2 & _).
  rewrite Heq in Hsp. inversion Hsp; subst s2 c2; clear Hsp.
  apply update_processors_frame in Hup. destruct Hup as (_ & _ & Hk3 & Hw3).
  unfold guard_wrapper, setup_kv_cache. cbn.
  rewrite Hw3, Hw2, Hw1, Hk3, Hk2, Hk1. auto.
Qed.

(** C6, as the code has it: a request calls [guard()] once, after the
    initial forward pass and before the first step; the steps of the
    request follow it on the wrapper, one call per executed step of the
    manual CUDA-graph backend and no call for the other backends, with
    no guard between two steps. *)
Theorem guard_once_per_request (self self' : T3 Emb KV) (a : Args Emb)
    (rng rng' : Rng) (toks : list Z) :
  infer self a rng = Ok (toks, self', rng') ->
  exists calls,
    cudagraph_wrapper self' =
      Some (match cudagraph_wrapper self with None => [] | Some w => w end
            ++ WGuard :: calls) /\
    forallb is_call calls = true /\
    (a_generate_token_backend a <> CudagraphsManual -> calls = []).
Proof.
  intro H. destruct (infer_inv _ _ _ _ _ _ H) as (p & st & Hrun & _ & _ & Hw & _).
  unfold run_loop in Hrun. bind_inv Hrun. bind_inv Hrun.
  inversion Hrun; subst; clear Hrun.
  destruct (prepare_frame _ _ _ _ E) as (Hw0 & Hb & _).
  destruct (loop_wrapper _ _ _ _ _ E0) as (calls & Hc & Hall & _ & Hm).
  exists calls. rewrite Hw, Hc, Hw0. unfold guard_wrapper.
  rewrite <- app_assoc. split; [reflexivity|]. split; [exact Hall|].
  intro Hne. apply Hm. rewrite Hb.
  destruct (a_generate_token_backend a); try reflexivity. congruence.
Qed.

(** *** What [prepare] needs to return *)

Local Notation "'in_vocab'" := (sampler_in_vocab Rng multinomial hp).

Lemma pad_inputs_rows (inputs : list (list Emb)) (sl : Z) :
  exists pad, pad_inputs Emb emb_zero inputs sl = map (fun row => row ++ pad) inputs.
Proof.
  unfold pad_inputs. destruct (sl <? 1024).
  - eauto.
  - exists []. rewrite <- (map_id inputs) at 1. apply map_ext.
    intro row. rewrite app_nil_r. reflexivity.
Qed.

(** The prompt the driver builds for a request it can run. *)
Lemma cat_bos_ok (a : Args Emb) (b : Emb) :
  request_ok Emb a ->
  exists inputs i0 rest,
    cat_bos Emb (a_cfg_weight a) (a_embeds a) b = Ok inputs /\
    map (map (cast model_dtype)) inputs = i0 :: rest /\
    zlen i0 = prompt_length Emb a /\ (1 <= length i0)%nat /\
    (Qlt_bool 0 (a_cfg_weight a) = true ->
     exists i1 more, rest = i1 :: more /\ (1 <= length i1)%nat).
Proof.
  intros (Hemb & _ & _). unfold cat_bos, prompt_length.
  destruct (Qlt_bool 0 (a_cfg_weight a)).
  - rewrite Hemb. cbn [Z.eqb Pos.eqb].
    destruct (a_embeds a) as [|r0 [|r1 [|r2 t]]];
      unfold zlen in Hemb; cbn [length] in Hemb; try lia.
    do 3 eexists. split; [reflexivity|]. cbn [combine map fst snd hd].
    split; [reflexivity|]. unfold zlen.
    rewrite !length_map, !length_app. cbn [length].
    split; [lia|]. split; [lia|].
    intros _. do 2 eexists. split; [reflexivity|].
    rewrite length_map, length_app. cbn [length]. lia.
  - destruct Hemb as [H1 H2].
    destruct (a_embeds a) as [|r0 rest];
      [unfold zlen in H1; cbn [length] in H1; lia|].
    do 3 eexists. split; [reflexivity|]. cbn [map hd] in *.
    split; [reflexivity|]. unfold zlen in *. rewrite length_map.
    split; [lia|]. split; [lia|]. discriminate.
Qed.

Lemma update_processors_ok (self : T3 Emb KV) (tp mp rp : Q) (sk : bool) :
  (0 < rp)%Q -> exists self', update_processors Emb KV self tp mp rp sk = Ok self'.
Proof.
  intro Hrp. apply Qlt_bool_iff in Hrp. unfold update_processors. rewrite Hrp.
  destruct (if negb (Qeq_bool (top_p_warper_top_p self) tp) then _ else _)
    as [tp' sk'].
  destruct (negb (Qeq_bool (repetition_penalty_processor_penalty self) rp));
    cbn [bind]; eauto.
Qed.

Local Notation "'voc_ok'" := (vocab_ok Emb speech_emb_weight hp).

(** [prepare] on a request the driver can run: it raises what the budget
    test raises, and returns otherwise. *)
Lemma prepare_returns (self : T3 Emb KV) (a : Args Emb) (rng : Rng) :
  voc_ok -> request_ok Emb a ->
  (forall e,
      clamp_max_new_tokens hp (a_max_new_tokens a) (a_max_cache_len a)
        (prompt_length Emb a) = Raise e ->
      prep self a rng = Raise e) /\
  (forall mnt,
      clamp_max_new_tokens hp (a_max_new_tokens a) (a_max_cache_len a)
        (prompt_length Emb a) = Ok mnt ->
      0 <= mnt ->
      exists p,
        prep self a rng = Ok p /\
        pr_max_new_tokens Emb KV Rng p = mnt /\
        pr_iterations Emb KV Rng p = mnt / effective_stride Emb a).
Proof.
  intros (Hv1 & Hv2) Hreq.
  destruct (pos_cache_total Emb KV cast get_fixed_embedding pos_emb_dtype self
              (TOKEN_LIMIT + 1) model_dtype) as (self1 & pos_c & Hpos);
    [pose proof TOKEN_LIMIT_pos; lia|].
  destruct (pos_cache_post _ _ _ _ _ _ _ _ _ _ Hpos) as (_ & Hpsz & _).
  destruct (speech_cache_post Emb KV cast speech_emb_weight self1
              (speech_tokens_dict_size hp) model_dtype)
    as (self2 & speech_c & Hsp & _ & Hssz & _).
  assert (Hvsz : speech_tokens_dict_size hp <= zlen (et_rows speech_c)).
  { fold (et_size0 speech_c). lia. }
  destruct (py_get_in_range (et_rows speech_c) (start_speech_token hp))
    as (bos & Hbos & _); [lia|].
  destruct (py_get_in_range (et_rows pos_c) 0) as (pos0 & Hp0 & _).
  { fold (et_size0 pos_c). pose proof TOKEN_LIMIT_pos. lia. }
  destruct (cat_bos_ok a (emb_add bos pos0) Hreq)
    as (inputs & i0 & rest & Hcat & Hin & Hz & Hi0 & Hrest).
  destruct Hreq as (_ & Hrp & Hstride).
  destruct (update_processors_ok self2 (a_top_p a) (a_min_p a)
              (a_repetition_penalty a) (a_skip_when_1 a) Hrp) as [self3 Hup].
  unfold prepare. rewrite Hpos. cbn [bind]. rewrite Hsp. cbn [bind].
  rewrite Hbos. cbn [bind]. rewrite Hp0. cbn [bind]. rewrite Hcat. cbn [bind].
  rewrite Hup. cbn [bind]. rewrite Hin. cbn [hd]. rewrite Hz.
  split.
  - intros e He. rewrite He. reflexivity.
  - intros mnt Hm Hnn. rewrite Hm. cbn [bind].
    destruct (torch_arange_1_nonneg mnt Hnn) as [idx ->]. cbn [bind].
    replace (effective_stride Emb a =? 0) with false
      by (symmetry; apply Z.eqb_neq; lia).
    cbn [bind]. eexists. split; [reflexivity|]. cbn. split; reflexivity.
Qed.

Lemma finalize_length (self : T3 Emb KV) (a : Args Emb) (rng : Rng)
    (p : Prepared Emb KV Rng) (st : State) :
  run self a rng = Ok (p, st) ->
  zlen (finalize hp (ls_generated_ids KV Rng st) (pr_max_new_tokens Emb KV Rng p))
  <= bos_len + pr_max_new_tokens Emb KV Rng p.
Proof.
  intro Hrun. destruct (run_loop_final _ _ _ _ _ Hrun) as (Hmnt & Hlen & Hpad).
  unfold finalize.
  destruct (first_index (stop_speech_token hp) (ls_generated_ids KV Rng st))
    as [K|] eqn:HK.
  - destruct (first_index_some _ _ _ HK) as (HKr & HKn & _).
    assert (HKle : K <= pr_max_new_tokens Emb KV Rng p).
    { destruct (Z_le_gt_dec K (pr_max_new_tokens Emb KV Rng p)) as [|Hgt];
        [assumption|].
      rewrite Hpad in HKn by lia. unfold PAD_TOKEN_ID in HKn.
      inversion HKn. lia. }
    destruct (py_slice_to_prefix (ls_generated_ids KV Rng st) (K + 1) ltac:(lia))
      as [_ ->].
    unfold bos_len. lia.
  - destruct (py_slice_to_prefix (ls_generated_ids KV Rng st)
                (bos_len + pr_max_new_tokens Emb KV Rng p))
      as [_ ->]; unfold bos_len in *; lia.
Qed.

(** *** The static cache across requests *)

(** An object that has a cache keeps it: the handle the request runs on
    has the shape the cache was allocated with, whatever batch size and
    cache length the request needs. *)
Lemma setup_kv_cache_reuses (self : T3 Emb KV) (h : KVHandle KV) (b l : Z) :
  kv_cache self = Some h ->
  snd (kv_setup self b l) =
  mkKVHandle (kv_batch_size h) (kv_max_cache_len h) (kv_dtype h)
    (static_cache_reset (kv_data h)).
Proof. intro H. unfold setup_kv_cache. rewrite H. reflexivity. Qed.

Lemma setup_kv_cache_allocates (self : T3 Emb KV) (b l : Z) :
  kv_cache self = None ->
  snd (kv_setup self b l) =
  mkKVHandle b l model_dtype (static_cache b l model_dtype).
Proof. intro H. unfold setup_kv_cache. rewrite H. reflexivity. Qed.

(** *** Running the same request again *)

Lemma t3_eta (t : T3 Emb KV) :
  mkT3 (top_p_warper_top_p t) (top_p_warper_skip_when_1 t) (min_p_warper_min_p t)
    (repetition_penalty_processor_penalty t) (speech_pos_embedding_cache t)
    (speech_embedding_cache t) (kv_cache t) (cudagraph_wrapper t) = t.
Proof. destruct t; reflexivity. Qed.

Lemma pos_cache_dtype (s s' : T3 Emb KV) (c : ETensor Emb) (n : Z) (d : Dtype) :
  get_speech_pos_embedding_cache Emb KV cast get_fixed_embedding pos_emb_dtype
    s n d = Ok (s', c) ->
  pos_emb_dtype = d -> et_dtype c = d.
Proof.
  unfold get_speech_pos_embedding_cache. intros H Hd.
  assert (Hrebuild :
    (c1 <- torch_stack Emb (map get_fixed_embedding (py_range n)) pos_emb_dtype ;;
     Ok (set_pos_cache Emb KV s c1, c1)) = Ok (s', c) -> et_dtype c = d).
  { intro Hr. bind_inv Hr. inversion Hr as [[Hs Hc]].
    apply torch_stack_range in E. destruct E as [E _].
    rewrite <- Hc, E. exact Hd. }
  destruct (speech_pos_embedding_cache s) as [c0|]; [|exact (Hrebuild H)].
  destruct (et_size0 c0 <? n); [exact (Hrebuild H)|].
  destruct (dtype_eqb (et_dtype c0) d) eqn:Ed; cbn [negb] in H;
    inversion H as [[Hs Hc]].
  - rewrite <- Hc. destruct (et_dtype c0), d; simpl in Ed; congruence.
  - reflexivity.
Qed.

(** A second call of the positional builder, on an object that holds the
    cache the first call returned, returns that cache. *)
Lemma pos_cache_rerun (s s' t : T3 Emb KV) (c : ETensor Emb) (n : Z) (d : Dtype) :
  get_speech_pos_embedding_cache Emb KV cast get_fixed_embedding pos_emb_dtype
    s n d = Ok (s', c) ->
  pos_emb_dtype = d ->
  speech_pos_embedding_cache t = Some c ->
  get_speech_pos_embedding_cache Emb KV cast get_fixed_embedding pos_emb_dtype
    t n d = Ok (t, c).
Proof.
  intros H Hd Ht.
  pose proof (pos_cache_dtype _ _ _ _ _ H Hd) as Hdt.
  apply pos_cache_post in H. destruct H as (_ & Hsz & _).
  apply pos_cache_covered; assumption.
Qed.

Lemma set_speech_cache_same (t : T3 Emb KV) (c : ETensor Emb) :
  speech_embedding_cache t = Some c -> set_speech_cache Emb KV t c = t.
Proof. destruct t; cbn. intros ->. reflexivity. Qed.

Lemma speech_cache_rerun (s s' t : T3 Emb KV) (c : ETensor Emb) (n : Z) (d : Dtype) :
  init_speech_embedding_cache Emb KV cast speech_emb_weight s n d = Ok (s', c) ->
  speech_embedding_cache t = Some c ->
  init_speech_embedding_cache Emb KV cast speech_emb_weight t n d = Ok (t, c).
Proof.
  unfold init_speech_embedding_cache. intros H Ht. rewrite Ht.
  assert (Hcases :
    c = to_dtype Emb cast d speech_emb_weight \/ (n <= et_size0 c /\ et_dtype c = d)).
  { destruct (speech_embedding_cache s) as [c0|].
    - destruct (et_size0 c0 <? n) eqn:En.
      + inversion H; auto.
      + apply Z.ltb_ge in En.
        destruct (dtype_eqb (et_dtype c0) d) eqn:Ed; cbn [negb] in H;
          inversion H; subst; right.
        * split; [exact En|]. destruct (et_dtype c), d; simpl in Ed; congruence.
        * destruct (to_dtype_size Emb cast d c0) as [-> ->]. auto.
    - inversion H; auto. }
  destruct (et_size0 c <? n) eqn:En.
  - destruct Hcases as [->|[Hsz _]]; [|apply Z.ltb_lt in En; lia].
    rewrite set_speech_cache_same by exact Ht. reflexivity.
  - assert (Hd : et_dtype c = d).
    { destruct Hcases as [->|[_ Hd]]; [reflexivity|exact Hd]. }
    replace (dtype_eqb (et_dtype c) d) with true
      by (symmetry; rewrite Hd; destruct d; reflexivity).
    reflexivity.
Qed.

Lemma Qeq_bool_same (x : Q) : Qeq_bool x x = true.
Proof. apply Qeq_bool_iff. reflexivity. Qed.

(** [update_processors] with the same parameters changes nothing the
    second time. *)
Lemma update_processors_rerun (s s' t : T3 Emb KV) (tp mp rp : Q) (sk : bool) :
  update_processors Emb KV s tp mp rp sk = Ok s' ->
  top_p_warper_top_p t = top_p_warper_top_p s' ->
  top_p_warper_skip_when_1 t = top_p_warper_skip_when_1 s' ->
  min_p_warper_min_p t = min_p_warper_min_p s' ->
  repetition_penalty_processor_penalty t = repetition_penalty_processor_penalty s' ->
  update_processors Emb KV t tp mp rp sk = Ok t.
Proof.
  unfold update_processors. intros H H1 H2 H3 H4.
  assert (Htp : Qeq_bool (top_p_warper_top_p s') tp = true /\
                Qeq_bool (min_p_warper_min_p s') mp = true /\
                Qeq_bool (repetition_penalty_processor_penalty s') rp = true).
  { destruct (Qeq_bool (top_p_warper_top_p s) tp) eqn:E1;
    destruct (Qeq_bool (min_p_warper_min_p s) mp) eqn:E2;
    destruct (Qeq_bool (repetition_penalty_processor_penalty s) rp) eqn:E3;
    cbn [negb] in H;
    try (destruct (Qlt_bool 0 rp); [|discriminate H]);
    cbn [bind] in H; inversion H; subst; cbn;
    rewrite ?Qeq_bool_same; auto. }
  destruct Htp as (E1 & E2 & E3).
  rewrite H1, H3, H4, E1, E2, E3. cbn [negb bind].
  rewrite <- H1, <- H3, <- H4. cbv beta iota. rewrite t3_eta. reflexivity.
Qed.

Lemma initial_forward_snd (inputs : list (list Emb)) (kv : KV) (sl : Z) :
  snd (_initial_forward_pass Emb KV patched_model inputs kv sl) =
  snd (patched_model (map (fun row => py_slice_to row sl) inputs) kv).
Proof.
  unfold _initial_forward_pass.
  destruct (patched_model (map (fun row => py_slice_to row sl) inputs) kv).
  reflexivity.
Qed.

Lemma loop_kv_reset (env : Env) (n : nat) (i : Z) (st st' : State) :
  (forall inputs k,
      static_cache_reset (snd (patched_model inputs k)) = static_cache_reset k) ->
  loop env n i st = Ok st' ->
  static_cache_reset (ls_kv KV Rng st') = static_cache_reset (ls_kv KV Rng st).
Proof.
  intro Hreset. revert i st. induction n as [|n IH]; intros i st H; simpl in H.
  - inversion H; reflexivity.
  - bind_inv H. destruct a as [st1|st1].
    + rewrite (IH _ _ H). unfold loop_body in E.
      bind_inv_as E it Eit. bind_inv_as E brk Ebrk. destruct brk; [discriminate|].
      bind_inv_as E out Eout. inversion E; subst; clear E. cbn [ls_kv].
      destruct (step_inv _ _ _ _ _ _ _ _ _ _ _ _ _ _ _ _ _ _ _ _ _ _ _ Eout)
        as (_ & _ & _ & _ & _ & e & q & _ & _ & Hpm).
      replace (so_kv KV Rng out)
        with (snd (so_output_logits KV Rng out, so_kv KV Rng out)) by reflexivity.
      rewrite Hpm. apply Hreset.
    + inversion H; subst. apply body_break in E. destruct E as [-> _]. reflexivity.
Qed.

(** The calls recorded on the wrapper do not influence the loop. *)
Lemma loop_ignores_wrapper (env : Env) (n : nat) (i : Z) (st st' : State)
    (w : list WEvent) :
  loop env n i st = Ok st' ->
  exists w',
    loop env n i
      (mkLoopState KV Rng (ls_generated_ids KV Rng st) (ls_output_logits KV Rng st)
         (ls_kv KV Rng st) (ls_rng KV Rng st) w)
    = Ok (mkLoopState KV Rng (ls_generated_ids KV Rng st')
            (ls_output_logits KV Rng st') (ls_kv KV Rng st') (ls_rng KV Rng st') w').
Proof.
  revert i st w. induction n as [|n IH]; intros i st w H; simpl in H.
  - inversion H; subst. simpl. eauto.
  - bind_inv H. destruct a as [st1|st1].
    + unfold loop_body in E.
      bind_inv_as E it Eit. bind_inv_as E brk Ebrk. destruct brk; [discriminate|].
      bind_inv_as E out Eout. inversion E; subst; clear E.
      destruct (IH _ _ (if backend_is_manual (le_backend Emb env)
                        then w ++ [WCall (max_pos env i)] else w) H) as [w' Hw'].
      exists w'. cbn [decode_loop]. unfold loop_body.
      rewrite Eit. cbn [bind ls_generated_ids]. rewrite Ebrk. cbn [bind].
      cbn [ls_output_logits ls_kv ls_rng]. rewrite Eout. cbn [bind ls_wrapper].
      exact Hw'.
    + inversion H; subst; clear H. assert (E' := E).
      apply body_break in E'. destruct E' as [-> _].
      exists w. cbn [decode_loop]. unfold loop_body in *.
      bind_inv_as E it Eit. bind_inv_as E brk Ebrk.
      cbn [bind ls_generated_ids]. rewrite Ebrk. cbn [bind].
      destruct brk; [reflexivity|].
      bind_inv_as E out Eout. discriminate E.
Qed.

(** [prepare] on an object that holds the caches and processor
    parameters a first request left, and a static cache whose reset gives
    the contents the first request started from: the same loop, from the
    same buffer, logits and cache contents. *)
Lemma prepare_rerun (self t : T3 Emb KV) (a : Args Emb) (rng rng2 : Rng)
    (p : Prepared Emb KV Rng) (hk : KVHandle KV) :
  prep self a rng = Ok p ->
  pos_emb_dtype = model_dtype ->
  speech_pos_embedding_cache t = speech_pos_embedding_cache (pr_self Emb KV Rng p) ->
  speech_embedding_cache t = speech_embedding_cache (pr_self Emb KV Rng p) ->
  top_p_warper_top_p t = top_p_warper_top_p (pr_self Emb KV Rng p) ->
  top_p_warper_skip_when_1 t = top_p_warper_skip_when_1 (pr_self Emb KV Rng p) ->
  min_p_warper_min_p t = min_p_warper_min_p (pr_self Emb KV Rng p) ->
  repetition_penalty_processor_penalty t =
    repetition_penalty_processor_penalty (pr_self Emb KV Rng p) ->
  kv_cache t = Some hk ->
  static_cache_reset (kv_data hk) = kv_data (pr_kv Emb KV Rng p) ->
  exists p',
    prep t a rng2 = Ok p' /\
    pr_env Emb KV Rng p' = pr_env Emb KV Rng p /\
    pr_iterations Emb KV Rng p' = pr_iterations Emb KV Rng p /\
    pr_max_new_tokens Emb KV Rng p' = pr_max_new_tokens Emb KV Rng p /\
    exists w,
      pr_state Emb KV Rng p' =
      mkLoopState KV Rng (ls_generated_ids KV Rng (pr_state Emb KV Rng p))
        (ls_output_logits KV Rng (pr_state Emb KV Rng p))
        (ls_kv KV Rng (pr_state Emb KV Rng p)) rng2 w.
Proof.
  intros Hp Hd Htpos Htsp Ht1 Ht2 Ht3 Ht4 Hkv Hreset.
  apply prepare_inv in Hp.
  destruct Hp as (self1 & pos_c & self2 & speech_c & bos & pos0 & inputs & self3
                  & mnt & idx & Hpos & Hsp & Hbos & Hp0 & Hcat & Hup & Hp).
  cbv zeta in Hp. destruct Hp as (Hclamp & Hidx & Hs & Hp).
  rewrite Hp in Htpos, Htsp, Ht1, Ht2, Ht3, Ht4, Hreset.
  cbn [pr_self pr_kv fst snd setup_kv_cache top_p_warper_top_p
       top_p_warper_skip_when_1 min_p_warper_min_p
       repetition_penalty_processor_penalty speech_pos_embedding_cache
       speech_embedding_cache] in Htpos, Htsp, Ht1, Ht2, Ht3, Ht4.
  cbn [pr_kv] in Hreset.
  destruct (pos_cache_post _ _ _ _ _ _ _ _ _ _ Hpos) as (Hc1 & _).
  destruct (speech_cache_post Emb KV cast speech_emb_weight self1
              (speech_tokens_dict_size hp) model_dtype)
    as (s2 & c2 & Heq & Hc2 & _ & Hc2p & _).
  rewrite Hsp in Heq. inversion Heq; subst s2 c2; clear Heq.
  destruct (update_processors_frame _ _ _ _ _ _ Hup) as (Hf1 & Hf2 & _).
  rewrite Hf1, Hc2p, Hc1 in Htpos. rewrite Hf2, Hc2 in Htsp.
  unfold prepare.
  rewrite (pos_cache_rerun _ _ t _ _ _ Hpos Hd Htpos). cbn [bind].
  rewrite (speech_cache_rerun _ _ t _ _ _ Hsp Htsp). cbn [bind].
  rewrite Hbos. cbn [bind]. rewrite Hp0. cbn [bind]. rewrite Hcat. cbn [bind].
  rewrite (update_processors_rerun _ _ t _ _ _ _ Hup Ht1 Ht2 Ht3 Ht4). cbn [bind].
  rewrite Hclamp. cbn [bind]. rewrite Hidx. cbn [bind].
  replace (effective_stride Emb a =? 0) with false
    by (symmetry; apply Z.eqb_neq; exact Hs).
  cbn [bind]. eexists. split; [reflexivity|]. rewrite Hp.
  cbn [pr_env pr_iterations pr_max_new_tokens pr_state ls_generated_ids
       ls_output_logits ls_kv].
  assert (Hdata :
    kv_data (snd (kv_setup t (effective_batch_size Emb a) (a_max_cache_len a)))
    = kv_data (snd (kv_setup self3 (effective_batch_size Emb a) (a_max_cache_len a)))).
  { rewrite <- Hreset. unfold setup_kv_cache at 1. rewrite Hkv. reflexivity. }
  rewrite Hdata.
  split; [|split; [reflexivity|split; [reflexivity|eexists; reflexivity]]].
  unfold loop_env, setup_kv_cache. cbn [fst top_p_warper_top_p
    top_p_warper_skip_when_1 min_p_warper_min_p
    repetition_penalty_processor_penalty].
  rewrite Ht1, Ht2, Ht3, Ht4. reflexivity.
Qed.

(** The contents the request's cache handle starts with are a fixed point
    of the reset. *)
Lemma setup_kv_cache_data (self : T3 Emb KV) (b l : Z) :
  (forall k, static_cache_reset (static_cache_reset k) = static_cache_reset k) ->
  (forall b l d, static_cache_reset (static_cache b l d) = static_cache b l d) ->
  static_cache_reset (kv_data (snd (kv_setup self b l)))
  = kv_data (snd (kv_setup self b l)).
Proof.
  intros H2 H3. unfold setup_kv_cache.
  destruct (kv_cache self); cbn [snd kv_data]; auto.
Qed.


(** *** The padded prompt *)

Lemma py_slice_to_app {A : Type} (l pad : list A) :
  py_slice_to (l ++ pad) (zlen l) = l.
Proof.
  unfold py_slice_to, zlen.
  replace (0 <=? Z.of_nat (length l)) with true by (symmetry; apply Z.leb_le; lia).
  rewrite Nat2Z.id. rewrite firstn_app, Nat.sub_diag, firstn_all. simpl.
  apply app_nil_r.
Qed.

(** X4: the rows the driver pads to 1024 positions are cut back to the
    prompt before the model sees them: the initial forward pass runs the
    model on the prompt itself. *)
Theorem initial_forward_ignores_padding (inputs : list (list Emb)) (kv : KV)
    (seq_len : Z) :
  Forall (fun row => zlen row = seq_len) inputs ->
  map (fun row => py_slice_to row seq_len) (pad_inputs Emb emb_zero inputs seq_len)
    = inputs /\
  _initial_forward_pass Emb KV patched_model
    (pad_inputs Emb emb_zero inputs seq_len) kv seq_len
  = (map (@py_last1 Lg) (fst (patched_model inputs kv)),
     snd (patched_model inputs kv)).
Proof.
  intro H.
  assert (Hcut : map (fun row => py_slice_to row seq_len)
                   (pad_inputs Emb emb_zero inputs seq_len) = inputs).
  { destruct (pad_inputs_rows inputs seq_len) as [pad ->].
    rewrite map_map. rewrite <- (map_id inputs) at 2. apply map_ext_in.
    intros row Hin. rewrite Forall_forall in H. rewrite <- (H row Hin).
    apply py_slice_to_app. }
  split; [exact Hcut|].
  unfold _initial_forward_pass. rewrite Hcut.
  destruct (patched_model inputs kv). reflexivity.
Qed.

(** *** Where the loop ends *)

Lemma body_break_cond (env : Env) (i : Z) (st st' : State) :
  body env i st = Ok (Break KV Rng st') ->
  le_length_guesstimate Emb env < i * le_stride_length Emb env /\
  i mod (20 / le_stride_length Emb env) = 0.
Proof.
  intro H. unfold loop_body in H.
  bind_inv_as H it Eit. bind_inv_as H brk Ebrk.
  destruct brk; [|bind_inv H; discriminate].
  unfold eos_check in Ebrk.
  destruct (i * le_stride_length Emb env >? le_length_guesstimate Emb env) eqn:E1;
    [|discriminate].
  destruct (20 / le_stride_length Emb env =? 0); [discriminate|].
  destruct (i mod (20 / le_stride_length Emb env) =? 0) eqn:E2; [|discriminate].
  rewrite Z.gtb_ltb in E1. apply Z.ltb_lt in E1. apply Z.eqb_eq in E2. auto.
Qed.

(** The loop head the loop ends at: the last one, or one at which the
    periodic test found the stop token. *)
Lemma loop_final_head (env : Env) (iterations : Z) (st0 : State)
    (n : nat) (i : Z) (st st' : State) :
  loop env n i st = Ok st' ->
  reaches env iterations st0 i st ->
  Z.of_nat n <= Z.max 0 (iterations - i) ->
  exists i',
    reaches env iterations st0 i' st' /\ i <= i' <= i + Z.of_nat n /\
    (i' < i + Z.of_nat n ->
     In (stop_speech_token hp) (ls_generated_ids KV Rng st') /\
     le_length_guesstimate Emb env < i' * le_stride_length Emb env /\
     i' mod (20 / le_stride_length Emb env) = 0).
Proof.
  revert i st. induction n as [|n IH]; intros i st Hloop Hr Hle.
  - simpl in Hloop. inversion Hloop; subst. exists i.
    split; [exact Hr|]. split; [lia|]. intro Hlt. simpl in Hlt. lia.
  - simpl in Hloop. bind_inv_as Hloop f Ef. destruct f as [st1|st1].
    + destruct (IH (i + 1) st1 Hloop) as (i' & Hr' & Hi' & Hbrk).
      * apply reaches_step with (st := st); auto. lia.
      * lia.
      * exists i'. split; [exact Hr'|]. split; [lia|].
        intro Hlt. apply Hbrk. lia.
    + inversion Hloop; subst st1; clear Hloop.
      destruct (body_break_cond _ _ _ _ Ef) as [Hg Hm].
      apply body_break in Ef. destruct Ef as [-> Hex].
      exists i. split; [exact Hr|]. split; [lia|]. intros _.
      split; [|split; assumption].
      apply existsb_exists in Hex. destruct Hex as (x & Hin & Hx).
      apply Z.eqb_eq in Hx. subst x. exact Hin.
Qed.

(** What [prepare] takes over from the arguments. *)
Lemma prepare_env (self : T3 Emb KV) (a : Args Emb) (rng : Rng)
    (p : Prepared Emb KV Rng) :
  prep self a rng = Ok p ->
  le_length_guesstimate Emb (pr_env Emb KV Rng p) = a_length_guesstimate a /\
  le_stride_length Emb (pr_env Emb KV Rng p) = effective_stride Emb a /\
  le_seq_len Emb (pr_env Emb KV Rng p) = prompt_length Emb a /\
  le_temperature Emb (pr_env Emb KV Rng p) = a_temperature a /\
  le_cfg_weight Emb (pr_env Emb KV Rng p) = a_cfg_weight a /\
  clamp_max_new_tokens hp (a_max_new_tokens a) (a_max_cache_len a)
    (prompt_length Emb a) = Ok (pr_max_new_tokens Emb KV Rng p).
Proof.
  intro H. apply prepare_inv in H.
  destruct H as (self1 & pos_c & self2 & speech_c & bos & pos0 & inputs & self3
                 & mnt & idx & Hpos & Hsp & Hbos & Hp0 & Hcat & Hup & H).
  cbv zeta in H. destruct H as (Hclamp & Hidx & Hs & ->). cbn.
  assert (Hsl : zlen (hd [] (map (map (cast model_dtype)) inputs))
                = prompt_length Emb a).
  { unfold cat_bos in Hcat. unfold prompt_length.
    destruct (Qlt_bool 0 (a_cfg_weight a)).
    - destruct (zlen (a_embeds a) =? 2) eqn:E2; [|discriminate].
      apply Z.eqb_eq in E2. inversion Hcat; subst inputs; clear Hcat.
      destruct (a_embeds a) as [|r0 [|r1 [|r2 t]]];
        unfold zlen in E2; cbn [length] in E2; try lia.
      cbn [combine map fst snd hd]. unfold zlen.
      rewrite length_map, length_app. cbn [length]. lia.
    - inversion Hcat; subst inputs. destruct (a_embeds a) as [|r0 rest].
      + reflexivity.
      + cbn [map hd]. unfold zlen. rewrite length_map. lia. }
  rewrite Hsl in *. repeat split; auto.
Qed.

(** X7: the decode loop leaves early only at one of its periodic tests:
    when [run_loop] ends at loop head [i] before the last iteration, the
    buffer holds the stop token, [i * stride] exceeds
    [length_guesstimate] and [i] is a multiple of [20 // stride].  A
    budget whose last iteration lies within [length_guesstimate] is run
    to its end, whatever was drawn. *)
Theorem early_exit_only_at_checkpoints (self : T3 Emb KV) (a : Args Emb) (rng : Rng)
    (p : Prepared Emb KV Rng) (st : State) :
  run self a rng = Ok (p, st) ->
  let s := effective_stride Emb a in
  let iterations := pr_iterations Emb KV Rng p in
  exists i,
    reaches (pr_env Emb KV Rng p) iterations (pr_state Emb KV Rng p) i st /\
    0 <= i <= Z.max 0 iterations /\
    (i < iterations ->
     In (stop_speech_token hp) (ls_generated_ids KV Rng st) /\
     a_length_guesstimate a < i * s /\ i mod (20 / s) = 0) /\
    ((iterations - 1) * s <= a_length_guesstimate a -> i = Z.max 0 iterations).
Proof.
  intros H s iterations.
  unfold run_loop in H. bind_inv_as H p0 Ep. bind_inv_as H st1 El.
  inversion H; subst p0 st1; clear H.
  destruct (prepare_env _ _ _ _ Ep) as (Hg & Hs & _).
  destruct (prepare_loop_facts _ _ _ _ Ep) as (_ & Hmnt & Hs0 & Hit & _).
  destruct (loop_final_head _ iterations (pr_state Emb KV Rng p) _ _ _ _ El
              (reaches_start _ _ _ _ _ _ _ _ _ _ _ _) ltac:(lia))
    as (i & Hr & Hi & Hbrk).
  rewrite Hg, Hs in Hbrk. fold s in Hbrk.
  exists i. split; [exact Hr|]. split; [subst iterations; lia|].
  assert (Hearly : i < iterations ->
            In (stop_speech_token hp) (ls_generated_ids KV Rng st) /\
            a_length_guesstimate a < i * s /\ i mod (20 / s) = 0).
  { intro Hlt. apply Hbrk. subst iterations. lia. }
  split; [exact Hearly|].
  intro Hlast. destruct (Z_lt_le_dec i iterations) as [Hlt|Hge];
    [|subst iterations; lia].
  exfalso. destruct (Hearly Hlt) as (_ & Hgt & _).
  rewrite Hs in Hs0, Hit. fold s in Hs0, Hit.
  destruct (iterations_stride (pr_max_new_tokens Emb KV Rng p) s i
              ltac:(lia) Hs0 ltac:(subst iterations; lia)) as [Hs1 _].
  assert (i * s <= (iterations - 1) * s) by nia. lia.
Qed.

(** *** The calls the manual backend makes *)

Lemma py_range_succ (i : Z) : 0 <= i -> py_range (i + 1) = py_range i ++ [i].
Proof.
  intro H. unfold py_range.
  replace (Z.to_nat (i + 1)) with (S (Z.to_nat i)) by lia.
  rewrite seq_S, map_app. simpl. rewrite Z2Nat.id by lia. reflexivity.
Qed.

Lemma reaches_wrapper (env : Env) (iterations : Z) (st0 : State) (i : Z) (st : State) :
  reaches env iterations st0 i st ->
  0 <= i <= Z.max 0 iterations /\
  ls_wrapper KV Rng st =
    ls_wrapper KV Rng st0 ++
    (if backend_is_manual (le_backend Emb env)
     then map (fun k => WCall (max_pos env k)) (py_range i) else []).
Proof.
  induction 1 as [|i st st' Hr IH Hlt Hbody].
  - split; [lia|]. destruct (backend_is_manual (le_backend Emb env));
      cbn; rewrite app_nil_r; reflexivity.
  - destruct IH as [Hi Hw]. split; [lia|].
    apply body_wrapper in Hbody. rewrite Hbody, Hw.
    destruct (backend_is_manual (le_backend Emb env)); [|reflexivity].
    rewrite py_range_succ by lia. rewrite map_app, <- app_assoc. reflexivity.
Qed.

Lemma clamp_min (m : option Z) (mcl sl mnt : Z) :
  clamp_max_new_tokens hp m mcl sl = Ok mnt ->
  mnt < TOKEN_LIMIT /\
  mnt = Z.min (match m with None => max_speech_tokens hp | Some n => n end)
          (mcl - sl).
Proof.
  intro H. apply clamp_inv in H. destruct H as [Hlt Heq]. cbv zeta in Heq.
  split; [exact Hlt|]. rewrite Heq.
  destruct (mcl <? sl + _) eqn:E;
    [apply Z.ltb_lt in E | apply Z.ltb_ge in E]; lia.
Qed.


(** C4, as the code has it: when the requested budget exceeds
    max_cache_len minus the prompt length, the driver reduces it to that
    difference.  A call that returns had a difference between 0 and
    TOKEN_LIMIT - 1, ran its loop with the difference as budget and
    returned at most bos_len + (max_cache_len - prompt length) tokens,
    the start token included.  If the difference reaches TOKEN_LIMIT, a
    request that gets as far as the budget test (an embedding table that
    covers the vocabulary, a prompt of two rows under guidance and a
    non-empty prompt without, a positive penalty, a stride between 1 and
    20) raises the AssertionError of the budget ceiling. *)
Theorem token_budget_clamp (self : T3 Emb KV) (a : Args Emb) (rng : Rng) :
  let room := a_max_cache_len a - prompt_length Emb a in
  room < requested_tokens Emb hp a ->
  (forall toks self' rng',
     infer self a rng = Ok (toks, self', rng') ->
     0 <= room < TOKEN_LIMIT /\
     (exists p st,
        run self a rng = Ok (p, st) /\ pr_max_new_tokens Emb KV Rng p = room) /\
     zlen toks <= bos_len + room) /\
  (TOKEN_LIMIT <= room -> voc_ok -> request_ok Emb a ->
   infer self a rng = Raise AssertionError).
Proof.
  intros room Hover.
  assert (Hclamp :
    clamp_max_new_tokens hp (a_max_new_tokens a) (a_max_cache_len a)
      (prompt_length Emb a)
    = if room <? TOKEN_LIMIT then Ok room else Raise AssertionError).
  { unfold clamp_max_new_tokens. unfold requested_tokens in Hover.
    replace (a_max_cache_len a <? prompt_length Emb a +
               match a_max_new_tokens a with
               | Some n => n | None => max_speech_tokens hp end)
      with true by (symmetry; apply Z.ltb_lt; subst room; lia).
    reflexivity. }
  split.
  - intros toks self' rng' H.
    destruct (infer_inv _ _ _ _ _ _ H) as (p & st & Hrun & -> & _).
    destruct (run_loop_reaches _ _ _ _ _ Hrun) as [Hp _].
    destruct (prepare_env _ _ _ _ Hp) as (_ & _ & _ & _ & _ & Hc).
    destruct (prepare_loop_facts _ _ _ _ Hp) as (_ & Hm & _).
    rewrite Hclamp in Hc.
    destruct (room <? TOKEN_LIMIT) eqn:E; [|discriminate Hc].
    apply Z.ltb_lt in E. inversion Hc as [Hroom].
    split; [rewrite Hroom; lia|]. split.
    + exists p, st. split; [exact Hrun|symmetry; exact Hroom].
    + rewrite Hroom. apply (finalize_length _ _ _ _ _ Hrun).
  - intros Hroom Hvoc Hreq.
    destruct (prepare_returns self a rng Hvoc Hreq) as [Hraise _].
    replace (room <? TOKEN_LIMIT) with false in Hclamp
      by (symmetry; apply Z.ltb_ge; lia).
    unfold inference_optimized, run_loop. rewrite (Hraise _ Hclamp). reflexivity.
Qed.


(** *** The returned tokens *)

Lemma firstn_head {A : Type} (l : list A) (n : nat) (x : A) :
  nth_error l 0 = Some x -> (1 <= n)%nat ->
  exists rest, firstn n l = x :: rest.
Proof.
  intros H Hn. destruct l as [|y t]; [discriminate|]. simpl in H. inversion H; subst.
  destruct n as [|n]; [lia|]. simpl. eauto.
Qed.

(** The length the driver cuts the buffer to, and the loop head it ended
    at. *)
Lemma finalize_inv (self : T3 Emb KV) (a : Args Emb) (rng : Rng)
    (p : Prepared Emb KV Rng) (st : State) :
  run self a rng = Ok (p, st) ->
  let buf := ls_generated_ids KV Rng st in
  let mnt := pr_max_new_tokens Emb KV Rng p in
  let s := le_stride_length Emb (pr_env Emb KV Rng p) in
  exists i L,
    reaches (pr_env Emb KV Rng p) (pr_iterations Emb KV Rng p)
      (pr_state Emb KV Rng p) i st /\
    finalize hp buf mnt = firstn (Z.to_nat L) buf /\
    1 <= L <= mnt + 1 /\
    (L <= high_water s i + 1 \/ (L = mnt + 1 /\ pr_iterations Emb KV Rng p <= i)) /\
    nth_error buf 0 = Some (start_speech_token hp) /\
    zlen buf = bos_len + TOKEN_LIMIT /\ 0 <= mnt < TOKEN_LIMIT.
Proof.
  intros H buf mnt s.
  unfold run_loop in H. bind_inv_as H p0 Ep. bind_inv_as H st1 El.
  inversion H; subst p0 st1; clear H.
  destruct (prepare_loop_facts _ _ _ _ Ep) as (Hidx & Hmnt & Hs & Hit & Hb0 & _).
  destruct (loop_final_head _ (pr_iterations Emb KV Rng p) (pr_state Emb KV Rng p)
              _ _ _ _ El (reaches_start _ _ _ _ _ _ _ _ _ _ _ _) ltac:(lia))
    as (i & Hr & Hi & Hbrk).
  destruct (reaches_inv _ _ _ _ Hidx Hmnt Hs Hit Hb0 i st Hr)
    as (Hi0 & (Hlen & H0 & Hpad) & Hhw).
  fold buf in Hlen, H0, Hpad. fold s in Hpad, Hhw. fold mnt in Hhw, Hmnt.
  unfold finalize. fold buf.
  assert (Hhw0 : 0 <= high_water s i).
  { unfold high_water, bos_len. destruct (i =? 0) eqn:E0; [lia|].
    apply Z.eqb_neq in E0.
    assert (Hreach : 0 <= i - 1 < pr_iterations Emb KV Rng p).
    { destruct (reaches_wrapper _ _ _ _ _ Hr) as [Hb _]. lia. }
    rewrite Hit in Hreach.
    destruct (iterations_stride mnt s (i - 1) ltac:(lia) Hs Hreach) as [Hs1 _].
    nia. }
  destruct (first_index (stop_speech_token hp) buf) as [K|] eqn:HK.
  - destruct (first_index_some _ _ _ HK) as (HKr & HKn & _).
    assert (HKle : K <= high_water s i).
    { destruct (Z_le_gt_dec K (high_water s i)) as [|Hgt]; [assumption|].
      rewrite Hpad in HKn by lia. unfold PAD_TOKEN_ID in HKn.
      inversion HKn. lia. }
    exists i, (K + 1). split; [exact Hr|].
    destruct (py_slice_to_prefix buf (K + 1) ltac:(lia)) as [-> _].
    repeat split; auto; try lia.
  - exists i, (mnt + 1). split; [exact Hr|].
    destruct (py_slice_to_prefix buf (bos_len + mnt)) as [-> _];
      [unfold bos_len in *; lia|].
    assert (Hall : pr_iterations Emb KV Rng p <= i).
    { destruct (Z_lt_le_dec i (pr_iterations Emb KV Rng p)) as [Hlt|]; [|assumption].
      destruct (Hbrk ltac:(lia)) as (Hin & _).
      exfalso. exact (first_index_none _ _ HK Hin). }
    unfold bos_len. replace (1 + mnt) with (mnt + 1) by lia.
    repeat split; auto; try lia.
Qed.

(** X5: whatever the request and the collaborators, a call that returns
    returns the start token followed by the generated tokens, of which
    there are at most the requested budget, at most the room
    [max_cache_len] leaves after the prompt, and fewer than
    TOKEN_LIMIT. *)
Theorem output_starts_with_bos (self self' : T3 Emb KV) (a : Args Emb)
    (rng rng' : Rng) (toks : list Z) :
  infer self a rng = Ok (toks, self', rng') ->
  exists rest,
    toks = start_speech_token hp :: rest /\
    zlen rest <= requested_tokens Emb hp a /\
    zlen rest <= a_max_cache_len a - prompt_length Emb a /\
    zlen rest < TOKEN_LIMIT.
Proof.
  intro H. destruct (infer_inv _ _ _ _ _ _ H) as (p & st & Hrun & -> & _).
  destruct (finalize_inv _ _ _ _ _ Hrun)
    as (i & L & Hr & -> & HL & _ & H0 & Hlen & Hmnt).
  destruct (run_loop_reaches _ _ _ _ _ Hrun) as [Hp _].
  destruct (prepare_env _ _ _ _ Hp) as (_ & _ & _ & _ & _ & Hclamp).
  apply clamp_min in Hclamp. destruct Hclamp as [_ Hmin].
  destruct (firstn_head (ls_generated_ids KV Rng st) (Z.to_nat L) _ H0 ltac:(lia))
    as [rest Hrest].
  exists rest. split; [exact Hrest|].
  assert (Hz : zlen rest = L - 1).
  { apply (f_equal (@length Z)) in Hrest. rewrite length_firstn in Hrest.
    cbn [length] in Hrest. unfold zlen, bos_len in *. lia. }
  unfold requested_tokens. lia.
Qed.

(** With stride 1 every position up to the loop head holds a token the
    sampler drew. *)
Lemma reaches_in_vocab (env : Env) (mnt iterations : Z) (st0 : State) :
  torch_arange_1 mnt = Ok (le_indices Emb env) ->
  0 <= mnt < TOKEN_LIMIT ->
  le_stride_length Emb env = 1 ->
  iterations = mnt / le_stride_length Emb env ->
  ls_generated_ids KV Rng st0 = initial_generated_ids hp ->
  in_vocab ->
  forall i st, reaches env iterations st0 i st ->
  forall j, 1 <= j <= i ->
    exists t, nth_error (ls_generated_ids KV Rng st) (Z.to_nat j) = Some t /\
              0 <= t < speech_tokens_dict_size hp.
Proof.
  intros Hidx Hmnt Hs1 Hit Hb0 Hvoc.
  assert (Hs : le_stride_length Emb env <> 0) by lia.
  induction 1 as [|i st st' Hr IH Hlt Hbody]; intros j Hj; [lia|].
  destruct (reaches_inv _ _ _ _ Hidx Hmnt Hs Hit Hb0 i st Hr)
    as (Hi0 & Hinv & _).
  assert (Hinv0 := Hinv). destruct Hinv0 as (Hlen & _ & _).
  destruct (iteration_inv _ _ _ Hidx Hmnt Hs Hit i st st' ltac:(lia) Hinv Hbody)
    as (_ & Hle & out & Hstep & Hset & _ & _).
  rewrite Hs1 in Hset, Hle, Hstep. rewrite Z.mul_1_r in Hset, Hle, Hstep.
  rewrite Hset.
  destruct (Z.eq_dec j (i + 1)) as [->|Hne].
  - exists (so_next_token KV Rng out). split.
    + apply set_nth_same. unfold zlen, bos_len in Hlen. lia.
    + destruct (step_inv _ _ _ _ _ _ _ _ _ _ _ _ _ _ _ _ _ _ _ _ _ _ _ Hstep)
        as (raw & _ & Htok & _).
      rewrite Htok. apply Hvoc.
  - rewrite set_nth_other by lia. apply IH. lia.
Qed.


(** *** Requests that return *)

(** X9: the call of test_inference_speed.py (a budget of 500 tokens, no
    guidance, the default cache of 2048 positions): for a prompt of 1 to
    2048 positions the budget test passes and the driver enters its loop
    with a budget of min(500, 2048 - prompt length) tokens and as many
    iterations; a call that returns returns between 1 and budget + 1
    tokens. *)
Theorem speed_test_call_budget (self : T3 Emb KV) (embeds : list (list Emb))
    (rng : Rng) :
  voc_ok -> 1 <= zlen embeds -> 1 <= zlen (hd [] embeds) <= 2048 ->
  let budget := Z.min 500 (2048 - zlen (hd [] embeds)) in
  (exists p,
     prep self (speed_test_call embeds) rng = Ok p /\
     pr_max_new_tokens Emb KV Rng p = budget /\
     pr_iterations Emb KV Rng p = budget) /\
  (forall toks self' rng',
     infer self (speed_test_call embeds) rng = Ok (toks, self', rng') ->
     1 <= zlen toks <= budget + 1).
Proof.
  intros Hvoc Hrows Hlen budget.
  assert (Hreq : request_ok Emb (speed_test_call embeds)).
  { unfold request_ok, speed_test_call. cbn.
    split; [split; [exact Hrows|lia]|]. split; [reflexivity|]. lia. }
  set (sl := zlen (hd [] embeds)) in *.
  set (mnt := if 2048 <? sl + 500 then 2048 - sl else 500).
  assert (Hm : mnt = budget).
  { subst mnt budget. destruct (2048 <? sl + 500) eqn:E;
      [apply Z.ltb_lt in E|apply Z.ltb_ge in E]; lia. }
  assert (Hclamp :
    clamp_max_new_tokens hp (a_max_new_tokens (speed_test_call embeds))
      (a_max_cache_len (speed_test_call embeds))
      (prompt_length Emb (speed_test_call embeds)) = Ok mnt).
  { unfold clamp_max_new_tokens, prompt_length, speed_test_call.
    cbn [a_max_new_tokens a_max_cache_len a_embeds a_cfg_weight].
    change (Qlt_bool 0 0) with false. cbv iota.
    fold sl. rewrite Z.add_0_r. fold mnt.
    replace (mnt <? TOKEN_LIMIT) with true
      by (symmetry; apply Z.ltb_lt; unfold TOKEN_LIMIT; lia).
    reflexivity. }
  split.
  - destruct (prepare_returns self _ rng Hvoc Hreq) as [_ Hok].
    destruct (Hok mnt Hclamp ltac:(lia)) as (p & Hp & Hmnt & Hit).
    exists p. split; [exact Hp|]. split; [lia|].
    rewrite Hit. change (effective_stride Emb (speed_test_call embeds)) with 1.
    rewrite Z.div_1_r. exact Hm.
  - intros toks self' rng' Hinf.
    destruct (infer_inv _ _ _ _ _ _ Hinf) as (p & st & Hrun & Htoks & _).
    destruct (finalize_inv _ _ _ _ _ Hrun)
      as (i & L & _ & HL & HLr & _ & _ & Hbl & _).
    rewrite <- Htoks in HL.
    destruct (run_loop_reaches _ _ _ _ _ Hrun) as [Hp _].
    destruct (prepare_env _ _ _ _ Hp) as (_ & _ & _ & _ & _ & Hc).
    rewrite Hclamp in Hc. inversion Hc as [Hmnt].
    assert (Hz1 : zlen toks = L).
    { rewrite HL. unfold zlen in *. rewrite length_firstn.
      unfold bos_len, TOKEN_LIMIT in Hbl. lia. }
    lia.
Qed.

(** *** The processors and the caches across calls *)

(** X10: a call of [update_processors] that returns leaves the penalty
    processor with the requested penalty and does not touch the caches,
    the static cache and the wrapper.  With the top-p the object already
    has, the top-p warper stays as it is, its [skip_when_1] flag
    included, whatever flag the caller passes; with the min-p the object
    already has, the min-p warper stays as it is.  The only exception the
    call raises is a ValueError, and only when the penalty differs from
    the one the object has. *)
Theorem update_processors_post (self : T3 Emb KV) (tp mp rp : Q) (sk : bool) :
  (forall self',
     update_processors Emb KV self tp mp rp sk = Ok self' ->
     (Qeq_bool (top_p_warper_top_p self) tp = true ->
      top_p_warper_top_p self' = top_p_warper_top_p self /\
      top_p_warper_skip_when_1 self' = top_p_warper_skip_when_1 self) /\
     (Qeq_bool (min_p_warper_min_p self) mp = true ->
      min_p_warper_min_p self' = min_p_warper_min_p self) /\
     (repetition_penalty_processor_penalty self' == rp)%Q /\
     speech_pos_embedding_cache self' = speech_pos_embedding_cache self /\
     speech_embedding_cache self' = speech_embedding_cache self /\
     kv_cache self' = kv_cache self /\
     cudagraph_wrapper self' = cudagraph_wrapper self) /\
  (forall e,
     update_processors Emb KV self tp mp rp sk = Raise e ->
     e = ValueError /\
     ~ (repetition_penalty_processor_penalty self == rp)%Q).
Proof.
  unfold update_processors. split.
  - intros self' H.
    destruct (Qeq_bool (top_p_warper_top_p self) tp) eqn:E1;
    destruct (Qeq_bool (min_p_warper_min_p self) mp) eqn:E2;
    destruct (Qeq_bool (repetition_penalty_processor_penalty self) rp) eqn:E3;
    cbn [negb] in H;
    try (destruct (Qlt_bool 0 rp); [|discriminate H]);
    cbn [bind] in H; inversion H; subst; cbn;
    repeat split; try reflexivity; try discriminate;
    try (apply Qeq_bool_iff; assumption).
  - intros e H.
    destruct (Qeq_bool (top_p_warper_top_p self) tp);
    destruct (Qeq_bool (min_p_warper_min_p self) mp);
    destruct (Qeq_bool (repetition_penalty_processor_penalty self) rp) eqn:E3;
    cbn [negb] in H;
    try (destruct (Qlt_bool 0 rp) eqn:E4); cbn [bind] in H;
    try discriminate H;
    (inversion H; subst e; split; [reflexivity|];
     intro Hq; apply Qeq_bool_iff in Hq; congruence).
Qed.

(** X11: a second [update_processors] with the same parameters returns the
    object unchanged, whatever [skip_when_1] it is given. *)
Theorem update_processors_idempotent (self self' : T3 Emb KV) (tp mp rp : Q)
    (sk sk' : bool) :
  update_processors Emb KV self tp mp rp sk = Ok self' ->
  update_processors Emb KV self' tp mp rp sk' = Ok self'.
Proof.
  intro H.
  assert (Heq : Qeq_bool (top_p_warper_top_p self') tp = true /\
                Qeq_bool (min_p_warper_min_p self') mp = true /\
                Qeq_bool (repetition_penalty_processor_penalty self') rp = true).
  { unfold update_processors in H.
    destruct (Qeq_bool (top_p_warper_top_p self) tp) eqn:E1;
    destruct (Qeq_bool (min_p_warper_min_p self) mp) eqn:E2;
    destruct (Qeq_bool (repetition_penalty_processor_penalty self) rp) eqn:E3;
    cbn [negb] in H;
    try (destruct (Qlt_bool 0 rp); [|discriminate H]);
    cbn [bind] in H; inversion H; subst; cbn;
    rewrite ?Qeq_bool_same; auto. }
  destruct Heq as (E1 & E2 & E3).
  unfold update_processors. rewrite E1, E2, E3. cbn [negb bind].
  rewrite t3_eta. reflexivity.
Qed.

(** X13: after a first call of the positional builder, a second call with the
    same arguments returns a cache of the requested dtype that covers
    the request (the first one, when it has that dtype already, and its
    conversion otherwise), and every later call returns that cache and
    leaves the object as it is. *)
Theorem pos_cache_stabilises (self s1 : T3 Emb KV) (c1 : ETensor Emb) (n : Z)
    (d : Dtype) :
  get_speech_pos_embedding_cache Emb KV cast get_fixed_embedding pos_emb_dtype
    self n d = Ok (s1, c1) ->
  let c2 := if dtype_eqb (et_dtype c1) d then c1 else to_dtype Emb cast d c1 in
  exists s2,
    get_speech_pos_embedding_cache Emb KV cast get_fixed_embedding pos_emb_dtype
      s1 n d = Ok (s2, c2) /\
    et_dtype c2 = d /\ n <= et_size0 c2 /\
    get_speech_pos_embedding_cache Emb KV cast get_fixed_embedding pos_emb_dtype
      s2 n d = Ok (s2, c2).
Proof.
  intros H c2. apply pos_cache_post in H. destruct H as (Hc1 & Hsz & _).
  subst c2. destruct (dtype_eqb (et_dtype c1) d) eqn:Ed.
  - apply dtype_eqb_eq in Ed. exists s1.
    rewrite (pos_cache_covered Emb KV cast get_fixed_embedding pos_emb_dtype
               s1 c1 n d Hc1 Hsz Ed).
    auto.
  - destruct (to_dtype_size Emb cast d c1) as [Hsz2 Hd2].
    exists (set_pos_cache Emb KV s1 (to_dtype Emb cast d c1)). split.
    + unfold get_speech_pos_embedding_cache. rewrite Hc1.
      replace (et_size0 c1 <? n) with false by (symmetry; apply Z.ltb_ge; lia).
      rewrite Ed. reflexivity.
    + split; [exact Hd2|]. split; [lia|].
      apply pos_cache_covered; [reflexivity|lia|exact Hd2].
Qed.

(** X14: the speech-table builder never raises; the table it returns has the
    requested dtype at the first call, and a repeated call returns it
    and leaves the object as it is. *)
Theorem speech_cache_dtype_and_rerun (self : T3 Emb KV) (n : Z) (d : Dtype) :
  exists self' c,
    init_speech_embedding_cache Emb KV cast speech_emb_weight self n d
      = Ok (self', c) /\
    et_dtype c = d /\
    speech_embedding_cache self' = Some c /\
    init_speech_embedding_cache Emb KV cast speech_emb_weight self' n d
      = Ok (self', c).
Proof.
  destruct (speech_cache_post Emb KV cast speech_emb_weight self n d)
    as (self' & c & Hok & Hc & _).
  exists self', c. split; [exact Hok|].
  split; [|split; [exact Hc|exact (speech_cache_rerun _ _ self' _ _ _ Hok Hc)]].
  unfold init_speech_embedding_cache in Hok.
  destruct (speech_embedding_cache self) as [c0|].
  - destruct (et_size0 c0 <? n).
    + inversion Hok. reflexivity.
    + destruct (dtype_eqb (et_dtype c0) d) eqn:Ed; cbn [negb] in Hok;
        inversion Hok; subst.
      * apply dtype_eqb_eq. exact Ed.
      * reflexivity.
  - inversion Hok. reflexivity.
Qed.

(** *** Requests the driver refuses, and the object a request leaves *)

(** The steps of [prepare] before the prompt is assembled. *)
Lemma prepare_caches (self : T3 Emb KV) :
  voc_ok ->
  exists self1 pos_c self2 speech_c bos pos0,
    get_speech_pos_embedding_cache Emb KV cast get_fixed_embedding pos_emb_dtype
      self (TOKEN_LIMIT + 1) model_dtype = Ok (self1, pos_c) /\
    init_speech_embedding_cache Emb KV cast speech_emb_weight self1
      (speech_tokens_dict_size hp) model_dtype = Ok (self2, speech_c) /\
    py_get (et_rows speech_c) (start_speech_token hp) = Ok bos /\
    py_get (et_rows pos_c) 0 = Ok pos0.
Proof.
  intros (Hv1 & Hv2).
  destruct (pos_cache_total Emb KV cast get_fixed_embedding pos_emb_dtype self
              (TOKEN_LIMIT + 1) model_dtype) as (self1 & pos_c & Hpos);
    [pose proof TOKEN_LIMIT_pos; lia|].
  destruct (pos_cache_post _ _ _ _ _ _ _ _ _ _ Hpos) as (_ & Hpsz & _).
  destruct (speech_cache_post Emb KV cast speech_emb_weight self1
              (speech_tokens_dict_size hp) model_dtype)
    as (self2 & speech_c & Hsp & _ & Hssz & _).
  assert (Hvsz : speech_tokens_dict_size hp <= zlen (et_rows speech_c)).
  { fold (et_size0 speech_c). lia. }
  destruct (py_get_in_range (et_rows speech_c) (start_speech_token hp))
    as (bos & Hbos & _); [lia|].
  destruct (py_get_in_range (et_rows pos_c) 0) as (pos0 & Hp0 & _).
  { fold (et_size0 pos_c). pose proof TOKEN_LIMIT_pos. lia. }
  exists self1, pos_c, self2, speech_c, bos, pos0. auto.
Qed.

(** X21: a request with a positive guidance weight needs a prompt of two
    rows: with any other number of rows the driver raises the
    RuntimeError of concatenating the prompt with the doubled start
    embedding, before it touches the processors or the static cache. *)
Theorem guided_request_needs_two_rows (self : T3 Emb KV) (a : Args Emb) (rng : Rng) :
  voc_ok -> (0 < a_cfg_weight a)%Q -> zlen (a_embeds a) <> 2 ->
  infer self a rng = Raise RuntimeError.
Proof.
  intros Hvoc Hw Hrows.
  destruct (prepare_caches self Hvoc)
    as (self1 & pos_c & self2 & speech_c & bos & pos0 & Hpos & Hsp & Hbos & Hp0).
  unfold inference_optimized, run_loop, prepare.
  rewrite Hpos. cbn [bind]. rewrite Hsp. cbn [bind].
  rewrite Hbos. cbn [bind]. rewrite Hp0. cbn [bind].
  unfold cat_bos. apply Qlt_bool_iff in Hw. rewrite Hw.
  replace (zlen (a_embeds a) =? 2) with false
    by (symmetry; apply Z.eqb_neq; exact Hrows).
  reflexivity.
Qed.

Lemma speech_cache_result_dtype (s s' : T3 Emb KV) (c : ETensor Emb) (n : Z)
    (d : Dtype) :
  init_speech_embedding_cache Emb KV cast speech_emb_weight s n d = Ok (s', c) ->
  et_dtype c = d.
Proof.
  unfold init_speech_embedding_cache. intro Hok.
  destruct (speech_embedding_cache s) as [c0|].
  - destruct (et_size0 c0 <? n).
    + inversion Hok. reflexivity.
    + destruct (dtype_eqb (et_dtype c0) d) eqn:Ed; cbn [negb] in Hok;
        inversion Hok; subst.
      * apply dtype_eqb_eq. exact Ed.
      * reflexivity.
  - inversion Hok. reflexivity.
Qed.

(** X22: the object a request leaves: its processors carry the request's
    top-p, min-p and penalty; it holds a positional cache of at least
    TOKEN_LIMIT + 1 rows, a speech table in the model's dtype, a static
    cache and a wrapper. *)
Theorem request_leaves_object_ready (self self' : T3 Emb KV) (a : Args Emb)
    (rng rng' : Rng) (toks : list Z) :
  infer self a rng = Ok (toks, self', rng') ->
  (top_p_warper_top_p self' == a_top_p a)%Q /\
  (min_p_warper_min_p self' == a_min_p a)%Q /\
  (repetition_penalty_processor_penalty self' == a_repetition_penalty a)%Q /\
  (exists c, speech_pos_embedding_cache self' = Some c /\
             TOKEN_LIMIT + 1 <= et_size0 c) /\
  (exists c, speech_embedding_cache self' = Some c /\ et_dtype c = model_dtype) /\
  (exists h, kv_cache self' = Some h) /\
  (exists w, cudagraph_wrapper self' = Some w).
Proof.
  intro H. unfold inference_optimized in H. bind_inv_as H r Er.
  destruct r as [p st]. inversion H as [[Htoks Hself Hrng]]; clear H.
  destruct (run_loop_reaches _ _ _ _ _ Er) as [Hp _].
  apply prepare_inv in Hp.
  destruct Hp as (self1 & pos_c & self2 & speech_c & bos & pos0 & inputs & self3
                  & mnt & idx & Hpos & Hsp & Hbos & Hp0 & Hcat & Hup & Hp).
  cbv zeta in Hp. destruct Hp as (_ & _ & _ & Hp).
  rewrite Hp. cbn [pr_self pr_kv fst snd setup_kv_cache top_p_warper_top_p
    top_p_warper_skip_when_1 min_p_warper_min_p
    repetition_penalty_processor_penalty speech_pos_embedding_cache
    speech_embedding_cache kv_cache cudagraph_wrapper].
  destruct (pos_cache_post _ _ _ _ _ _ _ _ _ _ Hpos) as (Hc1 & Hsz & _).
  pose proof (speech_cache_result_dtype _ _ _ _ _ Hsp) as Hdt.
  destruct (speech_cache_post Emb KV cast speech_emb_weight self1
              (speech_tokens_dict_size hp) model_dtype)
    as (s2 & c2 & Heq & Hc2 & _ & Hc2p & _).
  rewrite Hsp in Heq. inversion Heq; subst s2 c2; clear Heq.
  destruct (update_processors_frame _ _ _ _ _ _ Hup) as (Hf1 & Hf2 & _).
  assert (Hq : (top_p_warper_top_p self3 == a_top_p a)%Q /\
               (min_p_warper_min_p self3 == a_min_p a)%Q /\
               (repetition_penalty_processor_penalty self3
                == a_repetition_penalty a)%Q).
  { clear - Hup. unfold update_processors in Hup.
    destruct (Qeq_bool (top_p_warper_top_p self2) (a_top_p a)) eqn:E1;
    destruct (Qeq_bool (min_p_warper_min_p self2) (a_min_p a)) eqn:E2;
    destruct (Qeq_bool (repetition_penalty_processor_penalty self2)
                (a_repetition_penalty a)) eqn:E3;
    cbn [negb] in Hup;
    try (destruct (Qlt_bool 0 (a_repetition_penalty a)); [|discriminate Hup]);
    cbn [bind] in Hup; inversion Hup; subst; cbn;
    repeat split; try reflexivity;
    try (apply Qeq_bool_iff; assumption). }
  destruct Hq as (Hq1 & Hq2 & Hq3).
  split; [exact Hq1|]. split; [exact Hq2|]. split; [exact Hq3|].
  split; [exists pos_c; split; [rewrite Hf1, Hc2p; exact Hc1|exact Hsz]|].
  split; [exists speech_c; split; [rewrite Hf2; exact Hc2|exact Hdt]|].
  split; eexists; reflexivity.
Qed.

End DriverFacts.

(** ** The properties at concrete requests *)

Local Notation "'at_toy' f" :=
  (f Z Z Z Toy.emb_add Toy.emb_zero Toy.softmax Toy.multinomial
     Toy.patched_model Toy.cast Toy.get_fixed_embedding Float32
     Toy.speech_emb_weight Float32 Toy.hp Toy.static_cache
     Toy.static_cache_reset Toy.repetition_penalty Toy.min_p Toy.top_p
     Toy.get_next_bucket)
  (at level 10, f at level 9).

Lemma toy_prepared_long :
  Toy.prepare Toy.fresh_t3 Toy.request_long 0 = Ok Toy.prepared_long.
Proof. vm_compute. reflexivity. Qed.

Lemma toy_reaches_1 :
  Toy.loop_reaches (pr_env Z Z Z Toy.prepared_long)
    (pr_iterations Z Z Z Toy.prepared_long) (pr_state Z Z Z Toy.prepared_long)
    (0 + 1) Toy.state_long_1.
Proof.
  apply reaches_step with (st := pr_state Z Z Z Toy.prepared_long).
  - apply reaches_start.
  - vm_compute. reflexivity.
  - vm_compute. reflexivity.
Qed.

(** C9 at the second loop head of a request with a budget of ten
    tokens. *)
Lemma buffer_tail_is_pad_witness :
  let p := Toy.prepared_long in
  let st := Toy.state_long_1 in
  let env := pr_env Z Z Z p in
  let s := le_stride_length Z env in
  let buf := ls_generated_ids Z Z st in
  zlen buf = bos_len + TOKEN_LIMIT /\
  (forall j, high_water s (0 + 1) < j < bos_len + TOKEN_LIMIT ->
     nth_error buf (Z.to_nat j) = Some (stop_speech_token Toy.hp + 1)) /\
  (forall st', 0 + 1 < pr_iterations Z Z Z p ->
     Toy.loop_body env (0 + 1) st = Ok (Continue Z Z st') ->
     let buf' := ls_generated_ids Z Z st' in
     let index := (0 + 1) * s + 1 in
     py_get (le_indices Z env) ((0 + 1) * s) = Ok index /\
     high_water s (0 + 1) < index < bos_len + TOKEN_LIMIT /\
     nth_error buf (Z.to_nat index) = Some (stop_speech_token Toy.hp + 1) /\
     zlen buf' = zlen buf /\
     (exists raw,
        cfg_logits (ls_output_logits Z Z st) (le_cfg_weight Z env) = Ok raw /\
        nth_error buf' (Z.to_nat index) =
        Some (fst (Toy.multinomial (ls_rng Z Z st)
                (Toy.softmax
                   (le_top_p_warper Z env (Some buf)
                      (le_min_p_warper Z env (Some buf)
                         (temperature_stage (le_temperature Z env)
                            (le_repetition_penalty_processor Z env
                               (Some buf) raw)))))))) /\
     (forall j, j <> Z.to_nat index -> nth_error buf' j = nth_error buf j)).
Proof.
  exact (at_toy buffer_tail_is_pad Toy.fresh_t3 Toy.request_long 0
           Toy.prepared_long (0 + 1) Toy.state_long_1
           toy_prepared_long toy_reaches_1).
Defined.

Lemma toy_body_0 :
  Toy.loop_body (pr_env Z Z Z Toy.prepared_long) 0 (pr_state Z Z Z Toy.prepared_long)
  = Ok (Continue Z Z Toy.state_long_1).
Proof. vm_compute. reflexivity. Qed.



Lemma toy_returned_long :
  at_toy inference_optimized Toy.fresh_t3 Toy.request_long 0
  = Ok (fst (fst Toy.returned_long), snd (fst Toy.returned_long),
        snd Toy.returned_long).
Proof. vm_compute. reflexivity. Qed.

Lemma toy_returned_clamped :
  at_toy inference_optimized Toy.fresh_t3 Toy.request_clamped 0
  = Ok (fst (fst Toy.returned_clamped), snd (fst Toy.returned_clamped),
        snd Toy.returned_clamped).
Proof. vm_compute. reflexivity. Qed.

(** C6 at the same request. *)
Lemma guard_once_per_request_witness :
  exists calls,
    cudagraph_wrapper (snd (fst Toy.returned_long)) =
      Some (match cudagraph_wrapper Toy.fresh_t3 with None => [] | Some w => w end
            ++ WGuard :: calls) /\
    forallb is_call calls = true /\
    (a_generate_token_backend Toy.request_long <> CudagraphsManual -> calls = []).
Proof.
  exact (at_toy guard_once_per_request Toy.fresh_t3 (snd (fst Toy.returned_long))
           Toy.request_long 0 (snd Toy.returned_long)
           (fst (fst Toy.returned_long)) toy_returned_long).
Defined.

(** C6 as stated fails: a request that runs two steps through the
    wrapper calls [guard()] once, before the first; the second call
    follows the first with no guard between them. *)
Lemma second_step_runs_without_guard :
  Toy.inference_optimized Toy.fresh_t3 Toy.request_clamped 0
  = Ok (fst (fst Toy.returned_clamped), snd (fst Toy.returned_clamped),
        snd Toy.returned_clamped) /\
  cudagraph_wrapper (snd (fst Toy.returned_clamped))
  = Some [WGuard; WCall (Some 250); WCall (Some 250)] /\
  guard_before_each_call false [WGuard; WCall (Some 250); WCall (Some 250)] = false.
Proof.
  split; [exact toy_returned_clamped|]. split; reflexivity.
Qed.

Lemma toy_vocab_ok : vocab_ok Z Toy.speech_emb_weight Toy.hp.
Proof. unfold vocab_ok. vm_compute. repeat split; discriminate. Qed.

Lemma toy_sampler_in_vocab : sampler_in_vocab (Lg := list Q) Z Toy.multinomial Toy.hp.
Proof.
  intros rng probs. unfold Toy.multinomial. cbn [fst Toy.hp speech_tokens_dict_size].
  pose proof (Z.mod_pos_bound rng 6 ltac:(lia)). lia.
Qed.

Lemma toy_request_over_ok : request_ok Z Toy.request_over.
Proof.
  unfold request_ok. vm_compute.
  repeat split; try discriminate; try reflexivity.
Qed.

Lemma toy_room_over :
  TOKEN_LIMIT <= a_max_cache_len Toy.request_over - prompt_length Z Toy.request_over.
Proof. vm_compute. discriminate. Qed.

(** C4 at a prompt of three positions and a requested budget of ten under
    a cache of five, where the budget becomes two; and at a requested
    budget of 5000 under a cache of 2048, where the driver raises. *)
Lemma token_budget_clamp_witness :
  (let room :=
     a_max_cache_len Toy.request_clamped - prompt_length Z Toy.request_clamped in
   0 <= room < TOKEN_LIMIT /\
   (exists p st,
      at_toy run_loop Toy.fresh_t3 Toy.request_clamped 0 = Ok (p, st) /\
      pr_max_new_tokens Z Z Z p = room) /\
   zlen (fst (fst Toy.returned_clamped)) <= bos_len + room) /\
  at_toy inference_optimized Toy.fresh_t3 Toy.request_over 0
  = Raise AssertionError.
Proof.
  split.
  - exact (proj1 (at_toy token_budget_clamp Toy.fresh_t3 Toy.request_clamped 0
                    eq_refl)
             (fst (fst Toy.returned_clamped)) (snd (fst Toy.returned_clamped))
             (snd Toy.returned_clamped) toy_returned_clamped).
  - exact (proj2 (at_toy token_budget_clamp Toy.fresh_t3 Toy.request_over 0
                    eq_refl)
             toy_room_over toy_vocab_ok toy_request_over_ok).
Defined.

(** C4 as stated fails: with a cache of 2048 and a prompt of three
    positions, a requested budget of 5000 exceeds the room of 2045; the
    reduced budget is not below TOKEN_LIMIT and the driver raises at its
    budget test, before any token is generated. *)
Lemma reduced_budget_raises :
  a_max_cache_len Toy.request_over - prompt_length Z Toy.request_over = 2045 /\
  requested_tokens Z Toy.hp Toy.request_over = 5000 /\
  Toy.inference_optimized Toy.fresh_t3 Toy.request_over 0 = Raise AssertionError.
Proof.
  split; [reflexivity|]. split; [reflexivity|]. vm_compute. reflexivity.
Qed.

(** C5 at two requests on one object: the first without guidance and
    with a cache of 5 positions, the second with guidance weight 1/2 and
    a cache of 4096.  The second needs a cache of batch size 2 and length
    4096; it runs, without an exception, on the handle the first one
    allocated, of batch size 1 and length 5. *)
Theorem kv_cache_reused_for_other_batch_size :
  Toy.inference_optimized Toy.fresh_t3 Toy.request_clamped 0
  = Ok (fst (fst Toy.returned_clamped), snd (fst Toy.returned_clamped),
        snd Toy.returned_clamped) /\
  Toy.prepare (snd (fst Toy.returned_clamped)) Toy.request_guided
    (snd Toy.returned_clamped) = Ok Toy.prepared_guided /\
  pr_effective_batch_size Z Z Z Toy.prepared_guided = 2 /\
  a_max_cache_len Toy.request_guided = 4096 /\
  kv_batch_size (pr_kv Z Z Z Toy.prepared_guided) = 1 /\
  kv_max_cache_len (pr_kv Z Z Z Toy.prepared_guided) = 5.
Proof.
  split; [exact toy_returned_clamped|].
  split; [vm_compute; reflexivity|].
  repeat split.
Qed.



(** ** Text tokens and their markers *)

Lemma column_first (t : Tokens2D) :
  1 <= tk_cols t ->
  column t 0 = Ok (map (fun row => nth 0 row 0) (tk_rows t)).
Proof.
  intro H. unfold column, py_index.
  replace (0 <? tk_cols t) with true by (symmetry; apply Z.ltb_lt; lia).
  reflexivity.
Qed.

Lemma column_last (t : Tokens2D) :
  1 <= tk_cols t ->
  column t (-1) =
  Ok (map (fun row => nth (Z.to_nat (tk_cols t - 1)) row 0) (tk_rows t)).
Proof.
  intro H. unfold column, py_index.
  replace (- tk_cols t <=? -1) with true by (symmetry; apply Z.leb_le; lia).
  reflexivity.
Qed.

Lemma column_no_columns (t : Tokens2D) (j : Z) :
  tk_cols t = 0 -> column t j = Raise IndexError.
Proof.
  intro H. unfold column.
  destruct (py_index (tk_cols t) j) as [n|] eqn:E; [|reflexivity].
  apply py_index_some in E. lia.
Qed.

Lemma any_differs_false (v : Z) (col : list Z) :
  any_differs v col = false <-> Forall (fun x => x = v) col.
Proof.
  unfold any_differs. induction col as [|x col IH]; simpl.
  - split; auto.
  - rewrite orb_false_iff, IH, negb_false_iff, Z.eqb_eq. split.
    + intros [H1 H2]. constructor; assumption.
    + intro H. inversion H; auto.
Qed.

Lemma row_starts_with (row : list Z) (c v : Z) :
  zlen row = c -> 1 <= c -> nth 0 row 0 = v -> exists body, row = v :: body.
Proof.
  intros Hl Hc Hn. destruct row as [|x body].
  - unfold zlen in Hl. simpl in Hl. lia.
  - simpl in Hn. rewrite Hn. eauto.
Qed.

Lemma row_ends_with (row : list Z) (c v : Z) :
  zlen row = c -> 1 <= c -> nth (Z.to_nat (c - 1)) row 0 = v ->
  exists body, row = body ++ [v].
Proof.
  intros Hl Hc Hn. destruct (exists_last (l := row)) as (body & x & ->).
  - intro E. subst row. unfold zlen in Hl. simpl in Hl. lia.
  - exists body. unfold zlen in Hl. rewrite length_app in Hl. simpl in Hl.
    replace (Z.to_nat (c - 1)) with (length body) in Hn by lia.
    rewrite nth_middle in Hn. rewrite Hn. reflexivity.
Qed.

(** The first half of [_ensure_BOT_EOT]. *)
Lemma ensure_front (t : Tokens2D) (v : Z) :
  tokens_wf t -> 1 <= tk_cols t ->
  let t1 :=
    if any_differs v (map (fun row => nth 0 row 0) (tk_rows t))
    then mkTokens2D (map (fun row => v :: row) (tk_rows t)) (1 + tk_cols t)
    else t in
  tokens_wf t1 /\ tk_cols t <= tk_cols t1 <= tk_cols t + 1 /\
  Forall (starts_with v) (tk_rows t1) /\
  (Forall (starts_with v) (tk_rows t) -> t1 = t) /\
  exists pre, (pre = [] \/ pre = [v]) /\
    tk_rows t1 = map (fun row => pre ++ row) (tk_rows t).
Proof.
  intros [Hc Hwf] H1 t1. subst t1.
  destruct (any_differs v _) eqn:E.
  - cbn [tk_rows tk_cols]. split; [|split; [lia|split; [|split]]].
    + unfold tokens_wf. cbn [tk_rows tk_cols]. split; [lia|]. rewrite Forall_map.
      eapply Forall_impl; [|exact Hwf]. cbv beta. intros row Hr.
      unfold zlen in *. cbn [length]. lia.
    + rewrite Forall_map. apply Forall_forall. intros row _. exists row. reflexivity.
    + intro Hall. exfalso.
      assert (Hf : any_differs v (map (fun row => nth 0 row 0) (tk_rows t)) = false).
      { apply any_differs_false. rewrite Forall_map.
        eapply Forall_impl; [|exact Hall]. cbn. intros row [body ->]. reflexivity. }
      congruence.
    + exists [v]. split; [auto|]. reflexivity.
  - split; [split; assumption|]. split; [lia|]. split; [|split; [auto|]].
    + apply any_differs_false in E. rewrite Forall_map in E.
      rewrite Forall_forall in *. intros row Hin.
      apply (row_starts_with row (tk_cols t)); auto.
    + exists []. split; [auto|]. symmetry. apply map_id.
Qed.

(** The second half. *)
Lemma ensure_back (t : Tokens2D) (v : Z) :
  tokens_wf t -> 1 <= tk_cols t ->
  let t1 :=
    if any_differs v (map (fun row => nth (Z.to_nat (tk_cols t - 1)) row 0) (tk_rows t))
    then mkTokens2D (map (fun row => row ++ [v]) (tk_rows t)) (tk_cols t + 1)
    else t in
  tokens_wf t1 /\ tk_cols t <= tk_cols t1 <= tk_cols t + 1 /\
  Forall (ends_with v) (tk_rows t1) /\
  (Forall (ends_with v) (tk_rows t) -> t1 = t) /\
  exists post, (post = [] \/ post = [v]) /\
    tk_rows t1 = map (fun row => row ++ post) (tk_rows t).
Proof.
  intros [Hc Hwf] H1 t1. subst t1.
  destruct (any_differs v _) eqn:E.
  - cbn [tk_rows tk_cols]. split; [|split; [lia|split; [|split]]].
    + unfold tokens_wf. cbn [tk_rows tk_cols]. split; [lia|]. rewrite Forall_map.
      eapply Forall_impl; [|exact Hwf]. cbv beta. intros row Hr.
      unfold zlen in *. rewrite length_app. cbn [length]. lia.
    + rewrite Forall_map. apply Forall_forall. intros row _. exists row. reflexivity.
    + intro Hall. exfalso.
      assert (Hf : any_differs v
                (map (fun row => nth (Z.to_nat (tk_cols t - 1)) row 0) (tk_rows t))
              = false).
      { apply any_differs_false. rewrite Forall_map.
        rewrite Forall_forall in *. intros row Hin.
        destruct (Hall row Hin) as [body ->]. specialize (Hwf _ Hin).
        unfold zlen in Hwf. rewrite length_app in Hwf. cbn [length] in Hwf.
        replace (Z.to_nat (tk_cols t - 1)) with (length body) by lia.
        apply nth_middle. }
      congruence.
    + exists [v]. split; [auto|]. reflexivity.
  - split; [split; assumption|]. split; [lia|]. split; [|split; [auto|]].
    + apply any_differs_false in E. rewrite Forall_map in E.
      rewrite Forall_forall in *. intros row Hin.
      apply (row_ends_with row (tk_cols t)); auto.
    + exists []. split; [auto|]. rewrite <- (map_id (tk_rows t)) at 1.
      apply map_ext. intro row. rewrite app_nil_r. reflexivity.
Qed.

Lemma ensure_BOT_EOT_unfold (t : Tokens2D) (hp : TextMarkers) :
  1 <= tk_cols t ->
  _ensure_BOT_EOT t hp =
  let t1 :=
    if any_differs (start_text_token hp) (map (fun row => nth 0 row 0) (tk_rows t))
    then mkTokens2D (map (fun row => start_text_token hp :: row) (tk_rows t))
           (1 + tk_cols t)
    else t in
  Ok (if any_differs (stop_text_token hp)
          (map (fun row => nth (Z.to_nat (tk_cols t1 - 1)) row 0) (tk_rows t1))
      then mkTokens2D (map (fun row => row ++ [stop_text_token hp]) (tk_rows t1))
             (tk_cols t1 + 1)
      else t1).
Proof.
  intro H. unfold _ensure_BOT_EOT. rewrite column_first by exact H. cbn [bind].
  cbv zeta.
  set (t1 := if any_differs _ _ then _ else t).
  assert (H1 : 1 <= tk_cols t1).
  { subst t1. destruct (any_differs _ _); cbn [tk_cols]; lia. }
  rewrite column_last by exact H1. reflexivity.
Qed.

(** X1: on a tensor of at least one column, [_ensure_BOT_EOT] returns a
    tensor whose rows all begin with the start marker and end with the
    stop marker.  The rows are the given ones between a prefix and a
    suffix that are the same for every row: the start marker is put
    before all rows as soon as one row lacks it (a row that has it gets
    a second one), and likewise the stop marker after all rows; the
    tensor grows by at most two columns. *)
Theorem ensure_BOT_EOT_markers (t : Tokens2D) (hp : TextMarkers) :
  tokens_wf t -> 1 <= tk_cols t ->
  exists t',
    _ensure_BOT_EOT t hp = Ok t' /\
    tokens_wf t' /\
    tk_cols t <= tk_cols t' <= tk_cols t + 2 /\
    Forall (fun row => (exists body, row = start_text_token hp :: body) /\
                       (exists body, row = body ++ [stop_text_token hp]))
      (tk_rows t') /\
    exists pre post,
      (pre = [] \/ pre = [start_text_token hp]) /\
      (post = [] \/ post = [stop_text_token hp]) /\
      tk_rows t' = map (fun row => pre ++ row ++ post) (tk_rows t).
Proof.
  intros Hwf Hc. rewrite ensure_BOT_EOT_unfold by exact Hc. cbv zeta.
  destruct (ensure_front t (start_text_token hp) Hwf Hc)
    as (Hwf1 & Hc1 & Hs1 & _ & pre & Hpre & Hr1).
  cbv zeta in Hwf1, Hc1, Hs1, Hr1.
  set (t1 := if any_differs (start_text_token hp) _ then _ else t) in *.
  destruct (ensure_back t1 (stop_text_token hp) Hwf1 ltac:(lia))
    as (Hwf2 & Hc2 & Hs2 & _ & post & Hpost & Hr2).
  cbv zeta in Hwf2, Hc2, Hs2, Hr2.
  set (t2 := if any_differs (stop_text_token hp) _ then _ else t1) in *.
  exists t2. split; [reflexivity|]. split; [exact Hwf2|]. split; [lia|].
  split.
  - rewrite Hr2. rewrite Forall_map. rewrite Forall_forall in *.
    intros row Hin. split.
    + destruct (Hs1 row Hin) as [body ->]. exists (body ++ post). reflexivity.
    + assert (Hin2 : In (row ++ post) (tk_rows t2)).
      { rewrite Hr2. apply in_map_iff. exists row. auto. }
      exact (Hs2 _ Hin2).
  - exists pre, post. split; [exact Hpre|]. split; [exact Hpost|].
    rewrite Hr2, Hr1, map_map. apply map_ext. intro row.
    rewrite app_assoc. reflexivity.
Qed.

Lemma ensure_BOT_EOT_fixed (t : Tokens2D) (hp : TextMarkers) :
  tokens_wf t -> 1 <= tk_cols t ->
  Forall (starts_with (start_text_token hp)) (tk_rows t) ->
  Forall (ends_with (stop_text_token hp)) (tk_rows t) ->
  _ensure_BOT_EOT t hp = Ok t.
Proof.
  intros Hwf Hc Hs He. rewrite ensure_BOT_EOT_unfold by exact Hc. cbv zeta.
  destruct (ensure_front t (start_text_token hp) Hwf Hc) as (_ & _ & _ & Hid & _).
  cbv zeta in Hid. rewrite (Hid Hs).
  destruct (ensure_back t (stop_text_token hp) Hwf Hc) as (_ & _ & _ & Hid2 & _).
  cbv zeta in Hid2. rewrite (Hid2 He). reflexivity.
Qed.

Lemma ensure_BOT_EOT_post (t t' : Tokens2D) (hp : TextMarkers) :
  tokens_wf t -> _ensure_BOT_EOT t hp = Ok t' ->
  1 <= tk_cols t /\ tokens_wf t' /\ 1 <= tk_cols t' /\
  Forall (starts_with (start_text_token hp)) (tk_rows t') /\
  Forall (ends_with (stop_text_token hp)) (tk_rows t').
Proof.
  intros Hwf H.
  assert (Hc : 1 <= tk_cols t).
  { destruct Hwf as [Hc _]. destruct (Z.eq_dec (tk_cols t) 0) as [E|]; [|lia].
    unfold _ensure_BOT_EOT in H. rewrite (column_no_columns t 0 E) in H.
    discriminate. }
  split; [exact Hc|].
  rewrite ensure_BOT_EOT_unfold in H by exact Hc. cbv zeta in H.
  destruct (ensure_front t (start_text_token hp) Hwf Hc)
    as (Hwf1 & Hc1 & Hs1 & _ & pre & Hpre & Hr1).
  cbv zeta in Hwf1, Hc1, Hs1, Hr1.
  set (t1 := if any_differs (start_text_token hp) _ then _ else t) in *.
  destruct (ensure_back t1 (stop_text_token hp) Hwf1 ltac:(lia))
    as (Hwf2 & Hc2 & Hs2 & _ & post & Hpost & Hr2).
  cbv zeta in Hwf2, Hc2, Hs2, Hr2.
  set (t2 := if any_differs (stop_text_token hp) _ then _ else t1) in *.
  inversion H; subst t'. split; [exact Hwf2|]. split; [lia|].
  split; [|exact Hs2].
  rewrite Hr2. rewrite Forall_map. rewrite Forall_forall in *.
  intros row Hin. destruct (Hs1 row Hin) as [body ->].
  exists (body ++ post). reflexivity.
Qed.

(** X2: [_ensure_BOT_EOT] is idempotent: applied to its own result it
    returns it unchanged. *)
Theorem ensure_BOT_EOT_idempotent (t t' : Tokens2D) (hp : TextMarkers) :
  tokens_wf t -> _ensure_BOT_EOT t hp = Ok t' -> _ensure_BOT_EOT t' hp = Ok t'.
Proof.
  intros Hwf H.
  destruct (ensure_BOT_EOT_post t t' hp Hwf H) as (_ & Hwf' & Hc' & Hs & He).
  apply ensure_BOT_EOT_fixed; assumption.
Qed.

(** X3: [_ensure_BOT_EOT] raises exactly on a tensor without columns:
    the IndexError of reading column 0. *)
Theorem ensure_BOT_EOT_no_columns (t : Tokens2D) (hp : TextMarkers) (e : PyErr) :
  tokens_wf t ->
  (_ensure_BOT_EOT t hp = Raise e <-> tk_cols t = 0 /\ e = IndexError).
Proof.
  intros Hwf. split.
  - intro H. destruct (Z.eq_dec (tk_cols t) 0) as [E|Hne].
    + split; [exact E|]. unfold _ensure_BOT_EOT in H.
      rewrite (column_no_columns t 0 E) in H. inversion H. reflexivity.
    + destruct Hwf as [Hc _].
      rewrite ensure_BOT_EOT_unfold in H by lia. discriminate.
  - intros [E ->]. unfold _ensure_BOT_EOT.
    rewrite (column_no_columns t 0 E). reflexivity.
Qed.

(** ** Static input shapes *)

Lemma clear_from_length (k : Z) (row : list bool) :
  length (clear_from k row) = length row.
Proof.
  unfold clear_from. rewrite length_app, length_map, length_firstn, length_skipn. lia.
Qed.

Lemma clear_from_nth (k : Z) (n : nat) (j : nat) :
  0 <= k -> (j < n)%nat ->
  nth_error (clear_from k (repeat true n)) j = Some (Z.of_nat j <? k).
Proof.
  intros Hk Hj. unfold clear_from.
  destruct (Z.of_nat j <? k) eqn:E.
  - apply Z.ltb_lt in E.
    rewrite nth_error_app1 by (rewrite length_firstn, repeat_length; lia).
    rewrite nth_error_firstn.
    replace (j <? Z.to_nat k)%nat with true by (symmetry; apply Nat.ltb_lt; lia).
    apply nth_error_repeat. exact Hj.
  - apply Z.ltb_ge in E.
    rewrite nth_error_app2 by (rewrite length_firstn, repeat_length; lia).
    rewrite nth_error_map.
    rewrite length_firstn, repeat_length.
    rewrite nth_error_skipn.
    rewrite nth_error_repeat by lia. reflexivity.
Qed.

Lemma firstn_repeat_le {A : Type} (a : A) (k n : nat) :
  (k <= n)%nat -> firstn k (repeat a n) = repeat a k.
Proof.
  revert n. induction k as [|k IH]; intros [|n] H; simpl; try lia; auto.
  f_equal. apply IH. lia.
Qed.

Lemma skipn_repeat {A : Type} (a : A) (k n : nat) :
  skipn k (repeat a n) = repeat a (n - k).
Proof.
  revert n. induction k as [|k IH]; intros [|n]; simpl; auto.
Qed.

Lemma map_const_repeat {A B : Type} (a : A) (b : B) (n : nat) :
  map (fun _ => b) (repeat a n) = repeat b n.
Proof. induction n as [|n IH]; simpl; congruence. Qed.

Lemma clear_from_repeat (k : Z) (n : nat) :
  0 <= k <= Z.of_nat n ->
  clear_from k (repeat true n) =
  repeat true (Z.to_nat k) ++ repeat false (n - Z.to_nat k).
Proof.
  intro H. unfold clear_from.
  rewrite firstn_repeat_le by lia. rewrite skipn_repeat, map_const_repeat.
  reflexivity.
Qed.

Lemma filter_mask_keep {A : Type} (l : list A) :
  map fst (filter snd (combine l (repeat true (length l)))) = l.
Proof. induction l as [|x l IH]; simpl; congruence. Qed.

Lemma filter_mask_drop {A : Type} (l : list A) (n : nat) :
  filter snd (combine l (repeat false n)) = [].
Proof.
  revert n. induction l as [|x l IH]; intros [|n]; simpl; auto.
Qed.

Lemma combine_app_same {A B : Type} (l1 l2 : list A) (m1 m2 : list B) :
  length l1 = length m1 ->
  combine (l1 ++ l2) (m1 ++ m2) = combine l1 m1 ++ combine l2 m2.
Proof.
  revert m1. induction l1 as [|x l1 IH]; intros [|y m1] H; simpl in *;
    try discriminate; auto.
  f_equal. apply IH. congruence.
Qed.

(** X19: [prepare_static_inputs] on ids of at most [max_length]
    columns: every row is the given row followed by zeros up to
    [max_length], and cutting the rows at the given width gives the input
    back; on wider ids it raises ValueError. *)
Theorem prepare_static_inputs_pads (max_length : Z) (input_ids : Tokens2D) :
  tokens_wf input_ids ->
  (tk_cols input_ids <= max_length ->
   exists ids mask,
     prepare_static_inputs max_length input_ids = Ok (ids, mask) /\
     tokens_wf ids /\ tk_cols ids = max_length /\
     tk_rows ids =
       map (fun row => row ++ repeat 0 (Z.to_nat (max_length - tk_cols input_ids)))
         (tk_rows input_ids) /\
     map (fun row => py_slice_to row (tk_cols input_ids)) (tk_rows ids)
       = tk_rows input_ids) /\
  (max_length < tk_cols input_ids ->
   prepare_static_inputs max_length input_ids = Raise ValueError).
Proof.
  intros [Hc Hwf]. unfold prepare_static_inputs. split.
  - intro Hle.
    replace (tk_cols input_ids >? max_length) with false
      by (symmetry; rewrite Z.gtb_ltb; apply Z.ltb_ge; lia).
    do 2 eexists. split; [reflexivity|].
    assert (Hround :
      map (fun row => py_slice_to row (tk_cols input_ids))
        (map (fun row => row ++ repeat 0 (Z.to_nat (max_length - tk_cols input_ids)))
           (tk_rows input_ids)) = tk_rows input_ids).
    { rewrite map_map. rewrite <- (map_id (tk_rows input_ids)) at 2.
      apply map_ext_in. intros row Hin. rewrite Forall_forall in Hwf.
      rewrite <- (Hwf row Hin). apply py_slice_to_app. }
    destruct (max_length - tk_cols input_ids >? 0) eqn:E.
    + cbn [tk_rows tk_cols]. split; [|split; [lia|split; [reflexivity|exact Hround]]].
      unfold tokens_wf. cbn [tk_rows tk_cols]. split; [lia|].
      rewrite Forall_map. eapply Forall_impl; [|exact Hwf]. cbv beta.
      intros row Hr. unfold zlen in *. rewrite length_app, repeat_length. lia.
    + assert (Heq : max_length = tk_cols input_ids).
      { rewrite Z.gtb_ltb in E. apply Z.ltb_ge in E. lia. }
      assert (Hrows :
        tk_rows input_ids =
        map (fun row => row ++ repeat 0 (Z.to_nat (max_length - tk_cols input_ids)))
          (tk_rows input_ids)).
      { rewrite <- (map_id (tk_rows input_ids)) at 1. apply map_ext.
        intro row. rewrite Heq, Z.sub_diag. simpl. rewrite app_nil_r. reflexivity. }
      split; [split; assumption|]. split; [lia|]. split; [exact Hrows|].
      rewrite Hrows at 1. exact Hround.
  - intro Hgt.
    replace (tk_cols input_ids >? max_length) with true
      by (symmetry; rewrite Z.gtb_ltb; apply Z.ltb_lt; lia).
    reflexivity.
Qed.

Lemma prepare_static_inputs_inv (max_length : Z) (input_ids ids : Tokens2D)
    (mask : list (list bool)) :
  tokens_wf input_ids ->
  prepare_static_inputs max_length input_ids = Ok (ids, mask) ->
  tk_cols input_ids <= max_length /\ tk_cols ids = max_length /\
  tk_rows ids =
    map (fun row => row ++ repeat 0 (Z.to_nat (max_length - tk_cols input_ids)))
      (tk_rows input_ids) /\
  mask =
    repeat (repeat true (Z.to_nat (tk_cols input_ids)) ++
            repeat false (Z.to_nat (max_length - tk_cols input_ids)))
      (length (tk_rows input_ids)).
Proof.
  intros [Hc Hwf] H. unfold prepare_static_inputs in H.
  destruct (tk_cols input_ids >? max_length) eqn:Egt; [discriminate|].
  rewrite Z.gtb_ltb in Egt. apply Z.ltb_ge in Egt.
  inversion H as [[Hids Hmask]]; clear H. split; [exact Egt|].
  rewrite clear_from_repeat by lia.
  replace (Z.to_nat max_length - Z.to_nat (tk_cols input_ids))%nat
    with (Z.to_nat (max_length - tk_cols input_ids)) by lia.
  split; [|split; [|reflexivity]].
  - destruct (max_length - tk_cols input_ids >? 0) eqn:E; cbn [tk_cols]; [lia|].
    rewrite Z.gtb_ltb in E. apply Z.ltb_ge in E. lia.
  - destruct (max_length - tk_cols input_ids >? 0) eqn:E; cbn [tk_rows];
      [reflexivity|].
    rewrite Z.gtb_ltb in E. apply Z.ltb_ge in E.
    replace (max_length - tk_cols input_ids) with 0 by lia. simpl.
    rewrite <- (map_id (tk_rows input_ids)) at 1. apply map_ext.
    intro row. rewrite app_nil_r. reflexivity.
Qed.

Lemma map_combine_repeat {A B C D : Type} (f : C * B -> D) (g : A -> C) (m : B)
    (l : list A) :
  map f (combine (map g l) (repeat m (length l))) = map (fun x => f (g x, m)) l.
Proof. induction l as [|x l IH]; simpl; congruence. Qed.

Lemma masked_row (row : list Z) (k : nat) :
  map fst (filter snd
    (combine (row ++ repeat 0 k) (repeat true (length row) ++ repeat false k)))
  = row.
Proof.
  rewrite combine_app_same by (rewrite repeat_length; reflexivity).
  rewrite filter_app, filter_mask_drop, app_nil_r. apply filter_mask_keep.
Qed.

(** X20: the attention mask [prepare_static_inputs] returns has one
    row per input row, each of [max_length] entries, true exactly at the
    positions of the given row; the padded ids at the positions the mask
    selects are the input. *)
Theorem prepare_static_inputs_mask (max_length : Z) (input_ids ids : Tokens2D)
    (mask : list (list bool)) :
  tokens_wf input_ids ->
  prepare_static_inputs max_length input_ids = Ok (ids, mask) ->
  mask =
    repeat (repeat true (Z.to_nat (tk_cols input_ids)) ++
            repeat false (Z.to_nat (max_length - tk_cols input_ids)))
      (length (tk_rows input_ids)) /\
  Forall (fun m => zlen m = max_length) mask /\
  map (fun p => map fst (filter snd (combine (fst p) (snd p))))
    (combine (tk_rows ids) mask) = tk_rows input_ids.
Proof.
  intros Hwf H.
  destruct (prepare_static_inputs_inv _ _ _ _ Hwf H) as (Hle & Hcols & Hrows & Hmask).
  destruct Hwf as [Hc Hwf].
  split; [exact Hmask|]. split.
  - rewrite Hmask. apply Forall_forall. intros m Hin.
    apply repeat_spec in Hin. subst m. unfold zlen.
    rewrite length_app, !repeat_length. lia.
  - rewrite Hrows, Hmask, map_combine_repeat.
    rewrite <- (map_id (tk_rows input_ids)) at 2.
    apply map_ext_in. intros row Hin. cbn [fst snd].
    rewrite Forall_forall in Hwf. specialize (Hwf row Hin).
    replace (Z.to_nat (tk_cols input_ids)) with (length row)
      by (unfold zlen in Hwf; lia).
    apply masked_row.
Qed.

(** ** The direct loop *)

Section DirectFacts.
Context {Lg : Type} {ops : TensorOps Lg}.
Variables Emb Hid Rng : Type.
Variable emb_add : Emb -> Emb -> Emb.
Variable softmax : Lg -> Lg.
Variable multinomial : Rng -> Lg -> Z * Rng.
Variable tfmr : list (list Emb) -> list (list Hid).
Variable speech_head : list (list Hid) -> list (list Lg).
Variable get_fixed_embedding : Z -> Emb.
Variable speech_emb_weight : list Emb.
Variable hp : HP.
Variable repetition_penalty_call : Q -> Processor Lg.
Variable min_p_call : Q -> Processor Lg.
Variable top_p_call : Q -> bool -> Processor Lg.
Variable has_speech_pos_emb : bool.

Local Notation "'Self'" := (DirectSelf (Lg := Lg) Emb).
Local Notation "'floop'" :=
  (fast_loop Emb Hid Rng emb_add softmax multinomial tfmr speech_head hp).
Local Notation "'gen_fast'" :=
  (generate_fast Emb Hid Rng emb_add softmax multinomial tfmr speech_head hp).
Local Notation "'init'" :=
  (direct_init Emb get_fixed_embedding speech_emb_weight repetition_penalty_call
     min_p_call top_p_call has_speech_pos_emb).

Lemma fast_token_draw rep minp topp w T mp tp toks logits rng tok rng' :
  generate_fast_token Rng softmax multinomial rep minp topp w T mp tp toks
    logits rng = Ok (tok, rng') ->
  exists l, tok = fst (multinomial rng l) /\ rng' = snd (multinomial rng l).
Proof.
  unfold generate_fast_token. intro H. bind_inv_as H l El.
  inversion H as [Hm]. exists (softmax l). rewrite Hm. auto.
Qed.

(** What the loop appends to the tokens it starts with. *)
Lemma fast_loop_inv (self : Self) (w T mp tp : Q) (n : nat) :
  forall (i : Z) (hid : list (list Hid)) (toks : list Z) (rng : Rng)
         (toks' : list Z) (rng' : Rng),
  floop self w T mp tp n i hid toks rng = Ok (toks', rng') ->
  exists new,
    toks' = toks ++ new /\ (length new <= n)%nat /\
    ~ In (stop_speech_token hp) new /\
    Forall (fun t => exists r l, t = fst (multinomial r l)) new.
Proof.
  induction n as [|n IH]; intros i hid toks rng toks' rng' H; simpl in H.
  - inversion H; subst. exists []. rewrite app_nil_r. simpl. auto.
  - bind_inv_as H r Er. destruct r as [tok rng1].
    destruct (tok =? stop_speech_token hp) eqn:Estop.
    + inversion H; subst. exists []. rewrite app_nil_r. simpl.
      repeat split; auto. lia.
    + apply Z.eqb_neq in Estop.
      bind_inv_as H e Ee. bind_inv_as H e' Ee'.
      destruct (IH _ _ _ _ _ _ H) as (new & -> & Hlen & Hns & Hdraw).
      exists (tok :: new). rewrite <- app_assoc. simpl.
      split; [reflexivity|]. split; [lia|]. split.
      * intros [Heq|Hin]; [congruence|exact (Hns Hin)].
      * constructor; [|exact Hdraw].
        destruct (fast_token_draw _ _ _ _ _ _ _ _ _ _ _ _ Er) as (l & -> & _).
        eauto.
Qed.

(** X15: the direct loop returns neither the start token it begins with nor
    the stop token it ends at: every returned token is a token the
    sampler drew, none is the stop token, and there are at most
    [max_new_tokens] of them.  The object it leaves is the one the graph
    captures leave. *)
Theorem generate_fast_output (self self' : Self) (embeds : list (list Emb))
    (T mp tp rp : Q) (max_new_tokens : Z) (w : Q) (rng rng' : Rng)
    (toks : list Z) :
  gen_fast self embeds T mp tp rp max_new_tokens w rng = Ok (toks, self', rng') ->
  ~ In (stop_speech_token hp) toks /\
  zlen toks <= Z.max 0 max_new_tokens /\
  Forall (fun t => exists r l, t = fst (multinomial r l)) toks /\
  self' = ensure_graphs Emb self.
Proof.
  unfold generate_fast. intro H. bind_inv_as H r Er. destruct r as [toks1 rng1].
  inversion H; subst; clear H.
  apply fast_loop_inv in Er. destruct Er as (new & -> & Hlen & Hns & Hdraw).
  cbn [app tl]. repeat split; auto. unfold zlen. lia.
Qed.

(** *** The stop token and the position cache *)

Lemma ensure_graphs_frame (self : Self) :
  d_speech_emb_weight Emb (ensure_graphs Emb self) = d_speech_emb_weight Emb self /\
  d_speech_pos_cache Emb (ensure_graphs Emb self) = d_speech_pos_cache Emb self /\
  d_top_p_warper Emb (ensure_graphs Emb self) = d_top_p_warper Emb self /\
  d_min_p_warper Emb (ensure_graphs Emb self) = d_min_p_warper Emb self /\
  d_repetition_penalty_processor Emb (ensure_graphs Emb self)
    = d_repetition_penalty_processor Emb self.
Proof.
  unfold ensure_graphs, capture_forward_graph, capture_generate_graph.
  destruct (d_forward_graph Emb self) eqn:Ef;
    destruct (d_generate_graph Emb self) eqn:Eg; cbn; rewrite ?Ef, ?Eg; cbn;
    repeat split; reflexivity.
Qed.

(** The loop stops short of its iterations only at a draw of the stop
    token. *)
Lemma fast_loop_stop (self : Self) (w T mp tp : Q) (n : nat) :
  forall (i : Z) (hid : list (list Hid)) (toks : list Z) (rng : Rng)
         (toks' : list Z) (rng' : Rng),
  floop self w T mp tp n i hid toks rng = Ok (toks', rng') ->
  (length toks' < length toks + n)%nat ->
  exists r l, fst (multinomial r l) = stop_speech_token hp.
Proof.
  induction n as [|n IH]; intros i hid toks rng toks' rng' H Hlt; simpl in H.
  - inversion H; subst. lia.
  - bind_inv_as H r Er. destruct r as [tok rng1].
    destruct (tok =? stop_speech_token hp) eqn:Estop.
    + apply Z.eqb_eq in Estop.
      destruct (fast_token_draw _ _ _ _ _ _ _ _ _ _ _ _ Er) as (l & Hl & _).
      exists rng, l. congruence.
    + bind_inv_as H e Ee. bind_inv_as H e' Ee'.
      apply (IH _ _ _ _ _ _ H). rewrite length_app. cbn [length]. lia.
Qed.
(** The loop appends a token only after it has read the position
    embedding of its iteration. *)
Lemma fast_loop_cache_bound (self : Self) (w T mp tp : Q) (cache : list Emb) :
  d_speech_pos_cache Emb self = Some cache ->
  forall (n : nat) (i : Z) (hid : list (list Hid)) (toks : list Z) (rng : Rng)
         (toks' : list Z) (rng' : Rng),
  0 <= i ->
  floop self w T mp tp n i hid toks rng = Ok (toks', rng') ->
  zlen toks' - zlen toks <= Z.max 0 (zlen cache - i).
Proof.
  intros Hc. induction n as [|n IH]; intros i hid toks rng toks' rng' Hi H;
    simpl in H.
  - inversion H; subst. lia.
  - bind_inv_as H r Er. destruct r as [tok rng1].
    destruct (tok =? stop_speech_token hp).
    + inversion H; subst. lia.
    + bind_inv_as H e Ee. rewrite Hc in H. bind_inv_as H e' Ee'.
      bind_inv_as Ee' pos Epos. apply py_get_nonneg in Epos; [|exact Hi].
      apply IH in H; [|lia].
      unfold zlen in *. rewrite length_app in H. cbn [length] in H. lia.
Qed.

(** X17: the position cache bounds the output: on an object with a
    position cache, a call that returns has returned at most as many
    tokens as the cache has positions (TOKEN_LIMIT for an object built by
    [__init__]), whatever budget was asked for. *)
Theorem generate_fast_position_bound (self self' : Self)
    (embeds : list (list Emb)) (T mp tp rp : Q) (max_new_tokens : Z) (w : Q)
    (rng rng' : Rng) (toks : list Z) (cache : list Emb) :
  gen_fast self embeds T mp tp rp max_new_tokens w rng = Ok (toks, self', rng') ->
  d_speech_pos_cache Emb self = Some cache ->
  zlen toks <= zlen cache.
Proof.
  unfold generate_fast. intros H Hc. bind_inv_as H r Er.
  destruct r as [toks1 rng1]. inversion H; subst; clear H.
  destruct (ensure_graphs_frame self) as (_ & Hc' & _).
  assert (Hb := fast_loop_cache_bound (ensure_graphs Emb self) w T mp tp cache
                  ltac:(rewrite Hc'; exact Hc) _ _ _ _ _ _ _ (Z.le_refl 0) Er).
  destruct (fast_loop_inv _ _ _ _ _ _ _ _ _ _ _ _ Er) as (new & -> & _).
  cbn [app tl]. unfold zlen in *. rewrite length_app in Hb. cbn [length] in Hb.
  lia.
Qed.

(** X18: the two graph captures allocate the static tensors twice: on an
    object without graphs, the hidden-state buffer the forward graph
    writes is not the one the generation graph reads, and the embeddings
    buffer the forward graph reads is not the object's [static_embeds]
    any more; the generation graph is captured on the object's current
    static tensors.  A second pass captures nothing. *)
Theorem direct_graphs_use_different_buffers (self : Self) :
  d_forward_graph Emb self = None -> d_generate_graph Emb self = None ->
  let self' := ensure_graphs Emb self in
  exists embeds hidden hidden' logits st,
    d_forward_graph Emb self' = Some (ForwardGraph embeds hidden) /\
    d_generate_graph Emb self' = Some (GenerateGraph hidden' logits) /\
    d_static Emb self' = Some st /\
    hidden' = static_hidden st /\ logits = static_logits st /\
    hidden <> hidden' /\ embeds <> static_embeds st /\
    ensure_graphs Emb self' = self'.
Proof.
  intros Hf Hg self'. subst self'.
  unfold ensure_graphs, capture_forward_graph, capture_generate_graph.
  rewrite Hf. cbn. rewrite Hg. cbn.
  do 5 eexists. repeat split; try reflexivity; cbn; lia.
Qed.

End DirectFacts.

(** ** What the two drivers return *)

Section Returned.
Context {Lg : Type} {ops : TensorOps Lg}.
Variables Emb KV Hid Rng : Type.
Variable emb_add : Emb -> Emb -> Emb.
Variable emb_zero : Emb.
Variable softmax : Lg -> Lg.
Variable multinomial : Rng -> Lg -> Z * Rng.
Variable patched_model : list (list Emb) -> KV -> list (list Lg) * KV.
Variable cast : Dtype -> Emb -> Emb.
Variable get_fixed_embedding : Z -> Emb.
Variable pos_emb_dtype : Dtype.
Variable speech_emb_weight : ETensor Emb.
Variable model_dtype : Dtype.
Variable hp : HP.
Variable static_cache : Z -> Z -> Dtype -> KV.
Variable static_cache_reset : KV -> KV.
Variable repetition_penalty_call : Q -> Processor Lg.
Variable min_p_call : Q -> Processor Lg.
Variable top_p_call : Q -> bool -> Processor Lg.
Variable get_next_bucket : Z -> Z -> Z -> Z.
Variable tfmr : list (list Emb) -> list (list Hid).
Variable speech_head : list (list Hid) -> list (list Lg).

Local Notation "'run'" :=
  (run_loop Emb KV Rng emb_add emb_zero softmax multinomial patched_model cast
     get_fixed_embedding pos_emb_dtype speech_emb_weight model_dtype hp
     static_cache static_cache_reset repetition_penalty_call min_p_call
     top_p_call get_next_bucket).
Local Notation "'infer'" :=
  (inference_optimized Emb KV Rng emb_add emb_zero softmax multinomial
     patched_model cast get_fixed_embedding pos_emb_dtype speech_emb_weight
     model_dtype hp static_cache static_cache_reset repetition_penalty_call
     min_p_call top_p_call get_next_bucket).
Local Notation "'gen_fast'" :=
  (generate_fast Emb Hid Rng emb_add softmax multinomial tfmr speech_head hp).


End Returned.

(** ** The returned tokens at concrete requests *)

Lemma toy_fast_stopped :
  generate_fast Z Z Z Toy.emb_add Toy.softmax Toy.multinomial Toy.tfmr
    Toy.speech_head Toy.hp Toy.direct_self [[1; 2; 3]]
    (4 # 5)%Q 0%Q 1%Q (6 # 5)%Q 10 0%Q 5
  = Ok ([], ensure_graphs Z Toy.direct_self, 6).
Proof. vm_compute. reflexivity. Qed.



(** ** The further properties at concrete inputs *)

Lemma toy_text_tokens_wf : tokens_wf Toy.text_tokens.
Proof. split; [vm_compute; discriminate|repeat constructor]. Qed.

Lemma toy_no_columns_wf : tokens_wf Toy.no_columns.
Proof. split; [vm_compute; discriminate|repeat constructor]. Qed.

Lemma toy_text_tokens_cols : 1 <= tk_cols Toy.text_tokens.
Proof. vm_compute. discriminate. Qed.

(** X1 at two rows of which the first lacks the stop marker and the
    second the start marker: both markers are added to both rows. *)
Lemma ensure_BOT_EOT_markers_witness :
  _ensure_BOT_EOT Toy.text_tokens Toy.text_markers
    = Ok (mkTokens2D [[255; 255; 7; 8; 0]; [255; 9; 7; 0; 0]] 5) /\
  exists t',
    _ensure_BOT_EOT Toy.text_tokens Toy.text_markers = Ok t' /\
    tokens_wf t' /\
    tk_cols Toy.text_tokens <= tk_cols t' <= tk_cols Toy.text_tokens + 2 /\
    Forall (fun row =>
              (exists body, row = start_text_token Toy.text_markers :: body) /\
              (exists body, row = body ++ [stop_text_token Toy.text_markers]))
      (tk_rows t') /\
    exists pre post,
      (pre = [] \/ pre = [start_text_token Toy.text_markers]) /\
      (post = [] \/ post = [stop_text_token Toy.text_markers]) /\
      tk_rows t' = map (fun row => pre ++ row ++ post) (tk_rows Toy.text_tokens).
Proof.
  split; [reflexivity|].
  exact (ensure_BOT_EOT_markers Toy.text_tokens Toy.text_markers
           toy_text_tokens_wf toy_text_tokens_cols).
Defined.

(** X2 at the same rows. *)
Lemma ensure_BOT_EOT_idempotent_witness :
  _ensure_BOT_EOT (mkTokens2D [[255; 255; 7; 8; 0]; [255; 9; 7; 0; 0]] 5)
    Toy.text_markers
  = Ok (mkTokens2D [[255; 255; 7; 8; 0]; [255; 9; 7; 0; 0]] 5).
Proof.
  exact (ensure_BOT_EOT_idempotent Toy.text_tokens
           (mkTokens2D [[255; 255; 7; 8; 0]; [255; 9; 7; 0; 0]] 5)
           Toy.text_markers toy_text_tokens_wf eq_refl).
Defined.

(** X3 at a batch of two rows without columns. *)
Lemma ensure_BOT_EOT_no_columns_witness :
  _ensure_BOT_EOT Toy.no_columns Toy.text_markers = Raise IndexError.
Proof.
  exact (proj2 (ensure_BOT_EOT_no_columns Toy.no_columns Toy.text_markers
                  IndexError toy_no_columns_wf)
           (conj eq_refl eq_refl)).
Defined.

(** X19 at two rows of three ids and a static length of five. *)
Lemma prepare_static_inputs_pads_witness :
  (tk_cols Toy.text_tokens <= 5 ->
   exists ids mask,
     prepare_static_inputs 5 Toy.text_tokens = Ok (ids, mask) /\
     tokens_wf ids /\ tk_cols ids = 5 /\
     tk_rows ids =
       map (fun row => row ++ repeat 0 (Z.to_nat (5 - tk_cols Toy.text_tokens)))
         (tk_rows Toy.text_tokens) /\
     map (fun row => py_slice_to row (tk_cols Toy.text_tokens)) (tk_rows ids)
       = tk_rows Toy.text_tokens) /\
  (5 < tk_cols Toy.text_tokens ->
   prepare_static_inputs 5 Toy.text_tokens = Raise ValueError).
Proof.
  exact (prepare_static_inputs_pads 5 Toy.text_tokens toy_text_tokens_wf).
Defined.

(** X20 at the same ids. *)
Lemma prepare_static_inputs_mask_witness :
  let ids := mkTokens2D [[255; 7; 8; 0; 0]; [9; 7; 0; 0; 0]] 5 in
  let mask := [[true; true; true; false; false]; [true; true; true; false; false]] in
  mask =
    repeat (repeat true (Z.to_nat (tk_cols Toy.text_tokens)) ++
            repeat false (Z.to_nat (5 - tk_cols Toy.text_tokens)))
      (length (tk_rows Toy.text_tokens)) /\
  Forall (fun m => zlen m = 5) mask /\
  map (fun p => map fst (filter snd (combine (fst p) (snd p))))
    (combine (tk_rows ids) mask) = tk_rows Toy.text_tokens.
Proof.
  exact (prepare_static_inputs_mask 5 Toy.text_tokens
           (mkTokens2D [[255; 7; 8; 0; 0]; [9; 7; 0; 0; 0]] 5)
           [[true; true; true; false; false]; [true; true; true; false; false]]
           toy_text_tokens_wf eq_refl).
Defined.

Lemma toy_prompt_rectangular :
  Forall (fun row : list Z => zlen row = 3) [[1; 2; 3]].
Proof. repeat constructor. Qed.

(** X4 at a prompt of three positions. *)
Lemma initial_forward_ignores_padding_witness :
  map (fun row => py_slice_to row 3) (pad_inputs Z Toy.emb_zero [[1; 2; 3]] 3)
    = [[1; 2; 3]] /\
  _initial_forward_pass Z Z Toy.patched_model
    (pad_inputs Z Toy.emb_zero [[1; 2; 3]] 3) 0 3
  = (map (@py_last1 (list Q)) (fst (Toy.patched_model [[1; 2; 3]] 0)),
     snd (Toy.patched_model [[1; 2; 3]] 0)).
Proof.
  exact (initial_forward_ignores_padding Z Z Toy.emb_zero Toy.patched_model
           [[1; 2; 3]] 0 3 toy_prompt_rectangular).
Defined.

(** X5 at the request with a budget of ten tokens. *)
Lemma output_starts_with_bos_witness :
  exists rest,
    fst (fst Toy.returned_long) = start_speech_token Toy.hp :: rest /\
    zlen rest <= requested_tokens Z Toy.hp Toy.request_long /\
    zlen rest <= a_max_cache_len Toy.request_long - prompt_length Z Toy.request_long /\
    zlen rest < TOKEN_LIMIT.
Proof.
  exact (at_toy output_starts_with_bos Toy.fresh_t3 (snd (fst Toy.returned_long))
           Toy.request_long 0 (snd Toy.returned_long)
           (fst (fst Toy.returned_long)) toy_returned_long).
Defined.


Lemma toy_run_long :
  at_toy run_loop Toy.fresh_t3 Toy.request_long 0
  = Ok (Toy.prepared_long, Toy.final_long).
Proof. vm_compute. reflexivity. Qed.

(** X7 at the same request: the stop token is the sixth draw, the budget
    of ten lies within [length_guesstimate], and the loop runs its ten
    iterations. *)
Lemma early_exit_only_at_checkpoints_witness :
  let s := effective_stride Z Toy.request_long in
  let iterations := pr_iterations Z Z Z Toy.prepared_long in
  exists i,
    Toy.loop_reaches (pr_env Z Z Z Toy.prepared_long) iterations
      (pr_state Z Z Z Toy.prepared_long) i Toy.final_long /\
    0 <= i <= Z.max 0 iterations /\
    (i < iterations ->
     In (stop_speech_token Toy.hp) (ls_generated_ids Z Z Toy.final_long) /\
     a_length_guesstimate Toy.request_long < i * s /\ i mod (20 / s) = 0) /\
    ((iterations - 1) * s <= a_length_guesstimate Toy.request_long ->
     i = Z.max 0 iterations).
Proof.
  exact (at_toy early_exit_only_at_checkpoints Toy.fresh_t3 Toy.request_long 0
           Toy.prepared_long Toy.final_long toy_run_long).
Defined.


Lemma toy_prompt_rows : 1 <= zlen [[1; 2; 3]].
Proof. vm_compute. discriminate. Qed.

Lemma toy_prompt_length : 1 <= zlen (hd [] [[1; 2; 3]]) <= 2048.
Proof. vm_compute. split; discriminate. Qed.

(** X9 at a prompt of three positions. *)
Lemma speed_test_call_budget_witness :
  let budget := Z.min 500 (2048 - zlen (hd [] [[1; 2; 3]])) in
  (exists p,
     Toy.prepare Toy.fresh_t3 (speed_test_call [[1; 2; 3]]) 0 = Ok p /\
     pr_max_new_tokens Z Z Z p = budget /\
     pr_iterations Z Z Z p = budget) /\
  (forall toks self' rng',
     at_toy inference_optimized Toy.fresh_t3 (speed_test_call [[1; 2; 3]]) 0
     = Ok (toks, self', rng') ->
     1 <= zlen toks <= budget + 1).
Proof.
  exact (at_toy speed_test_call_budget Toy.fresh_t3 [[1; 2; 3]] 0
           toy_vocab_ok toy_prompt_rows toy_prompt_length).
Defined.

(** X10 at a call that changes min-p and passes [skip_when_1 = True]
    with the top-p the object has: the flag stays [False]. *)
Lemma update_processors_post_witness :
  let self' := mkT3 1%Q false (1 # 10)%Q (6 # 5)%Q None None None None in
  (Qeq_bool (top_p_warper_top_p Toy.fresh_t3) 1 = true ->
   top_p_warper_top_p self' = top_p_warper_top_p Toy.fresh_t3 /\
   top_p_warper_skip_when_1 self' = top_p_warper_skip_when_1 Toy.fresh_t3) /\
  (Qeq_bool (min_p_warper_min_p Toy.fresh_t3) (1 # 10) = true ->
   min_p_warper_min_p self' = min_p_warper_min_p Toy.fresh_t3) /\
  (repetition_penalty_processor_penalty self' == 6 # 5)%Q /\
  speech_pos_embedding_cache self' = speech_pos_embedding_cache Toy.fresh_t3 /\
  speech_embedding_cache self' = speech_embedding_cache Toy.fresh_t3 /\
  kv_cache self' = kv_cache Toy.fresh_t3 /\
  cudagraph_wrapper self' = cudagraph_wrapper Toy.fresh_t3.
Proof.
  exact (proj1 (update_processors_post Z Z Toy.fresh_t3 1%Q (1 # 10)%Q (6 # 5)%Q true)
           (mkT3 1%Q false (1 # 10)%Q (6 # 5)%Q None None None None) eq_refl).
Defined.

(** X11 at the same call, repeated with the other flag. *)
Lemma update_processors_idempotent_witness :
  update_processors Z Z (mkT3 1%Q false (1 # 10)%Q (6 # 5)%Q None None None None)
    1%Q (1 # 10)%Q (6 # 5)%Q false
  = Ok (mkT3 1%Q false (1 # 10)%Q (6 # 5)%Q None None None None).
Proof.
  exact (update_processors_idempotent Z Z Toy.fresh_t3
           (mkT3 1%Q false (1 # 10)%Q (6 # 5)%Q None None None None)
           1%Q (1 # 10)%Q (6 # 5)%Q true false eq_refl).
Defined.

(** X13 at a float32 positional embedding and a float16 model: the
    second call converts the cache the first call built. *)
Lemma pos_cache_stabilises_witness :
  let c1 := mkETensor [0; 100; 200] Float32 in
  let s1 := set_pos_cache Z Z Toy.fresh_t3 c1 in
  let c2 := if dtype_eqb (et_dtype c1) Float16 then c1
            else to_dtype Z Toy.cast Float16 c1 in
  exists s2,
    get_speech_pos_embedding_cache Z Z Toy.cast Toy.get_fixed_embedding Float32
      s1 3 Float16 = Ok (s2, c2) /\
    et_dtype c2 = Float16 /\ 3 <= et_size0 c2 /\
    get_speech_pos_embedding_cache Z Z Toy.cast Toy.get_fixed_embedding Float32
      s2 3 Float16 = Ok (s2, c2).
Proof.
  exact (pos_cache_stabilises Z Z Toy.cast Toy.get_fixed_embedding Float32
           Toy.fresh_t3
           (set_pos_cache Z Z Toy.fresh_t3 (mkETensor [0; 100; 200] Float32))
           (mkETensor [0; 100; 200] Float32) 3 Float16 eq_refl).
Defined.

Lemma toy_one_row : zlen (a_embeds (Toy.args (1 # 2)%Q [[1; 2; 3]] (Some 4) 4096
                                    CudagraphsManual)) <> 2.
Proof. vm_compute. discriminate. Qed.

(** X21 at a guided request with a prompt of one row. *)
Lemma guided_request_needs_two_rows_witness :
  at_toy inference_optimized Toy.fresh_t3
    (Toy.args (1 # 2)%Q [[1; 2; 3]] (Some 4) 4096 CudagraphsManual) 0
  = Raise RuntimeError.
Proof.
  exact (at_toy guided_request_needs_two_rows Toy.fresh_t3
           (Toy.args (1 # 2)%Q [[1; 2; 3]] (Some 4) 4096 CudagraphsManual) 0
           toy_vocab_ok eq_refl toy_one_row).
Defined.

(** X22 at the request with a budget of ten tokens. *)
Lemma request_leaves_object_ready_witness :
  let self' := snd (fst Toy.returned_long) in
  (top_p_warper_top_p self' == a_top_p Toy.request_long)%Q /\
  (min_p_warper_min_p self' == a_min_p Toy.request_long)%Q /\
  (repetition_penalty_processor_penalty self'
   == a_repetition_penalty Toy.request_long)%Q /\
  (exists c, speech_pos_embedding_cache self' = Some c /\
             TOKEN_LIMIT + 1 <= et_size0 c) /\
  (exists c, speech_embedding_cache self' = Some c /\ et_dtype c = Float32) /\
  (exists h, kv_cache self' = Some h) /\
  (exists w, cudagraph_wrapper self' = Some w).
Proof.
  exact (at_toy request_leaves_object_ready Toy.fresh_t3
           (snd (fst Toy.returned_long)) Toy.request_long 0
           (snd Toy.returned_long) (fst (fst Toy.returned_long))
           toy_returned_long).
Defined.

Lemma toy_fast_returned :
  generate_fast Z Z Z Toy.emb_add Toy.softmax Toy.multinomial Toy.tfmr
    Toy.speech_head Toy.hp Toy.direct_self [[1; 2; 3]]
    (4 # 5)%Q (1 # 20)%Q 1%Q (6 # 5)%Q 10 0%Q 0
  = Ok (fst (fst Toy.fast_returned), snd (fst Toy.fast_returned),
        snd Toy.fast_returned).
Proof. vm_compute. reflexivity. Qed.

(** X15 at a budget of ten tokens: the sixth draw is the stop token and
    five tokens are returned. *)
Lemma generate_fast_output_witness :
  fst (fst Toy.fast_returned) = [0; 1; 2; 3; 4] /\
  ~ In (stop_speech_token Toy.hp) (fst (fst Toy.fast_returned)) /\
  zlen (fst (fst Toy.fast_returned)) <= Z.max 0 10 /\
  Forall (fun t => exists r l, t = fst (Toy.multinomial r l))
    (fst (fst Toy.fast_returned)) /\
  snd (fst Toy.fast_returned) = ensure_graphs Z Toy.direct_self.
Proof.
  split; [reflexivity|].
  exact (generate_fast_output Z Z Z Toy.emb_add Toy.softmax Toy.multinomial
           Toy.tfmr Toy.speech_head Toy.hp Toy.direct_self
           (snd (fst Toy.fast_returned)) [[1; 2; 3]]
           (4 # 5)%Q (1 # 20)%Q 1%Q (6 # 5)%Q 10 0%Q 0
           (snd Toy.fast_returned) (fst (fst Toy.fast_returned))
           toy_fast_returned).
Defined.

Lemma toy_direct_cache :
  d_speech_pos_cache Z Toy.direct_self
  = Some (map Toy.get_fixed_embedding (py_range TOKEN_LIMIT)).
Proof. reflexivity. Qed.

(** X17 at an object built by [__init__] and a budget of ten tokens. *)
Lemma generate_fast_position_bound_witness :
  zlen (fst (fst Toy.fast_returned))
  <= zlen (map Toy.get_fixed_embedding (py_range TOKEN_LIMIT)).
Proof.
  exact (generate_fast_position_bound Z Z Z Toy.emb_add Toy.softmax
           Toy.multinomial Toy.tfmr Toy.speech_head Toy.hp Toy.direct_self
           (snd (fst Toy.fast_returned)) [[1; 2; 3]]
           (4 # 5)%Q (1 # 20)%Q 1%Q (6 # 5)%Q 10 0%Q 0
           (snd Toy.fast_returned) (fst (fst Toy.fast_returned))
           (map Toy.get_fixed_embedding (py_range TOKEN_LIMIT))
           toy_fast_returned toy_direct_cache).
Defined.

(** X18 at an object built by [__init__]. *)
Lemma direct_graphs_use_different_buffers_witness :
  let self' := ensure_graphs Z Toy.direct_self in
  exists embeds hidden hidden' logits st,
    d_forward_graph Z self' = Some (ForwardGraph embeds hidden) /\
    d_generate_graph Z self' = Some (GenerateGraph hidden' logits) /\
    d_static Z self' = Some st /\
    hidden' = static_hidden st /\ logits = static_logits st /\
    hidden <> hidden' /\ embeds <> static_embeds st /\
    ensure_graphs Z self' = self'.
Proof.
  exact (direct_graphs_use_different_buffers Z Toy.direct_self eq_refl eq_refl).
Defined.
